(** * hwcodec: the FFmpeg RAM encoder (cpp/ffmpeg_ram/ffmpeg_ram_encode.cpp)

    A shallow embedding of the encoder session of
    [ffmpeg_ram_encode.cpp]: the plane layout calculator, the session
    object [FFmpegRamEncoder] with its constructor, [init], [encode],
    [do_encode], [fill_frame], [set_bitrate] and [free_encoder], and the
    [extern "C"] entry points over a heap of session objects.

    FFmpeg itself is outside the repository.  Every call into it is
    recorded as an [Event] of a trace, and what it answers is supplied by
    an environment record, so that every statement below holds for
    whatever the engine answers. *)

From Stdlib Require Import ZArith List String Bool Lia Sorted.
From stdpp Require Import base option list gmap.
Import ListNotations.

Local Open Scope Z_scope.

(** ** C integers *)

(** Two's complement wrap-around of [z] to a signed integer of [bits] bits. *)
Definition wrap (bits z : Z) : Z :=
  (z + 2 ^ (bits - 1)) mod 2 ^ bits - 2 ^ (bits - 1).

Definition INT_MAX : Z := 2 ^ 31 - 1.

(** [int] arithmetic: [+], [*] and the truncating [/] of C. *)
Definition int_add (a b : Z) : Z := wrap 32 (a + b).
Definition int_mul (a b : Z) : Z := wrap 32 (a * b).
Definition int_div (a b : Z) : Z := wrap 32 (Z.quot a b).

(** [int64_t] subtraction, and the conversion of a [uint64_t] argument to
    an [int64_t] parameter. *)
Definition int64_sub (a b : Z) : Z := wrap 64 (a - b).
Definition to_int64 (a : Z) : Z := wrap 64 a.

(** ** Constants of the FFmpeg headers *)

Definition AV_NUM_DATA_POINTERS : nat := 8.

(** libavutil/pixfmt.h: the tags of [enum AVPixelFormat] the code names
    and whose values are the same in every FFmpeg release. *)
Definition AV_PIX_FMT_NONE : Z := -1.
Definition AV_PIX_FMT_YUV420P : Z := 0.
Definition AV_PIX_FMT_NV12 : Z := 23.

(** libavcodec/packet.h and errno.h: [AVERROR] negates a POSIX error
    code; [EAGAIN] is 11 on Linux and Windows. *)
Definition AV_PKT_FLAG_KEY : Z := 1.
Definition EAGAIN : Z := 11.
Definition AVERROR (e : Z) : Z := - e.

(** libavcodec/avcodec.h *)
Definition AV_CODEC_FLAG2_LOCAL_HEADER : Z := Z.shiftl 1 3.
Definition AV_CODEC_FLAG_LOW_DELAY : Z := Z.shiftl 1 19.
Definition FF_THREAD_SLICE : Z := 2.

Inductive AVColorRange := AVCOL_RANGE_UNSPECIFIED | AVCOL_RANGE_MPEG | AVCOL_RANGE_JPEG.
Inductive AVColorCharacteristic := AVCOL_UNSPECIFIED | AVCOL_SMPTE170M.

(** libavutil/hwcontext.h: the device types the constructor can select. *)
Inductive AVHWDeviceType :=
  | AV_HWDEVICE_TYPE_NONE
  | AV_HWDEVICE_TYPE_VAAPI
  | AV_HWDEVICE_TYPE_D3D11VA.

(** What a build fixes: whether [_WIN32] is defined, and the tags of the
    two hardware surface formats, whose values differ between FFmpeg
    releases. *)
Class Build := {
  WIN32 : bool;
  AV_PIX_FMT_VAAPI : Z;
  AV_PIX_FMT_D3D11 : Z
}.

(** ** Engine objects, as far as the encoder reads or writes them *)

Record AVHWFramesContext := {
  fc_format : Z;
  fc_sw_format : Z;
  fc_width : Z;
  fc_height : Z;
  fc_initial_pool_size : Z
}.

Record AVFrame := {
  format : Z;
  width : Z;
  height : Z;
  linesize : list Z;
  (** plane pointers, as addresses; 0 is NULL *)
  data : list Z;
  hw_frames_ctx : option AVHWFramesContext
}.

Record AVPacket := {
  pkt_data : Z;
  pkt_size : Z;
  pkt_flags : Z
}.

Record AVCodecContext := {
  c_width : Z;
  c_height : Z;
  c_pix_fmt : Z;
  c_sw_pix_fmt : Z;
  c_has_b_frames : Z;
  c_max_b_frames : Z;
  c_gop_size : Z;
  c_bit_rate : Z;
  c_rc_max_rate : Z;
  c_time_base : Z * Z;
  c_framerate : Z * Z;
  c_flags : Z;
  c_thread_count : Z;
  c_thread_type : Z;
  c_color_range : AVColorRange;
  c_colorspace : AVColorCharacteristic;
  c_color_primaries : AVColorCharacteristic;
  c_color_trc : AVColorCharacteristic;
  c_hw_frames_ctx : option AVHWFramesContext
}.

(** ** Traces *)

(** One entry per call that leaves the translation unit: a log line, the
    packet callback, or a call into FFmpeg (or into [util::], [Adapters::]).
    [LOG_ERROR] keeps the constant head of the message. *)
Inductive Event :=
  | LOG_ERROR (msg : string)
  | callback (cb : Z) (data len pts key obj : Z)
  | av_frame_alloc
  | av_frame_get_buffer (fmt w h align : Z)
  | av_frame_free
  | av_frame_make_writable
  | av_packet_alloc
  | av_packet_free
  | av_packet_unref
  | avcodec_find_encoder_by_name (name : string)
  | avcodec_alloc_context3
  | avcodec_free_context
  | GetFirstAdapterIndex
  | av_hwdevice_ctx_create (type : AVHWDeviceType) (device : option Z)
  | av_hwframe_ctx_alloc
  | av_hwframe_ctx_init (fc : AVHWFramesContext)
  | av_buffer_ref
  | av_buffer_unref
  | av_hwframe_get_buffer
  | av_hwframe_transfer_data
  | set_lantency_free (name : string)
  | set_quality (name : string) (quality : Z)
  | set_rate_control (name : string) (rc : Z)
  | set_gpu (name : string) (gpu : Z)
  | force_hw (name : string)
  | set_others (name : string)
  | avcodec_open2 (c : AVCodecContext)
  | avcodec_send_frame (frame : option AVFrame)
  | avcodec_receive_packet.

Definition Trace := list Event.

(** Is the event a packet callback? *)
Definition is_callback (e : Event) : bool :=
  match e with callback _ _ _ _ _ _ => true | _ => false end.

(** Is the event a frame handed to the engine? *)
Definition is_send_frame (e : Event) : bool :=
  match e with avcodec_send_frame _ => true | _ => false end.

(** The presentation offsets handed to the callback, in order. *)
Fixpoint callback_pts (t : Trace) : list Z :=
  match t with
  | [] => []
  | callback _ _ _ pts _ _ :: t' => pts :: callback_pts t'
  | _ :: t' => callback_pts t'
  end.

(** ** Arrays *)

(** [a[i]] of an [int] array; the arrays of the code have
    [AV_NUM_DATA_POINTERS] entries. *)
Definition at_ (a : list Z) (i : nat) : Z := nth i a 0.

Definition zeros : list Z := repeat 0 AV_NUM_DATA_POINTERS.

(** [for (i = 0; i < AV_NUM_DATA_POINTERS; i++) dst[i] = src[i];] *)
Definition copy_all (src dst : list Z) : list Z :=
  firstn AV_NUM_DATA_POINTERS src ++ skipn AV_NUM_DATA_POINTERS dst.

(** [for (i = 0; i < AV_NUM_DATA_POINTERS; i++) { if (src[i] == 0) break;
    dst[i] = src[i]; }], started at index [i]. *)
Fixpoint copy_until_zero (i : nat) (src dst : list Z) : list Z :=
  match src with
  | [] => dst
  | x :: src' =>
      if x =? 0 then dst else copy_until_zero (S i) src' (<[i := x]> dst)
  end.

(** ** The plane layout calculator *)

(** [calculate_offset_length]: the result code, the [offset] array and
    [*length] after the call, and the log. *)
Definition calculate_offset_length (pix_fmt height : Z) (linesize offset : list Z)
    (length : Z) : Z * list Z * Z * Trace :=
  if pix_fmt =? AV_PIX_FMT_YUV420P then
    let offset := <[0%nat := int_mul (at_ linesize 0) height]> offset in
    let offset :=
      <[1%nat := int_add (at_ offset 0) (int_div (int_mul (at_ linesize 1) height) 2)]>
        offset in
    let length := int_add (at_ offset 1) (int_div (int_mul (at_ linesize 2) height) 2) in
    (0, offset, length, [])
  else if pix_fmt =? AV_PIX_FMT_NV12 then
    let offset := <[0%nat := int_mul (at_ linesize 0) height]> offset in
    let length := int_add (at_ offset 0) (int_div (int_mul (at_ linesize 1) height) 2) in
    (0, offset, length, [])
  else
    (-1, offset, length, [LOG_ERROR "unsupported pixfmt"]).

(** What FFmpeg answers during one call of
    [ffmpeg_ram_get_linesize_offset_length]: whether [av_frame_alloc]
    returns a frame, and the result code of [av_frame_get_buffer] with the
    strides it leaves in [frame->linesize]. *)
Record LayoutEnv := {
  env_frame_alloc : bool;
  env_get_buffer : Z * list Z
}.

(** The caller's three output pointers: [None] is a NULL pointer, [Some]
    holds what the pointer points to. *)
Record LayoutOut := {
  out_linesize : option (list Z);
  out_offset : option (list Z);
  out_length : option Z
}.

(** [ffmpeg_ram_get_linesize_offset_length]: result code, the caller's
    outputs after the call, and the trace. *)
Definition ffmpeg_ram_get_linesize_offset_length (E : LayoutEnv)
    (pix_fmt width height align : Z) (out : LayoutOut) : Z * LayoutOut * Trace :=
  let ioffset := zeros in
  let ilength := 0 in
  if negb (env_frame_alloc E) then
    (-1, out, [av_frame_alloc; LOG_ERROR "Alloc frame failed"])
  else
    let t0 := [av_frame_alloc; av_frame_get_buffer pix_fmt width height align] in
    let '(ret, frame_linesize) := env_get_buffer E in
    if ret <? 0 then
      (ret, out, t0 ++ [LOG_ERROR "av_frame_get_buffer, ret = "; av_frame_free])
    else
      let linesize' :=
        match out_linesize out with
        | Some l => Some (copy_all frame_linesize l)
        | None => None
        end in
      let out1 := {| out_linesize := linesize';
                     out_offset := out_offset out;
                     out_length := out_length out |} in
      let requested :=
        match out_offset out, out_length out with
        | None, None => false
        | _, _ => true
        end in
      let '(ret, ioffset, ilength, t1) :=
        if requested
        then calculate_offset_length pix_fmt height frame_linesize ioffset ilength
        else (ret, ioffset, ilength, []) in
      if requested && (ret <? 0) then
        (ret, out1, t0 ++ t1 ++ [av_frame_free])
      else
        let offset' :=
          match out_offset out with
          | Some o => Some (copy_until_zero 0 ioffset o)
          | None => None
          end in
        let length' :=
          match out_length out with
          | Some _ => Some ilength
          | None => None
          end in
        (0,
         {| out_linesize := linesize'; out_offset := offset'; out_length := length' |},
         t0 ++ t1 ++ [av_frame_free]).

(** ** The session object *)

(** [class FFmpegRamEncoder].  A pointer member is an [option]: [None] is
    NULL.  [callback_] is the address of the caller's function. *)
Record FFmpegRamEncoder := {
  c_ : option AVCodecContext;
  frame_ : option AVFrame;
  pkt_ : option AVPacket;
  name_ : string;
  first_ms_ : Z;
  width_ : Z;
  height_ : Z;
  pixfmt_ : Z;
  align_ : Z;
  bit_rate_ : Z;
  time_base_num_ : Z;
  time_base_den_ : Z;
  gop_ : Z;
  quality_ : Z;
  rc_ : Z;
  thread_count_ : Z;
  gpu_ : Z;
  callback_ : Z;
  offset_ : list Z;
  hw_device_type_ : AVHWDeviceType;
  hw_pixfmt_ : Z;
  hw_device_ctx_ : bool;
  hw_frame_ : option AVFrame
}.

(** Assignments to the members that change after construction. *)
Definition set_c_ (v : option AVCodecContext) (s : FFmpegRamEncoder) :=
  {| c_ := v; frame_ := frame_ s; pkt_ := pkt_ s; name_ := name_ s;
     first_ms_ := first_ms_ s; width_ := width_ s; height_ := height_ s;
     pixfmt_ := pixfmt_ s; align_ := align_ s; bit_rate_ := bit_rate_ s;
     time_base_num_ := time_base_num_ s; time_base_den_ := time_base_den_ s;
     gop_ := gop_ s; quality_ := quality_ s; rc_ := rc_ s;
     thread_count_ := thread_count_ s; gpu_ := gpu_ s; callback_ := callback_ s;
     offset_ := offset_ s; hw_device_type_ := hw_device_type_ s;
     hw_pixfmt_ := hw_pixfmt_ s; hw_device_ctx_ := hw_device_ctx_ s;
     hw_frame_ := hw_frame_ s |}.

Definition set_frame_ (v : option AVFrame) (s : FFmpegRamEncoder) :=
  {| c_ := c_ s; frame_ := v; pkt_ := pkt_ s; name_ := name_ s;
     first_ms_ := first_ms_ s; width_ := width_ s; height_ := height_ s;
     pixfmt_ := pixfmt_ s; align_ := align_ s; bit_rate_ := bit_rate_ s;
     time_base_num_ := time_base_num_ s; time_base_den_ := time_base_den_ s;
     gop_ := gop_ s; quality_ := quality_ s; rc_ := rc_ s;
     thread_count_ := thread_count_ s; gpu_ := gpu_ s; callback_ := callback_ s;
     offset_ := offset_ s; hw_device_type_ := hw_device_type_ s;
     hw_pixfmt_ := hw_pixfmt_ s; hw_device_ctx_ := hw_device_ctx_ s;
     hw_frame_ := hw_frame_ s |}.

Definition set_pkt_ (v : option AVPacket) (s : FFmpegRamEncoder) :=
  {| c_ := c_ s; frame_ := frame_ s; pkt_ := v; name_ := name_ s;
     first_ms_ := first_ms_ s; width_ := width_ s; height_ := height_ s;
     pixfmt_ := pixfmt_ s; align_ := align_ s; bit_rate_ := bit_rate_ s;
     time_base_num_ := time_base_num_ s; time_base_den_ := time_base_den_ s;
     gop_ := gop_ s; quality_ := quality_ s; rc_ := rc_ s;
     thread_count_ := thread_count_ s; gpu_ := gpu_ s; callback_ := callback_ s;
     offset_ := offset_ s; hw_device_type_ := hw_device_type_ s;
     hw_pixfmt_ := hw_pixfmt_ s; hw_device_ctx_ := hw_device_ctx_ s;
     hw_frame_ := hw_frame_ s |}.

Definition set_first_ms_ (v : Z) (s : FFmpegRamEncoder) :=
  {| c_ := c_ s; frame_ := frame_ s; pkt_ := pkt_ s; name_ := name_ s;
     first_ms_ := v; width_ := width_ s; height_ := height_ s;
     pixfmt_ := pixfmt_ s; align_ := align_ s; bit_rate_ := bit_rate_ s;
     time_base_num_ := time_base_num_ s; time_base_den_ := time_base_den_ s;
     gop_ := gop_ s; quality_ := quality_ s; rc_ := rc_ s;
     thread_count_ := thread_count_ s; gpu_ := gpu_ s; callback_ := callback_ s;
     offset_ := offset_ s; hw_device_type_ := hw_device_type_ s;
     hw_pixfmt_ := hw_pixfmt_ s; hw_device_ctx_ := hw_device_ctx_ s;
     hw_frame_ := hw_frame_ s |}.

Definition set_offset_ (v : list Z) (s : FFmpegRamEncoder) :=
  {| c_ := c_ s; frame_ := frame_ s; pkt_ := pkt_ s; name_ := name_ s;
     first_ms_ := first_ms_ s; width_ := width_ s; height_ := height_ s;
     pixfmt_ := pixfmt_ s; align_ := align_ s; bit_rate_ := bit_rate_ s;
     time_base_num_ := time_base_num_ s; time_base_den_ := time_base_den_ s;
     gop_ := gop_ s; quality_ := quality_ s; rc_ := rc_ s;
     thread_count_ := thread_count_ s; gpu_ := gpu_ s; callback_ := callback_ s;
     offset_ := v; hw_device_type_ := hw_device_type_ s;
     hw_pixfmt_ := hw_pixfmt_ s; hw_device_ctx_ := hw_device_ctx_ s;
     hw_frame_ := hw_frame_ s |}.

Definition set_hw_device_ctx_ (v : bool) (s : FFmpegRamEncoder) :=
  {| c_ := c_ s; frame_ := frame_ s; pkt_ := pkt_ s; name_ := name_ s;
     first_ms_ := first_ms_ s; width_ := width_ s; height_ := height_ s;
     pixfmt_ := pixfmt_ s; align_ := align_ s; bit_rate_ := bit_rate_ s;
     time_base_num_ := time_base_num_ s; time_base_den_ := time_base_den_ s;
     gop_ := gop_ s; quality_ := quality_ s; rc_ := rc_ s;
     thread_count_ := thread_count_ s; gpu_ := gpu_ s; callback_ := callback_ s;
     offset_ := offset_ s; hw_device_type_ := hw_device_type_ s;
     hw_pixfmt_ := hw_pixfmt_ s; hw_device_ctx_ := v;
     hw_frame_ := hw_frame_ s |}.

Definition set_hw_frame_ (v : option AVFrame) (s : FFmpegRamEncoder) :=
  {| c_ := c_ s; frame_ := frame_ s; pkt_ := pkt_ s; name_ := name_ s;
     first_ms_ := first_ms_ s; width_ := width_ s; height_ := height_ s;
     pixfmt_ := pixfmt_ s; align_ := align_ s; bit_rate_ := bit_rate_ s;
     time_base_num_ := time_base_num_ s; time_base_den_ := time_base_den_ s;
     gop_ := gop_ s; quality_ := quality_ s; rc_ := rc_ s;
     thread_count_ := thread_count_ s; gpu_ := gpu_ s; callback_ := callback_ s;
     offset_ := offset_ s; hw_device_type_ := hw_device_type_ s;
     hw_pixfmt_ := hw_pixfmt_ s; hw_device_ctx_ := hw_device_ctx_ s;
     hw_frame_ := v |}.

(** ** Member functions as state transformers *)

(** A member function reads and writes [*this], appends to the trace and
    returns a value; [None] is undefined behaviour (a NULL member is
    dereferenced). *)
Definition M (A : Type) : Type :=
  FFmpegRamEncoder -> option (A * FFmpegRamEncoder * Trace).

Definition ret {A} (a : A) : M A := fun s => Some (a, s, []).

Definition bind {A B} (m : M A) (k : A -> M B) : M B :=
  fun s =>
    match m s with
    | None => None
    | Some (a, s1, t1) =>
        match k a s1 with
        | None => None
        | Some (b, s2, t2) => Some (b, s2, t1 ++ t2)
        end
    end.

Definition get : M FFmpegRamEncoder := fun s => Some (s, s, []).
Definition modify (f : FFmpegRamEncoder -> FFmpegRamEncoder) : M unit :=
  fun s => Some (tt, f s, []).
Definition emit (e : Event) : M unit := fun s => Some (tt, s, [e]).
Definition emits (t : Trace) : M unit := fun s => Some (tt, s, t).

(** [*p] for a pointer member [p]. *)
Definition deref {A} (p : FFmpegRamEncoder -> option A) : M A :=
  fun s => match p s with Some a => Some (a, s, []) | None => None end.

Declare Scope m_scope.
Delimit Scope m_scope with M.
Notation "x <- c1 ;; c2" := (bind c1 (fun x => c2))
  (at level 100, c1 at next level, right associativity) : m_scope.
Notation "c1 ;; c2" := (bind c1 (fun _ => c2))
  (at level 100, right associativity) : m_scope.
Local Open Scope m_scope.

(** ** Construction *)

(** [s.find(pat)]: the position of the first occurrence of [pat] in [s];
    [None] is [std::string::npos]. *)
Definition find (s pat : string) : option nat := String.index 0 pat s.

(** [s.find(pat) != std::string::npos] *)
Definition contains (s pat : string) : bool :=
  match find s pat with Some _ => true | None => false end.

Section Encoder.
Context {build : Build}.

(** The constructor [FFmpegRamEncoder::FFmpegRamEncoder]: the members take
    their default initialisers, then the arguments; the hardware back-end
    is chosen from the codec name. *)
Definition new_FFmpegRamEncoder (name : string)
    (width height pixfmt align bit_rate time_base_num time_base_den gop quality
     rc thread_count gpu callback : Z) : FFmpegRamEncoder :=
  let '(hw_device_type, hw_pixfmt) :=
    if contains name "vaapi" then (AV_HWDEVICE_TYPE_VAAPI, AV_PIX_FMT_VAAPI)
    else if contains name "nvenc" then
      if WIN32 then (AV_HWDEVICE_TYPE_D3D11VA, AV_PIX_FMT_D3D11)
      else (AV_HWDEVICE_TYPE_NONE, AV_PIX_FMT_NONE)
    else (AV_HWDEVICE_TYPE_NONE, AV_PIX_FMT_NONE) in
  {| c_ := None; frame_ := None; pkt_ := None; name_ := name; first_ms_ := 0;
     width_ := width; height_ := height; pixfmt_ := pixfmt; align_ := align;
     bit_rate_ := bit_rate; time_base_num_ := time_base_num;
     time_base_den_ := time_base_den; gop_ := gop; quality_ := quality;
     rc_ := rc; thread_count_ := thread_count; gpu_ := gpu;
     callback_ := callback; offset_ := zeros;
     hw_device_type_ := hw_device_type; hw_pixfmt_ := hw_pixfmt;
     hw_device_ctx_ := false; hw_frame_ := None |}.

(** ** Initialisation *)

(** What the engine answers during [init], call by call. *)
Record InitEnv := {
  (** [avcodec_find_encoder_by_name] finds the codec *)
  env_find_encoder : bool;
  (** [avcodec_alloc_context3]: the context with the engine's defaults, or NULL *)
  env_alloc_context3 : option AVCodecContext;
  (** [Adapters::GetFirstAdapterIndex] *)
  env_adapter_index : Z;
  env_hwdevice_ctx_create : Z;
  env_hwframe_ctx_alloc : bool;
  env_hwframe_ctx_init : Z;
  env_buffer_ref : bool;
  env_hw_frame_alloc : bool;
  env_hwframe_get_buffer : Z;
  (** the plane pointers [av_hwframe_get_buffer] leaves in [hw_frame_->data] *)
  env_hw_frame_data : list Z;
  (** [hw_frame_->hw_frames_ctx] is set by [av_hwframe_get_buffer] *)
  env_hw_frame_has_ctx : bool;
  env_init_frame_alloc : bool;
  (** [av_frame_get_buffer] on [frame_]: its result code and the strides it
      leaves in [frame_->linesize] *)
  env_init_get_buffer : Z * list Z;
  (** the plane pointers [av_frame_get_buffer] leaves in [frame_->data]: the
      addresses of the buffers it allocated *)
  env_init_frame_data : list Z;
  env_packet_alloc : bool;
  (** [util::set_lantency_free] *)
  env_set_lantency_free : bool;
  env_open2 : Z;
  (** the answers to the layout query made at the end of [init] *)
  env_layout : LayoutEnv
}.

Definition is_none (t : AVHWDeviceType) : bool :=
  match t with AV_HWDEVICE_TYPE_NONE => true | _ => false end.

(** [c_->field = ...] *)
Definition update_c_ (f : AVCodecContext -> AVCodecContext) : M unit :=
  c <- deref c_;; modify (set_c_ (Some (f c))).

Definition with_hw_frames_ctx (v : option AVHWFramesContext) (c : AVCodecContext) :=
  {| c_width := c_width c; c_height := c_height c; c_pix_fmt := c_pix_fmt c;
     c_sw_pix_fmt := c_sw_pix_fmt c; c_has_b_frames := c_has_b_frames c;
     c_max_b_frames := c_max_b_frames c; c_gop_size := c_gop_size c;
     c_bit_rate := c_bit_rate c; c_rc_max_rate := c_rc_max_rate c;
     c_time_base := c_time_base c; c_framerate := c_framerate c;
     c_flags := c_flags c; c_thread_count := c_thread_count c;
     c_thread_type := c_thread_type c; c_color_range := c_color_range c;
     c_colorspace := c_colorspace c; c_color_primaries := c_color_primaries c;
     c_color_trc := c_color_trc c; c_hw_frames_ctx := v |}.

Definition with_bit_rate (v : Z) (c : AVCodecContext) :=
  {| c_width := c_width c; c_height := c_height c; c_pix_fmt := c_pix_fmt c;
     c_sw_pix_fmt := c_sw_pix_fmt c; c_has_b_frames := c_has_b_frames c;
     c_max_b_frames := c_max_b_frames c; c_gop_size := c_gop_size c;
     c_bit_rate := v; c_rc_max_rate := c_rc_max_rate c;
     c_time_base := c_time_base c; c_framerate := c_framerate c;
     c_flags := c_flags c; c_thread_count := c_thread_count c;
     c_thread_type := c_thread_type c; c_color_range := c_color_range c;
     c_colorspace := c_colorspace c; c_color_primaries := c_color_primaries c;
     c_color_trc := c_color_trc c; c_hw_frames_ctx := c_hw_frames_ctx c |}.

(** [FFmpegRamEncoder::set_hwframe_ctx] *)
Definition set_hwframe_ctx (E : InitEnv) : M Z :=
  emit av_hwframe_ctx_alloc;;
  if negb (env_hwframe_ctx_alloc E) then
    emit (LOG_ERROR "av_hwframe_ctx_alloc failed");; ret (-1)
  else
    s <- get;;
    let frames_ctx :=
      {| fc_format := hw_pixfmt_ s; fc_sw_format := pixfmt_ s;
         fc_width := width_ s; fc_height := height_ s;
         fc_initial_pool_size := 1 |} in
    emit (av_hwframe_ctx_init frames_ctx);;
    let err := env_hwframe_ctx_init E in
    if err <? 0 then
      emit av_buffer_unref;; ret err
    else
      emit av_buffer_ref;;
      update_c_ (with_hw_frames_ctx
                   (if env_buffer_ref E then Some frames_ctx else None));;
      err <- (if env_buffer_ref E then ret err
              else emit (LOG_ERROR "av_buffer_ref failed");; ret (-1));;
      emit av_buffer_unref;;
      ret err.

(** The assignments to [*c_] between the allocation of the packet and the
    [util::] calls of [init]. *)
Definition configure (s : FFmpegRamEncoder) (c : AVCodecContext) : AVCodecContext :=
  let set_rate := 1000 <=? bit_rate_ s in
  {| c_width := width_ s;
     c_height := height_ s;
     c_pix_fmt :=
       if negb (hw_pixfmt_ s =? AV_PIX_FMT_NONE) then hw_pixfmt_ s else pixfmt_ s;
     c_sw_pix_fmt := pixfmt_ s;
     c_has_b_frames := 0;
     c_max_b_frames := 0;
     c_gop_size := gop_ s;
     c_bit_rate := if set_rate then bit_rate_ s else c_bit_rate c;
     c_rc_max_rate :=
       if set_rate && contains (name_ s) "qsv" then bit_rate_ s else c_rc_max_rate c;
     c_time_base := (time_base_num_ s, time_base_den_ s);
     c_framerate := (time_base_den_ s, time_base_num_ s);
     c_flags :=
       Z.lor (Z.lor (c_flags c) AV_CODEC_FLAG2_LOCAL_HEADER) AV_CODEC_FLAG_LOW_DELAY;
     c_thread_count := thread_count_ s;
     c_thread_type := FF_THREAD_SLICE;
     c_color_range := AVCOL_RANGE_MPEG;
     c_colorspace := AVCOL_SMPTE170M;
     c_color_primaries := AVCOL_SMPTE170M;
     c_color_trc := AVCOL_SMPTE170M;
     c_hw_frames_ctx := c_hw_frames_ctx c |}.

Definition log_false (msg : string) : M bool :=
  emit (LOG_ERROR msg);; ret false.

Definition log_fail {A} (out : A) (msg : string) : M (bool * A) :=
  emit (LOG_ERROR msg);; ret (false, out).

(** The block of [init] guarded by [hw_device_type_ != AV_HWDEVICE_TYPE_NONE];
    [true] when it ran to its end. *)
Definition init_hw (E : InitEnv) : M bool :=
  s <- get;;
  device <- (if WIN32 && contains (name_ s) "nvenc" then
               emit GetFirstAdapterIndex;;
               ret (if 0 <=? env_adapter_index E then Some (env_adapter_index E)
                    else None)
             else ret None);;
  emit (av_hwdevice_ctx_create (hw_device_type_ s) device);;
  modify (set_hw_device_ctx_ (0 <=? env_hwdevice_ctx_create E));;
  if env_hwdevice_ctx_create E <? 0 then log_false "av_hwdevice_ctx_create failed"
  else
    err <- set_hwframe_ctx E;;
    if negb (err =? 0) then log_false "set_hwframe_ctx failed"
    else
      emit av_frame_alloc;;
      if negb (env_hw_frame_alloc E) then log_false "av_frame_alloc failed"
      else
        c <- deref c_;;
        emit av_hwframe_get_buffer;;
        modify (set_hw_frame_
          (Some {| format := hw_pixfmt_ s; width := width_ s; height := height_ s;
                   linesize := zeros; data := env_hw_frame_data E;
                   hw_frames_ctx :=
                     if env_hw_frame_has_ctx E then c_hw_frames_ctx c else None |}));;
        if env_hwframe_get_buffer E <? 0 then
          log_false "av_hwframe_get_buffer failed, ret = "
        else
          hw_frame <- deref hw_frame_;;
          match hw_frames_ctx hw_frame with
          | None => log_false "hw_frame_->hw_frames_ctx is NULL"
          | Some _ => ret true
          end.

(** [FFmpegRamEncoder::init].  [linesize] and [offset] are the caller's
    arrays (written without a NULL test), [length] the caller's [int *].
    Returns the result with the three outputs after the call. *)
Definition init (E : InitEnv) (linesize offset : list Z) (length : option Z)
    : M (bool * (list Z * list Z * option Z)) :=
  let out := (linesize, offset, length) in
  s <- get;;
  emit (avcodec_find_encoder_by_name (name_ s));;
  if negb (env_find_encoder E) then log_fail out "Codec not found"
  else
    emit avcodec_alloc_context3;;
    modify (set_c_ (env_alloc_context3 E));;
    match env_alloc_context3 E with
    | None => log_fail out "Could not allocate video codec context"
    | Some _ =>
      hw_ok <- (if negb (is_none (hw_device_type_ s)) then init_hw E else ret true);;
      if negb hw_ok then ret (false, out)
      else
        emit av_frame_alloc;;
        if negb (env_init_frame_alloc E) then log_fail out "Could not allocate video frame"
        else
          emit (av_frame_get_buffer (pixfmt_ s) (width_ s) (height_ s) (align_ s));;
          let '(r, frame_linesize) := env_init_get_buffer E in
          modify (set_frame_
            (Some {| format := pixfmt_ s; width := width_ s; height := height_ s;
                     linesize := frame_linesize; data := env_init_frame_data E;
                     hw_frames_ctx := None |}));;
          if r <? 0 then log_fail out "av_frame_get_buffer failed, ret = "
          else
            emit av_packet_alloc;;
            if negb (env_packet_alloc E) then log_fail out "Could not allocate video packet"
            else
              modify (set_pkt_ (Some {| pkt_data := 0; pkt_size := 0; pkt_flags := 0 |}));;
              update_c_ (configure s);;
              emit (set_lantency_free (name_ s));;
              if negb (env_set_lantency_free E) then log_fail out "set_lantency_free failed, name: "
              else
                emits [set_quality (name_ s) (quality_ s);
                       set_rate_control (name_ s) (rc_ s);
                       set_gpu (name_ s) (gpu_ s);
                       force_hw (name_ s);
                       set_others (name_ s)];;
                c <- deref c_;;
                emit (avcodec_open2 c);;
                if env_open2 E <? 0 then log_fail out "avcodec_open2 failed, ret = "
                else
                  modify (set_first_ms_ 0);;
                  s1 <- get;;
                  let '(r, lout, t) :=
                    ffmpeg_ram_get_linesize_offset_length (env_layout E)
                      (pixfmt_ s) (width_ s) (height_ s) (align_ s)
                      {| out_linesize := None; out_offset := Some (offset_ s1);
                         out_length := length |} in
                  emits t;;
                  modify (set_offset_ (default (offset_ s1) (out_offset lout)));;
                  if negb (r =? 0) then ret (false, (linesize, offset, out_length lout))
                  else
                    s2 <- get;;
                    ret (true, (copy_all frame_linesize linesize,
                                copy_all (offset_ s2) offset,
                                out_length lout))
    end.

End Encoder.

(** ** Submission *)

Definition with_data (d : list Z) (f : AVFrame) : AVFrame :=
  {| format := format f; width := width f; height := height f;
     linesize := linesize f; data := d; hw_frames_ctx := hw_frames_ctx f |}.

(** [FFmpegRamEncoder::fill_frame]: the result code, the frame after the
    call and the log.  [data] is the address of the caller's buffer. *)
Definition fill_frame (frame : AVFrame) (data_ptr data_length : Z) (offset : list Z)
    : Z * AVFrame * Trace :=
  let ls := linesize frame in
  if format frame =? AV_PIX_FMT_NV12 then
    if data_length <?
       int_mul (height frame) (int_add (at_ ls 0) (int_div (at_ ls 1) 2))
    then (-1, frame, [LOG_ERROR "fill_frame: NV12 data length error. data_length:"])
    else
      let d := <[0%nat := data_ptr]> (data frame) in
      let d := <[1%nat := data_ptr + at_ offset 0]> d in
      (0, with_data d frame, [])
  else if format frame =? AV_PIX_FMT_YUV420P then
    if data_length <?
       int_mul (height frame)
         (int_add (int_add (at_ ls 0) (int_div (at_ ls 1) 2)) (int_div (at_ ls 2) 2))
    then (-1, frame, [LOG_ERROR "fill_frame: 420P data length error. data_length:"])
    else
      let d := <[0%nat := data_ptr]> (data frame) in
      let d := <[1%nat := data_ptr + at_ offset 0]> d in
      let d := <[2%nat := data_ptr + at_ offset 1]> d in
      (0, with_data d frame, [])
  else (-1, frame, [LOG_ERROR "fill_frame: unsupported format, "]).

(** What the engine answers during one [encode]: the result codes of
    [av_frame_make_writable], [av_hwframe_transfer_data] and
    [avcodec_send_frame], and the successive answers of
    [avcodec_receive_packet], each a result code with the packet it leaves
    in [pkt_].  Past the end of that list the engine has no output left and
    answers [AVERROR(EAGAIN)]. *)
Record EncodeEnv := {
  env_make_writable : Z;
  env_hwframe_transfer : Z;
  env_send_frame : Z;
  env_receive_packet : list (Z * AVPacket)
}.

(** The exit of the drain loop on a negative result [r] of
    [avcodec_receive_packet]: only the log tells [AVERROR(EAGAIN)] apart. *)
Definition receive_failed (r : Z) : M unit :=
  if negb (r =? AVERROR EAGAIN)
  then emit (LOG_ERROR "avcodec_receive_packet failed, ret = ")
  else ret tt.

(** The [while (ret >= 0)] loop of [do_encode]; returns [encoded].
    [callback_] is called with no NULL test, and [ms - first_ms_] is an
    [int64_t] subtraction.  The [callback] event records the address that
    is called and the offset as a two's complement machine computes it.  A
    call at address 0 and a difference outside [int64_t] are undefined
    behaviour in the source: a run is the source's up to such an event, and
    it has none when [callback_] is not NULL and the timestamps and
    [first_ms_] are below 2^63. *)
Fixpoint receive_loop (answers : list (Z * AVPacket)) (obj ms : Z) (encoded : bool)
    : M bool :=
  emit avcodec_receive_packet;;
  match answers with
  | [] => receive_failed (AVERROR EAGAIN);; ret encoded
  | (r, pkt) :: answers' =>
      _ <- deref pkt_;;
      modify (set_pkt_ (Some pkt));;
      if r <? 0 then receive_failed r;; ret encoded
      else
        s <- get;;
        (if first_ms_ s =? 0 then modify (set_first_ms_ ms) else ret tt);;
        s <- get;;
        pkt <- deref pkt_;;
        emit (callback (callback_ s) (pkt_data pkt) (pkt_size pkt)
                (int64_sub ms (first_ms_ s))
                (Z.land (pkt_flags pkt) AV_PKT_FLAG_KEY) obj);;
        receive_loop answers' obj ms true
  end.

(** [FFmpegRamEncoder::do_encode] *)
Definition do_encode (E : EncodeEnv) (frame : option AVFrame) (obj ms : Z) : M Z :=
  emit (avcodec_send_frame frame);;
  let r := env_send_frame E in
  if r <? 0 then
    emit (LOG_ERROR "avcodec_send_frame failed, ret = ");; ret r
  else
    encoded <- receive_loop (env_receive_packet E) obj ms false;;
    emit av_packet_unref;;
    ret (if encoded then 0 else -1).

(** [FFmpegRamEncoder::encode]; [ms] arrives as a [uint64_t] and is passed
    on as an [int64_t]. *)
Definition encode (E : EncodeEnv) (data_ptr length obj ms : Z) : M Z :=
  frame <- deref frame_;;
  emit av_frame_make_writable;;
  let r := env_make_writable E in
  if negb (r =? 0) then
    emit (LOG_ERROR "av_frame_make_writable failed, ret = ");; ret r
  else
    s <- get;;
    let '(r, frame', t) := fill_frame frame data_ptr length (offset_ s) in
    modify (set_frame_ (Some frame'));;
    emits t;;
    if negb (r =? 0) then ret r
    else if negb (is_none (hw_device_type_ s)) then
      emit av_hwframe_transfer_data;;
      if env_hwframe_transfer E <? 0 then
        emit (LOG_ERROR "av_hwframe_transfer_data failed, ret = ");;
        ret (env_hwframe_transfer E)
      else do_encode E (hw_frame_ s) obj (to_int64 ms)
    else do_encode E (Some frame') obj (to_int64 ms).

(** ** Bitrate and teardown *)

(** [FFmpegRamEncoder::set_bitrate] *)
Definition set_bitrate (bitrate : Z) : M Z :=
  s <- get;;
  if contains (name_ s) "nvenc" || contains (name_ s) "amf" then
    update_c_ (with_bit_rate bitrate);; ret 0
  else
    emit (LOG_ERROR "ffmpeg_ram_set_bitrate does not implement bitrate change");;
    ret (-1).

(** [if (p) { release(&p); }] for a pointer member: the release function
    is called and the member becomes NULL. *)
Definition release {A} (p : FFmpegRamEncoder -> option A)
    (clear : FFmpegRamEncoder -> FFmpegRamEncoder) (e : Event) : M unit :=
  s <- get;;
  match p s with
  | Some _ => emit e;; modify clear
  | None => ret tt
  end.

(** [FFmpegRamEncoder::free_encoder] *)
Definition free_encoder : M unit :=
  release pkt_ (set_pkt_ None) av_packet_free;;
  release frame_ (set_frame_ None) av_frame_free;;
  release hw_frame_ (set_hw_frame_ None) av_frame_free;;
  s <- get;;
  (if hw_device_ctx_ s then emit av_buffer_unref;; modify (set_hw_device_ctx_ false)
   else ret tt);;
  release c_ (set_c_ None) avcodec_free_context.

(** ** The entry points *)

(** A session handle is a pointer: NULL or the address of an object. *)
Inductive Handle := NULL | Addr (a : positive).

(** The live session objects, by address.  [delete] removes the object;
    an address that is not in the heap is dangling. *)
Abbreviation Heap := (gmap positive FFmpegRamEncoder).

(** The result of an entry point: it returns a value with the heap and
    the trace after the call, or its behaviour is undefined (a NULL or
    dangling handle, or a NULL member, is dereferenced). *)
Inductive Outcome (A : Type) :=
  | Returns (a : A) (h : Heap) (t : Trace)
  | Undefined.
Arguments Returns {A} a h t.
Arguments Undefined {A}.

(** [encoder->method(...)] on the object a handle points to. *)
Definition call {A} (h : Heap) (encoder : Handle) (m : M A) : Outcome A :=
  match encoder with
  | NULL => Undefined
  | Addr a =>
      match h !! a with
      | None => Undefined
      | Some s =>
          match m s with
          | None => Undefined
          | Some (r, s', t) => Returns r (<[a := s']> h) t
          end
      end
  end.

(** [ffmpeg_ram_new_encoder].  [new_ok] tells whether [operator new]
    returns (otherwise [std::bad_alloc] is thrown and caught).  Returns the
    handle with the caller's three outputs. *)
Definition ffmpeg_ram_new_encoder {build : Build} (h : Heap) (new_ok : bool) (E : InitEnv)
    (name : string)
    (width height pixfmt align bit_rate time_base_num time_base_den gop quality
     rc thread_count gpu : Z)
    (linesize offset : list Z) (length : option Z) (callback : Z)
    : Outcome (Handle * (list Z * list Z * option Z)) :=
  if negb new_ok then
    Returns (NULL, (linesize, offset, length)) h
      [LOG_ERROR "new FFmpegRamEncoder failed, "]
  else
    let a := fresh (dom h) in
    let encoder :=
      new_FFmpegRamEncoder name width height pixfmt align bit_rate time_base_num
        time_base_den gop quality rc thread_count gpu callback in
    match init E linesize offset length encoder with
    | None => Undefined
    | Some ((true, out), s, t) => Returns (Addr a, out) (<[a := s]> h) t
    | Some ((false, out), s, t) =>
        match free_encoder s with
        | None => Undefined
        | Some (_, _, t') => Returns (NULL, out) h (t ++ t')
        end
    end.

(** [ffmpeg_ram_encode] *)
Definition ffmpeg_ram_encode (h : Heap) (E : EncodeEnv) (encoder : Handle)
    (data_ptr length obj ms : Z) : Outcome Z :=
  call h encoder (encode E data_ptr length obj ms).

(** [ffmpeg_ram_free_encoder]: nothing for NULL; otherwise
    [free_encoder] and [delete]. *)
Definition ffmpeg_ram_free_encoder (h : Heap) (encoder : Handle) : Outcome unit :=
  match encoder with
  | NULL => Returns tt h []
  | Addr a =>
      match call h encoder free_encoder with
      | Undefined => Undefined
      | Returns _ h' t => Returns tt (delete a h') t
      end
  end.

(** [ffmpeg_ram_set_bitrate] *)
Definition ffmpeg_ram_set_bitrate (h : Heap) (encoder : Handle) (bitrate : Z)
    : Outcome Z :=
  call h encoder (set_bitrate bitrate).


(** ** Sessions of several submissions *)

(** The caller's loop: one [encode] per submission, each with the
    engine's answers for it and its timestamp; returns the result codes. *)
Fixpoint submit_all (subs : list (EncodeEnv * Z)) (data_ptr length obj : Z)
    : M (list Z) :=
  match subs with
  | [] => ret []
  | (E, ms) :: subs' =>
      r <- encode E data_ptr length obj ms;;
      rs <- submit_all subs' data_ptr length obj;;
      ret (r :: rs)
  end.

(** The packets an engine hands over in one drain: its answers up to the
    first negative result code. *)
Fixpoint delivered (answers : list (Z * AVPacket)) : list AVPacket :=
  match answers with
  | [] => []
  | (r, pkt) :: answers' => if r <? 0 then [] else pkt :: delivered answers'
  end.

(** The events of a trace before its first [avcodec_open2], with the
    context the engine is opened on. *)
Fixpoint before_open2 (t : Trace) : option (Trace * AVCodecContext) :=
  match t with
  | [] => None
  | avcodec_open2 c :: _ => Some ([], c)
  | e :: t' =>
      match before_open2 t' with
      | Some (pre, c) => Some (e :: pre, c)
      | None => None
      end
  end.

(** The pool sizes of the hardware frame pools a trace initialises. *)
Fixpoint pool_sizes (t : Trace) : list Z :=
  match t with
  | [] => []
  | av_hwframe_ctx_init fc :: t' => fc_initial_pool_size fc :: pool_sizes t'
  | _ :: t' => pool_sizes t'
  end.

(** The value of [first_ms_] after a packet is delivered at time [ms]. *)
Definition latch (first ms : Z) : Z := if first =? 0 then ms else first.

(** The callback invocations of a trace. *)
Definition callbacks (t : Trace) : Trace := List.filter is_callback t.

(** The frames a trace hands to the engine. *)
Definition frames_sent (t : Trace) : Trace := List.filter is_send_frame t.

(** A call is refused and leaves no output: it returns an error code, and
    the caller's three outputs are as they were. *)
Definition rejected_untouched (E : LayoutEnv) (pix_fmt width height align : Z)
    (out : LayoutOut) : Prop :=
  let '(r, out', _) :=
    ffmpeg_ram_get_linesize_offset_length E pix_fmt width height align out in
  r < 0 /\ out' = out.

(** A result with the events [t] put before its trace. *)
Definition after {A} (t : Trace) (o : option (A * FFmpegRamEncoder * Trace))
    : option (A * FFmpegRamEncoder * Trace) :=
  match o with
  | Some (a, s, t') => Some (a, s, t ++ t')
  | None => None
  end.

(** The value, the session and the trace of a result. *)
Definition returned {A} (o : option (A * FFmpegRamEncoder * Trace)) : option A :=
  match o with Some (a, _, _) => Some a | None => None end.
Definition session_after {A} (o : option (A * FFmpegRamEncoder * Trace))
    : option FFmpegRamEncoder :=
  match o with Some (_, s, _) => Some s | None => None end.
Definition trace_of {A} (o : option (A * FFmpegRamEncoder * Trace)) : option Trace :=
  match o with Some (_, _, t) => Some t | None => None end.

(** The call returns, and [P] holds of its result. *)
Definition holds {A} (P : A -> FFmpegRamEncoder -> Trace -> Prop)
    (o : option (A * FFmpegRamEncoder * Trace)) : Prop :=
  match o with
  | Some (a, s, t) => P a s t
  | None => False
  end.

(** Whether [init] succeeds, from the engine's answers: every call made
    on the way succeeds.  The bitrate of the session plays no part. *)
Definition init_ok (E : InitEnv) (length : option Z) (s : FFmpegRamEncoder) : bool :=
  if negb (env_find_encoder E) then false
  else
    match env_alloc_context3 E with
    | None => false
    | Some _ =>
        if (if negb (is_none (hw_device_type_ s)) then
              if env_hwdevice_ctx_create E <? 0 then false
              else if negb (env_hwframe_ctx_alloc E) then false
              else if env_hwframe_ctx_init E <? 0 then false
              else if negb (env_buffer_ref E) then false
              else if negb (env_hwframe_ctx_init E =? 0) then false
              else if negb (env_hw_frame_alloc E) then false
              else if env_hwframe_get_buffer E <? 0 then false
              else env_hw_frame_has_ctx E
            else true)
        then
          if negb (env_init_frame_alloc E) then false
          else if fst (env_init_get_buffer E) <? 0 then false
          else if negb (env_packet_alloc E) then false
          else if negb (env_set_lantency_free E) then false
          else if env_open2 E <? 0 then false
          else
            fst (fst (ffmpeg_ram_get_linesize_offset_length (env_layout E)
                        (pixfmt_ s) (width_ s) (height_ s) (align_ s)
                        {| out_linesize := None; out_offset := Some (offset_ s);
                           out_length := length |})) =? 0
        else false
    end.

(** The hardware frame pool [set_hwframe_ctx] declares for a session. *)
Definition frame_pool (s : FFmpegRamEncoder) : AVHWFramesContext :=
  {| fc_format := hw_pixfmt_ s; fc_sw_format := pixfmt_ s;
     fc_width := width_ s; fc_height := height_ s; fc_initial_pool_size := 1 |}.

(** The offsets the code hands out over several submissions, from the
    value of [first_ms_], the timestamp of each submission and the number
    of packets it delivers. *)
Fixpoint offsets_from (first : Z) (subs : list (Z * nat)) : list Z :=
  match subs with
  | [] => []
  | (ms, n) :: subs' =>
      repeat (ms - latch first ms) n ++
      offsets_from (match n with O => first | S _ => latch first ms end) subs'
  end.

(** The timestamp of the first submission that delivers a packet. *)
Fixpoint first_stamp (subs : list (Z * nat)) : Z :=
  match subs with
  | [] => 0
  | (ms, O) :: subs' => first_stamp subs'
  | (ms, S _) :: _ => ms
  end.

(** Timestamps that fit an [int64_t]. *)
Definition TIME_MAX : Z := 2 ^ 63.

(** ** Reading traces and results *)

(** [offset || length]: the caller asks for the offsets or the length. *)
Definition wants_layout (out : LayoutOut) : bool :=
  match out_offset out, out_length out with
  | None, None => false
  | _, _ => true
  end.

(** Recognisers of single calls. *)
Definition is_frame_alloc (e : Event) : bool :=
  match e with av_frame_alloc => true | _ => false end.
Definition is_frame_free (e : Event) : bool :=
  match e with av_frame_free => true | _ => false end.
Definition is_receive (e : Event) : bool :=
  match e with avcodec_receive_packet => true | _ => false end.
Definition is_unref (e : Event) : bool :=
  match e with av_packet_unref => true | _ => false end.

(** The calls that touch a hardware device, its frame pool or a hardware
    frame. *)
Definition is_hw_call (e : Event) : bool :=
  match e with
  | GetFirstAdapterIndex | av_hwdevice_ctx_create _ _ | av_hwframe_ctx_alloc
  | av_hwframe_ctx_init _ | av_buffer_ref | av_buffer_unref
  | av_hwframe_get_buffer | av_hwframe_transfer_data => true
  | _ => false
  end.

(** How many events of a trace satisfy [p]. *)
Definition count (p : Event -> bool) (t : Trace) : nat :=
  List.length (List.filter p t).


(** The session went through [init]: its context, its working frame and
    its packet are allocated. *)
Definition initialised (s : FFmpegRamEncoder) : bool :=
  match c_ s, frame_ s, pkt_ s with
  | Some _, Some _, Some _ => true
  | _, _, _ => false
  end.

(** The callback invocation [do_encode] makes for a packet, in a drain
    entered with the session [s] at time [ms]. *)
Definition deliver (s : FFmpegRamEncoder) (obj ms : Z) (pkt : AVPacket) : Event :=
  callback (callback_ s) (pkt_data pkt) (pkt_size pkt)
    (int64_sub ms (latch (first_ms_ s) ms))
    (Z.land (pkt_flags pkt) AV_PKT_FLAG_KEY) obj.

(** What [free_encoder] calls for a pointer member: its release function
    if the member is not NULL. *)
Definition released {A} (p : option A) (e : Event) : Trace :=
  match p with Some _ => [e] | None => [] end.

(** The calls of [free_encoder] on a session, in order. *)
Definition releases (s : FFmpegRamEncoder) : Trace :=
  released (pkt_ s) av_packet_free ++ released (frame_ s) av_frame_free ++
  released (hw_frame_ s) av_frame_free ++
  (if hw_device_ctx_ s then [av_buffer_unref] else []) ++
  released (c_ s) avcodec_free_context.

(** The session [free_encoder] leaves: every pointer member is NULL. *)
Definition cleared (s : FFmpegRamEncoder) : FFmpegRamEncoder :=
  set_c_ None (set_hw_device_ctx_ false (set_hw_frame_ None
    (set_frame_ None (set_pkt_ None s)))).

(** What a caller does with the handle of a live session. *)
Inductive Request :=
  | Encode (E : EncodeEnv) (data_ptr length obj ms : Z)
  | SetBitrate (bitrate : Z).

(** A caller's sequence of requests on one handle; returns the result
    codes. *)
Fixpoint requests (h : Heap) (encoder : Handle) (reqs : list Request)
    : Outcome (list Z) :=
  match reqs with
  | [] => Returns [] h []
  | req :: reqs' =>
      match
        match req with
        | Encode E data_ptr length obj ms =>
            ffmpeg_ram_encode h E encoder data_ptr length obj ms
        | SetBitrate bitrate => ffmpeg_ram_set_bitrate h encoder bitrate
        end
      with
      | Undefined => Undefined
      | Returns r h1 t1 =>
          match requests h1 encoder reqs' with
          | Undefined => Undefined
          | Returns rs h2 t2 => Returns (r :: rs) h2 (t1 ++ t2)
          end
      end
  end.

(** A call through a NULL [callback_]: the callback is invoked at
    address 0. *)
Definition is_null_call (e : Event) : bool :=
  match e with callback cb _ _ _ _ _ => cb =? 0 | _ => false end.

(** The timestamp of a request fits an [int64_t]: it is below 2^63. *)
Definition timely (req : Request) : Prop :=
  match req with
  | Encode _ _ _ _ ms => 0 <= ms < TIME_MAX
  | SetBitrate _ => True
  end.

(** The hardware devices a trace opens: the type and the device name of
    each [av_hwdevice_ctx_create]. *)
Fixpoint devices_created (t : Trace) : list (AVHWDeviceType * option Z) :=
  match t with
  | [] => []
  | av_hwdevice_ctx_create type device :: t' => (type, device) :: devices_created t'
  | _ :: t' => devices_created t'
  end.

(** [c'] is the context [c] but for its bitrate: every other field the
    encoder knows of is the same. *)
Definition only_bit_rate_differs (c c' : AVCodecContext) : Prop :=
  c_width c' = c_width c /\ c_height c' = c_height c /\
  c_pix_fmt c' = c_pix_fmt c /\ c_sw_pix_fmt c' = c_sw_pix_fmt c /\
  c_has_b_frames c' = c_has_b_frames c /\ c_max_b_frames c' = c_max_b_frames c /\
  c_gop_size c' = c_gop_size c /\ c_rc_max_rate c' = c_rc_max_rate c /\
  c_time_base c' = c_time_base c /\ c_framerate c' = c_framerate c /\
  c_flags c' = c_flags c /\ c_thread_count c' = c_thread_count c /\
  c_thread_type c' = c_thread_type c /\ c_color_range c' = c_color_range c /\
  c_colorspace c' = c_colorspace c /\ c_color_primaries c' = c_color_primaries c /\
  c_color_trc c' = c_color_trc c /\ c_hw_frames_ctx c' = c_hw_frames_ctx c.

(** [s'] is the session [s] but for what its context holds: every other
    member is the same. *)
Definition only_context_differs (s s' : FFmpegRamEncoder) : Prop :=
  frame_ s' = frame_ s /\ pkt_ s' = pkt_ s /\ name_ s' = name_ s /\
  first_ms_ s' = first_ms_ s /\ width_ s' = width_ s /\ height_ s' = height_ s /\
  pixfmt_ s' = pixfmt_ s /\ align_ s' = align_ s /\ bit_rate_ s' = bit_rate_ s /\
  time_base_num_ s' = time_base_num_ s /\ time_base_den_ s' = time_base_den_ s /\
  gop_ s' = gop_ s /\ quality_ s' = quality_ s /\ rc_ s' = rc_ s /\
  thread_count_ s' = thread_count_ s /\ gpu_ s' = gpu_ s /\
  callback_ s' = callback_ s /\ offset_ s' = offset_ s /\
  hw_device_type_ s' = hw_device_type_ s /\ hw_pixfmt_ s' = hw_pixfmt_ s /\
  hw_device_ctx_ s' = hw_device_ctx_ s /\ hw_frame_ s' = hw_frame_ s.

(** ** Sample inputs *)

Module Sample.

Definition linux : Build :=
  {| WIN32 := false; AV_PIX_FMT_VAAPI := 44; AV_PIX_FMT_D3D11 := 172 |}.
Definition windows : Build :=
  {| WIN32 := true; AV_PIX_FMT_VAAPI := 44; AV_PIX_FMT_D3D11 := 172 |}.

(** A frame allocation that succeeds with the given strides. *)
Definition strides (ls : list Z) : LayoutEnv :=
  {| env_frame_alloc := true; env_get_buffer := (0, ls) |}.

Definition nv12_64 : list Z := [64; 64; 0; 0; 0; 0; 0; 0].
Definition yuv420p_64 : list Z := [64; 32; 32; 0; 0; 0; 0; 0].
Definition yuv420p_1366 : list Z := [1366; 683; 683; 0; 0; 0; 0; 0].
Definition rgb24_64 : list Z := [192; 0; 0; 0; 0; 0; 0; 0].
Definition AV_PIX_FMT_RGB24 : Z := 2.

Definition all_outputs : LayoutOut :=
  {| out_linesize := Some zeros; out_offset := Some zeros; out_length := Some 0 |}.
Definition strides_only : LayoutOut :=
  {| out_linesize := Some zeros; out_offset := None; out_length := None |}.

(** A context as [avcodec_alloc_context3] leaves it. *)
Definition fresh_context : AVCodecContext :=
  {| c_width := 0; c_height := 0; c_pix_fmt := AV_PIX_FMT_NONE;
     c_sw_pix_fmt := AV_PIX_FMT_NONE; c_has_b_frames := 0; c_max_b_frames := 0;
     c_gop_size := 12; c_bit_rate := 200000; c_rc_max_rate := 0;
     c_time_base := (0, 1); c_framerate := (0, 1); c_flags := 0;
     c_thread_count := 1; c_thread_type := 3;
     c_color_range := AVCOL_RANGE_UNSPECIFIED; c_colorspace := AVCOL_UNSPECIFIED;
     c_color_primaries := AVCOL_UNSPECIFIED; c_color_trc := AVCOL_UNSPECIFIED;
     c_hw_frames_ctx := None |}.

(** The plane pointers of a frame allocated with the strides [ls]: one
    buffer for each plane that has a stride, at 1 MiB, 2 MiB, ... *)
Definition buffers (ls : list Z) : list Z :=
  imap (fun i l => if l =? 0 then 0 else 1048576 * (Z.of_nat i + 1)) ls.

(** A hardware frame: a surface id in [data[3]]. *)
Definition surface : list Z := [0; 0; 0; 42; 0; 0; 0; 0].

(** An engine on which every call of [init] succeeds. *)
Definition engine_ok (ls : list Z) : InitEnv :=
  {| env_find_encoder := true; env_alloc_context3 := Some fresh_context;
     env_adapter_index := 0; env_hwdevice_ctx_create := 0;
     env_hwframe_ctx_alloc := true; env_hwframe_ctx_init := 0;
     env_buffer_ref := true; env_hw_frame_alloc := true;
     env_hwframe_get_buffer := 0; env_hw_frame_data := surface;
     env_hw_frame_has_ctx := true;
     env_init_frame_alloc := true; env_init_get_buffer := (0, ls);
     env_init_frame_data := buffers ls;
     env_packet_alloc := true; env_set_lantency_free := true; env_open2 := 0;
     env_layout := strides ls |}.

(** The session [init] leaves for codec [name] at [width] x [height] with
    the strides [ls]; a session on which [init] fails has no members set. *)
Definition session {build : Build} (name : string) (pixfmt width height bit_rate : Z)
    (ls : list Z) : FFmpegRamEncoder :=
  let s0 := new_FFmpegRamEncoder name width height pixfmt 1 bit_rate 1 30 9999
              1 0 1 0 1 in
  match init (engine_ok ls) zeros zeros (Some 0) s0 with
  | Some (_, s, _) => s
  | None => s0
  end.

Definition key_packet : AVPacket :=
  {| pkt_data := 9000; pkt_size := 100; pkt_flags := 1 |}.

(** One submission the engine answers with [answers]. *)
Definition answers (a : list (Z * AVPacket)) : EncodeEnv :=
  {| env_make_writable := 0; env_hwframe_transfer := 0; env_send_frame := 0;
     env_receive_packet := a |}.

(** The engine accepts the frame and has no packet yet. *)
Definition not_ready : EncodeEnv := answers [(AVERROR EAGAIN, key_packet)].
(** The engine accepts the frame and hands over one packet. *)
Definition one_packet : EncodeEnv :=
  answers [(0, key_packet); (AVERROR EAGAIN, key_packet)].

End Sample.

(** * Properties *)

(** ** Integers that fit *)

Lemma wrap_small (bits z : Z) :
  0 < bits -> - 2 ^ (bits - 1) <= z < 2 ^ (bits - 1) -> wrap bits z = z.
Proof.
  intros Hb Hz. unfold wrap.
  assert (Hp : 2 ^ bits = 2 * 2 ^ (bits - 1)).
  { rewrite <- Z.pow_succ_r by lia. f_equal. lia. }
  rewrite Z.mod_small by lia. lia.
Qed.

Lemma int_fits (z : Z) : 0 <= z <= INT_MAX -> wrap 32 z = z.
Proof. unfold INT_MAX. intros Hz. apply wrap_small; lia. Qed.

Lemma quot2_div2 (z : Z) : 0 <= z -> Z.quot z 2 = z / 2.
Proof. intros Hz. apply Z.quot_div_nonneg; lia. Qed.

(** ** The layout calculator *)

Lemma half_bounds (z : Z) : 2 <= z -> 1 <= z / 2 <= z.
Proof. intros Hz. Z.div_mod_to_equations. lia. Qed.

Lemma at_head (x : Z) (l : list Z) : at_ (x :: l) 0 = x.
Proof. reflexivity. Qed.

Lemma at_second (x y : Z) (l : list Z) : at_ (x :: y :: l) 1 = y.
Proof. reflexivity. Qed.

(** [linesize * height / 2] in [int] arithmetic, when the product fits. *)
Lemma int_half_plane (l height : Z) :
  1 <= l -> 2 <= height -> l * height <= INT_MAX ->
  int_div (int_mul l height) 2 = l * height / 2.
Proof.
  intros Hl Hh Hfit. unfold int_div, int_mul.
  assert (2 <= l * height) by nia.
  pose proof (half_bounds (l * height) ltac:(lia)).
  rewrite (int_fits (l * height)) by lia.
  rewrite quot2_div2 by lia. apply int_fits. lia.
Qed.

(** [calculate_offset_length] on the semi-planar tag, from the cleared
    [ioffset] and [ilength] of its caller. *)
Lemma calculate_nv12 (height : Z) (ls : list Z) :
  2 <= height -> 1 <= at_ ls 0 -> 1 <= at_ ls 1 ->
  (at_ ls 0 + at_ ls 1) * height <= INT_MAX ->
  calculate_offset_length AV_PIX_FMT_NV12 height ls zeros 0 =
    (0, at_ ls 0 * height :: repeat 0 7,
     at_ ls 0 * height + at_ ls 1 * height / 2, []).
Proof.
  intros Hh H0 H1 Hfit.
  pose proof (half_bounds (at_ ls 1 * height) ltac:(nia)) as Hc1.
  unfold calculate_offset_length. simpl.
  rewrite int_half_plane by nia.
  unfold int_mul. rewrite int_fits by nia.
  rewrite at_head. fold (at_ ls 0).
  unfold int_add. rewrite int_fits by nia. reflexivity.
Qed.

(** [calculate_offset_length] on the planar tag. *)
Lemma calculate_yuv420p (height : Z) (ls : list Z) :
  2 <= height -> 1 <= at_ ls 0 -> 1 <= at_ ls 1 -> 1 <= at_ ls 2 ->
  (at_ ls 0 + at_ ls 1 + at_ ls 2) * height <= INT_MAX ->
  calculate_offset_length AV_PIX_FMT_YUV420P height ls zeros 0 =
    (0,
     at_ ls 0 * height :: at_ ls 0 * height + at_ ls 1 * height / 2 :: repeat 0 6,
     at_ ls 0 * height + at_ ls 1 * height / 2 + at_ ls 2 * height / 2, []).
Proof.
  intros Hh H0 H1 H2 Hfit.
  pose proof (half_bounds (at_ ls 1 * height) ltac:(nia)) as Hc1.
  pose proof (half_bounds (at_ ls 2 * height) ltac:(nia)) as Hc2.
  unfold calculate_offset_length. simpl.
  rewrite !int_half_plane by nia.
  unfold int_mul. rewrite int_fits by nia.
  rewrite at_head. fold (at_ ls 0).
  unfold int_add. rewrite (int_fits (at_ ls 0 * height + _)) by nia.
  rewrite at_second.
  rewrite int_fits by nia. reflexivity.
Qed.

(** C2: the layout of both supported formats.  With the strides
    [ls] the engine leaves in the frame, every stride at least 1, a height
    of at least 2 and planes that fit an [int], the call succeeds; the
    planar tag gives [offset[0] = ls[0]*height],
    [offset[1] = offset[0] + ls[1]*height/2] and
    [length = offset[1] + ls[2]*height/2], the semi-planar tag gives
    [offset[0] = ls[0]*height] and [length = offset[0] + ls[1]*height/2];
    the offsets increase strictly and stay below the length. *)
Theorem computeLayout_offsets (E : LayoutEnv) (pix_fmt width height align r : Z)
    (ls l o : list Z) (len : Z) :
  env_frame_alloc E = true ->
  env_get_buffer E = (r, ls) -> 0 <= r ->
  length o = AV_NUM_DATA_POINTERS ->
  2 <= height -> 1 <= at_ ls 0 -> 1 <= at_ ls 1 ->
  (pix_fmt = AV_PIX_FMT_NV12 /\ (at_ ls 0 + at_ ls 1) * height <= INT_MAX) \/
  (pix_fmt = AV_PIX_FMT_YUV420P /\ 1 <= at_ ls 2 /\
   (at_ ls 0 + at_ ls 1 + at_ ls 2) * height <= INT_MAX) ->
  exists (o' : list Z) (total : Z) (t : Trace),
    ffmpeg_ram_get_linesize_offset_length E pix_fmt width height align
      {| out_linesize := Some l; out_offset := Some o; out_length := Some len |} =
    (0, {| out_linesize := Some (copy_all ls l); out_offset := Some o';
           out_length := Some total |}, t) /\
    at_ o' 0 = at_ ls 0 * height /\
    (pix_fmt = AV_PIX_FMT_NV12 ->
       total = at_ o' 0 + at_ ls 1 * height / 2 /\
       0 < at_ o' 0 < total /\ skipn 1 o' = skipn 1 o) /\
    (pix_fmt = AV_PIX_FMT_YUV420P ->
       at_ o' 1 = at_ o' 0 + at_ ls 1 * height / 2 /\
       total = at_ o' 1 + at_ ls 2 * height / 2 /\
       0 < at_ o' 0 < at_ o' 1 /\ at_ o' 1 < total /\ skipn 2 o' = skipn 2 o).
Proof.
  intros Halloc Hget Hr Ho Hh H0 H1 Hfmt.
  destruct o as [|x0 [|x1 o]]; try discriminate Ho.
  assert (Hluma : 2 <= at_ ls 0 * height) by nia.
  pose proof (half_bounds (at_ ls 1 * height) ltac:(nia)) as Hc1.
  unfold ffmpeg_ram_get_linesize_offset_length.
  rewrite Halloc, Hget. simpl negb. cbv iota.
  replace (r <? 0) with false by lia.
  cbn [out_linesize out_offset out_length].
  destruct Hfmt as [[-> Hfit] | (-> & H2 & Hfit)].
  - rewrite calculate_nv12 by assumption.
    cbn [andb Z.ltb Z.compare copy_until_zero repeat].
    replace (at_ ls 0 * height =? 0) with false by lia.
    cbn [Z.eqb list_insert insert].
    eexists _, _, _. split; [reflexivity|].
    rewrite !at_head. cbn [skipn].
    repeat split; try lia; try discriminate.
  - pose proof (half_bounds (at_ ls 2 * height) ltac:(nia)) as Hc2.
    rewrite calculate_yuv420p by assumption.
    cbn [andb Z.ltb Z.compare copy_until_zero repeat].
    replace (at_ ls 0 * height =? 0) with false by lia.
    replace (at_ ls 0 * height + at_ ls 1 * height / 2 =? 0) with false by lia.
    cbn [Z.eqb list_insert insert].
    eexists _, _, _. split; [reflexivity|].
    rewrite !at_head, !at_second. cbn [skipn].
    repeat split; try lia; try discriminate.
Qed.

Lemma computeLayout_offsets_witness :
  exists (o' : list Z) (total : Z) (t : Trace),
    ffmpeg_ram_get_linesize_offset_length (Sample.strides Sample.yuv420p_64)
      AV_PIX_FMT_YUV420P 64 64 32 Sample.all_outputs =
    (0, {| out_linesize := Some Sample.yuv420p_64; out_offset := Some o';
           out_length := Some total |}, t) /\
    at_ o' 0 = 4096 /\ at_ o' 1 = 5120 /\ total = 6144.
Proof.
  destruct (computeLayout_offsets (Sample.strides Sample.yuv420p_64)
              AV_PIX_FMT_YUV420P 64 64 32 0 Sample.yuv420p_64 zeros zeros 0)
    as (o' & total & t & Heq & H0 & _ & Hp).
  - reflexivity.
  - reflexivity.
  - lia.
  - reflexivity.
  - lia.
  - vm_compute. discriminate.
  - vm_compute. discriminate.
  - right. repeat split; vm_compute; discriminate.
  - destruct (Hp eq_refl) as (H1 & Ht & _).
    exists o', total, t. split; [exact Heq|].
    rewrite Ht, H1, H0. vm_compute. repeat split.
Defined.

(** ** Unsupported format tags *)

(** C5 fails on the code: asked for the strides alone of a 64x64 RGB24
    frame, the call returns 0 and fills the stride output. *)
Lemma unsupported_tag_counterexample :
  Sample.AV_PIX_FMT_RGB24 <> AV_PIX_FMT_YUV420P /\
  Sample.AV_PIX_FMT_RGB24 <> AV_PIX_FMT_NV12 /\
  ffmpeg_ram_get_linesize_offset_length (Sample.strides Sample.rgb24_64)
    Sample.AV_PIX_FMT_RGB24 64 64 32 Sample.strides_only =
  (0, {| out_linesize := Some Sample.rgb24_64; out_offset := None;
         out_length := None |},
   [av_frame_alloc; av_frame_get_buffer 2 64 64 32; av_frame_free]) /\
  ~ rejected_untouched (Sample.strides Sample.rgb24_64)
      Sample.AV_PIX_FMT_RGB24 64 64 32 Sample.strides_only.
Proof.
  split; [discriminate|]. split; [discriminate|]. split; [reflexivity|].
  unfold rejected_untouched. vm_compute. intros [Hr _]. discriminate Hr.
Qed.

(** With all three outputs requested the same frame is refused, but its
    strides have been written by then. *)
Lemma unsupported_tag_strides_written :
  ffmpeg_ram_get_linesize_offset_length (Sample.strides Sample.rgb24_64)
    Sample.AV_PIX_FMT_RGB24 64 64 32 Sample.all_outputs =
  (-1, {| out_linesize := Some Sample.rgb24_64; out_offset := Some zeros;
          out_length := Some 0 |},
   [av_frame_alloc; av_frame_get_buffer 2 64 64 32;
    LOG_ERROR "unsupported pixfmt"; av_frame_free]).
Proof. reflexivity. Qed.

Lemma calculate_unsupported (pix_fmt height : Z) (ls o : list Z) (len : Z) :
  pix_fmt <> AV_PIX_FMT_YUV420P -> pix_fmt <> AV_PIX_FMT_NV12 ->
  calculate_offset_length pix_fmt height ls o len =
    (-1, o, len, [LOG_ERROR "unsupported pixfmt"]).
Proof.
  intros H0 H1. unfold calculate_offset_length.
  destruct (Z.eqb_spec pix_fmt AV_PIX_FMT_YUV420P); [contradiction|].
  destruct (Z.eqb_spec pix_fmt AV_PIX_FMT_NV12); [contradiction|].
  reflexivity.
Qed.

(** C5, amended: for a tag other than the two supported ones, a call that
    asks for the offsets or the length returns a negative code and leaves
    the offset and length outputs as they were; the stride output is as it
    was or holds the strides of the allocated frame. *)
Theorem computeLayout_unsupported (E : LayoutEnv) (pix_fmt width height align : Z)
    (out : LayoutOut) :
  pix_fmt <> AV_PIX_FMT_YUV420P -> pix_fmt <> AV_PIX_FMT_NV12 ->
  out_offset out <> None \/ out_length out <> None ->
  exists (r : Z) (out' : LayoutOut) (t : Trace),
    ffmpeg_ram_get_linesize_offset_length E pix_fmt width height align out =
      (r, out', t) /\
    r < 0 /\
    out_offset out' = out_offset out /\
    out_length out' = out_length out /\
    (out_linesize out' = out_linesize out \/
     exists l : list Z,
       out_linesize out = Some l /\
       out_linesize out' = Some (copy_all (snd (env_get_buffer E)) l)).
Proof.
  intros H0 H1 Hreq. unfold ffmpeg_ram_get_linesize_offset_length.
  destruct (env_frame_alloc E); cbn [negb].
  2:{ eexists _, _, _. split; [reflexivity|]. repeat split; auto; lia. }
  destruct (env_get_buffer E) as [r ls]. cbn [snd].
  destruct (Z.ltb_spec r 0) as [Hneg | Hpos].
  { eexists _, _, _. split; [reflexivity|]. repeat split; auto. }
  rewrite calculate_unsupported by assumption.
  assert (Hrq : match out_offset out, out_length out with
                | None, None => false | _, _ => true end = true).
  { destruct (out_offset out), (out_length out); try reflexivity.
    destruct Hreq; contradiction. }
  rewrite Hrq. cbn [andb Z.ltb Z.compare].
  eexists _, _, _. split; [reflexivity|]. cbn [out_offset out_length out_linesize].
  repeat split; try lia.
  destruct (out_linesize out) as [l|]; [right; eauto | left; reflexivity].
Qed.

Lemma computeLayout_unsupported_witness :
  exists (r : Z) (out' : LayoutOut) (t : Trace),
    ffmpeg_ram_get_linesize_offset_length (Sample.strides Sample.rgb24_64)
      Sample.AV_PIX_FMT_RGB24 64 64 32 Sample.all_outputs = (r, out', t) /\
    r < 0 /\ out_offset out' = Some zeros /\ out_length out' = Some 0.
Proof.
  destruct (computeLayout_unsupported (Sample.strides Sample.rgb24_64)
              Sample.AV_PIX_FMT_RGB24 64 64 32 Sample.all_outputs)
    as (r & out' & t & Heq & Hr & Ho & Hl & _).
  - discriminate.
  - discriminate.
  - left. discriminate.
  - exists r, out', t. repeat split; assumption.
Defined.

(** ** Running member functions *)

Section Run.
Context {A B : Type}.
Implicit Types (k : A -> M B) (s : FFmpegRamEncoder).

Lemma after_nil (o : option (B * FFmpegRamEncoder * Trace)) : after [] o = o.
Proof. destruct o as [[[b s] t]|]; reflexivity. Qed.

Lemma after_after (t1 t2 : Trace) (o : option (B * FFmpegRamEncoder * Trace)) :
  after t1 (after t2 o) = after (t1 ++ t2) o.
Proof.
  destruct o as [[[b s] t]|]; [|reflexivity]. simpl. by rewrite app_assoc.
Qed.

Lemma run_bind (m : M A) k s a s1 t1 :
  m s = Some (a, s1, t1) -> bind m k s = after t1 (k a s1).
Proof. intros Hm. unfold bind, after. rewrite Hm. reflexivity. Qed.

Lemma run_ret (a : A) k s : bind (ret a) k s = k a s.
Proof. rewrite (run_bind _ _ _ a s []) by reflexivity. apply after_nil. Qed.

End Run.

Lemma run_emit {B} (e : Event) (k : unit -> M B) s :
  bind (emit e) k s = after [e] (k tt s).
Proof. apply run_bind. reflexivity. Qed.

Lemma run_emits {B} (t : Trace) (k : unit -> M B) s :
  bind (emits t) k s = after t (k tt s).
Proof. apply run_bind. reflexivity. Qed.

Lemma run_get {B} (k : FFmpegRamEncoder -> M B) s : bind get k s = k s s.
Proof. rewrite (run_bind _ _ _ s s []) by reflexivity. apply after_nil. Qed.

Lemma run_modify {B} (f : FFmpegRamEncoder -> FFmpegRamEncoder) (k : unit -> M B) s :
  bind (modify f) k s = k tt (f s).
Proof. rewrite (run_bind _ _ _ tt (f s) []) by reflexivity. apply after_nil. Qed.

Lemma run_deref {A B} (p : FFmpegRamEncoder -> option A) (k : A -> M B) s a :
  p s = Some a -> bind (deref p) k s = k a s.
Proof.
  intros Hp. rewrite (run_bind _ _ _ a s []).
  - apply after_nil.
  - unfold deref. rewrite Hp. reflexivity.
Qed.

Lemma bind_assoc {A B C} (m : M A) (k : A -> M B) (k' : B -> M C) s :
  bind (bind m k) k' s = bind m (fun a => bind (k a) k') s.
Proof.
  unfold bind. destruct (m s) as [[[a s1] t1]|]; [|reflexivity].
  destruct (k a s1) as [[[b s2] t2]|]; [|reflexivity].
  destruct (k' b s2) as [[[c s3] t3]|]; [|reflexivity].
  by rewrite app_assoc.
Qed.

Ltac run :=
  repeat first
    [ rewrite run_emit | rewrite run_emits | rewrite run_get
    | rewrite run_modify | rewrite run_ret | rewrite bind_assoc
    | rewrite after_after | rewrite after_nil ].

(** ** The drain loop *)

Lemma latch_idem (first ms : Z) : latch (latch first ms) ms = latch first ms.
Proof.
  unfold latch. destruct (Z.eqb_spec first 0) as [-> | Hne].
  - destruct (Z.eqb_spec ms 0); reflexivity.
  - destruct (Z.eqb_spec first 0); [contradiction | reflexivity].
Qed.

Lemma set_pkt_first_id (s : FFmpegRamEncoder) (p : AVPacket) :
  pkt_ s = Some p -> set_pkt_ (Some p) (set_first_ms_ (first_ms_ s) s) = s.
Proof. destruct s; simpl; intros ->; reflexivity. Qed.

Lemma callbacks_app (t1 t2 : Trace) : callbacks (t1 ++ t2) = callbacks t1 ++ callbacks t2.
Proof. apply List.filter_app. Qed.

Lemma frames_sent_app (t1 t2 : Trace) :
  frames_sent (t1 ++ t2) = frames_sent t1 ++ frames_sent t2.
Proof. apply List.filter_app. Qed.

Lemma callbacks_cons (e : Event) (t : Trace) :
  callbacks (e :: t) = (if is_callback e then [e] else []) ++ callbacks t.
Proof. unfold callbacks. cbn [List.filter]. destruct (is_callback e); reflexivity. Qed.

Lemma frames_sent_cons (e : Event) (t : Trace) :
  frames_sent (e :: t) = (if is_send_frame e then [e] else []) ++ frames_sent t.
Proof.
  unfold frames_sent. cbn [List.filter]. destruct (is_send_frame e); reflexivity.
Qed.

Lemma receive_failed_run (r : Z) (s : FFmpegRamEncoder) :
  exists t : Trace,
    receive_failed r s = Some (tt, s, t) /\ callbacks t = [] /\ frames_sent t = [].
Proof.
  unfold receive_failed.
  destruct (negb (r =? AVERROR EAGAIN)); eexists; (split; [reflexivity | auto]).
Qed.

(** What one drain does to the session: it delivers the engine's packets
    in order, each at [ms - latch first_ms_ ms]; [first_ms_] is latched
    when a packet is delivered; nothing else of the session changes but the
    content of [pkt_]. *)
Lemma receive_loop_spec (answers : list (Z * AVPacket)) :
  forall (obj ms : Z) (encoded : bool) (s : FFmpegRamEncoder) (p : AVPacket),
    pkt_ s = Some p ->
    exists (p' : AVPacket) (t : Trace),
      receive_loop answers obj ms encoded s =
        Some (encoded || negb (Nat.eqb (length (delivered answers)) 0),
              set_pkt_ (Some p')
                (set_first_ms_
                   (match delivered answers with
                    | [] => first_ms_ s
                    | _ => latch (first_ms_ s) ms
                    end) s),
              t) /\
      callbacks t =
        map (fun pkt =>
               callback (callback_ s) (pkt_data pkt) (pkt_size pkt)
                 (int64_sub ms (latch (first_ms_ s) ms))
                 (Z.land (pkt_flags pkt) AV_PKT_FLAG_KEY) obj)
            (delivered answers) /\
      frames_sent t = [].
Proof.
  induction answers as [|[r pkt] answers IH]; intros obj ms encoded s p Hp.
  - exists p, [avcodec_receive_packet]. cbn.
    rewrite (set_pkt_first_id s p Hp), orb_false_r. auto.
  - cbn [receive_loop delivered]. run.
    rewrite (run_deref _ _ _ p Hp). run.
    destruct (Z.ltb_spec r 0) as [Hneg | Hpos].
    + destruct (receive_failed_run r (set_pkt_ (Some pkt) s)) as (t & Hrun & Hcb & Hsend).
      rewrite (run_bind _ _ _ _ _ _ Hrun).
      exists pkt. eexists. split; [|split].
      * cbn. rewrite orb_false_r. reflexivity.
      * rewrite callbacks_cons, callbacks_app, Hcb. reflexivity.
      * rewrite frames_sent_cons, frames_sent_app, Hsend. reflexivity.
    + set (s1 := set_pkt_ (Some pkt) s).
      set (s2 := if first_ms_ s =? 0 then set_first_ms_ ms s1 else s1).
      assert (Hp2 : pkt_ s2 = Some pkt).
      { subst s2 s1. destruct (first_ms_ s =? 0); reflexivity. }
      assert (Hf2 : first_ms_ s2 = latch (first_ms_ s) ms).
      { subst s2 s1. unfold latch. destruct (first_ms_ s =? 0); reflexivity. }
      assert (Hc2 : callback_ s2 = callback_ s).
      { subst s2 s1. destruct (first_ms_ s =? 0); reflexivity. }
      assert (Hlatch : (if first_ms_ s1 =? 0 then modify (set_first_ms_ ms) else ret tt) s1
                       = Some (tt, s2, [])).
      { subst s2. change (first_ms_ s1) with (first_ms_ s).
        destruct (first_ms_ s =? 0); reflexivity. }
      run. rewrite (run_bind _ _ _ _ _ _ Hlatch). run.
      rewrite (run_deref _ _ _ pkt Hp2). run.
      destruct (IH obj ms true s2 pkt Hp2) as (p' & t & Hrun & Hcb & Hsend).
      rewrite Hrun. exists p'. eexists. split; [|split].
      * assert (Hst : set_pkt_ (Some p')
                        (set_first_ms_
                           (match delivered answers with
                            | [] => first_ms_ s2
                            | _ => latch (first_ms_ s2) ms
                            end) s2)
                      = set_pkt_ (Some p') (set_first_ms_ (latch (first_ms_ s) ms) s)).
        { rewrite Hf2, latch_idem.
          replace (match delivered answers with
                   | [] => latch (first_ms_ s) ms
                   | _ => latch (first_ms_ s) ms
                   end) with (latch (first_ms_ s) ms)
            by (destruct (delivered answers); reflexivity).
          subst s2 s1. destruct s. cbn [first_ms_].
          destruct (_ =? 0); reflexivity. }
        rewrite Hst. cbn. rewrite !orb_true_r. reflexivity.
      * cbn [app]. rewrite !callbacks_cons. cbn [is_callback app].
        rewrite Hcb, Hf2, Hc2, latch_idem. reflexivity.
      * cbn [app]. rewrite !frames_sent_cons. cbn [is_send_frame app]. exact Hsend.
Qed.

(** [do_encode] on a session whose packet is allocated: a frame the
    engine refuses returns the engine's code and leaves the session as it
    was; an accepted frame is followed by one drain. *)
Lemma do_encode_spec (E : EncodeEnv) (frame : option AVFrame) (obj ms : Z)
    (s : FFmpegRamEncoder) (p : AVPacket) :
  pkt_ s = Some p ->
  exists (p' : AVPacket) (t : Trace),
    do_encode E frame obj ms s =
      Some (if env_send_frame E <? 0 then env_send_frame E
            else if Nat.eqb (length (delivered (env_receive_packet E))) 0
                 then -1 else 0,
            if env_send_frame E <? 0 then s
            else set_pkt_ (Some p')
                   (set_first_ms_
                      (match delivered (env_receive_packet E) with
                       | [] => first_ms_ s
                       | _ => latch (first_ms_ s) ms
                       end) s),
            t) /\
    callbacks t =
      (if env_send_frame E <? 0 then []
       else map (fun pkt =>
                   callback (callback_ s) (pkt_data pkt) (pkt_size pkt)
                     (int64_sub ms (latch (first_ms_ s) ms))
                     (Z.land (pkt_flags pkt) AV_PKT_FLAG_KEY) obj)
                (delivered (env_receive_packet E))) /\
    frames_sent t = [avcodec_send_frame frame].
Proof.
  intros Hp. unfold do_encode. run.
  destruct (env_send_frame E <? 0).
  - exists p. eexists. split; [reflexivity|]. split; reflexivity.
  - destruct (receive_loop_spec (env_receive_packet E) obj ms false s p Hp)
      as (p' & t & Hrun & Hcb & Hsend).
    rewrite (run_bind _ _ _ _ _ _ Hrun). run.
    exists p'. eexists. split; [|split].
    + cbn. destruct (Nat.eqb _ 0); reflexivity.
    + rewrite callbacks_cons, !callbacks_app, Hcb. cbn. by rewrite !app_nil_r.
    + rewrite frames_sent_cons, !frames_sent_app, Hsend. reflexivity.
Qed.

(** ** Success of a submission *)




(** ** Initialisation *)

Lemma holds_elim {A} (P : A -> FFmpegRamEncoder -> Trace -> Prop)
    (o : option (A * FFmpegRamEncoder * Trace)) a s t :
  holds P o -> o = Some (a, s, t) -> P a s t.
Proof. intros Hh ->. exact Hh. Qed.

Lemma holds_returns {A} (P : A -> FFmpegRamEncoder -> Trace -> Prop)
    (o : option (A * FFmpegRamEncoder * Trace)) :
  holds P o -> exists a s t, o = Some (a, s, t) /\ P a s t.
Proof. destruct o as [[[a s] t]|]; [eauto | contradiction]. Qed.

Ltac step :=
  first
    [ rewrite run_emit | rewrite run_emits | rewrite run_get
    | rewrite run_modify | rewrite run_ret | rewrite bind_assoc
    | rewrite after_after | rewrite after_nil
    | erewrite run_deref by reflexivity ].

(** Case analysis on the test the computation [X] is waiting for; a test
    on known values leaves one case. *)
Ltac case_on b :=
  let Hb := fresh "Hb" in
  destruct b eqn:Hb; try solve [cbn in Hb; discriminate Hb | exfalso; lia].

Ltac case_head X :=
  lazymatch X with
  | bind (if ?b then _ else _) _ _ => case_on b
  | (if ?b then _ else _) _ => case_on b
  | bind (match ?x with _ => _ end) _ _ => case_on x
  | (match ?x with _ => _ end) _ => case_on x
  end.

Ltac branch :=
  lazymatch goal with
  | |- holds _ (after _ ?X) => case_head X
  | |- holds _ ?X => case_head X
  end.

Ltac project :=
  progress cbn [c_ frame_ pkt_ name_ first_ms_ width_ height_ pixfmt_ align_
                bit_rate_ time_base_num_ time_base_den_ gop_ quality_ rc_
                thread_count_ gpu_ callback_ offset_ hw_device_type_ hw_pixfmt_
                hw_device_ctx_ hw_frame_ set_c_ set_frame_ set_pkt_ set_first_ms_
                set_offset_ set_hw_device_ctx_ set_hw_frame_
                format width height linesize data hw_frames_ctx
                c_hw_frames_ctx with_hw_frames_ctx].

Ltac explore := repeat first [ step | project | branch ].

(** Replace the tests of the goal by their known outcomes. *)
Ltac rewrite_tests :=
  repeat match goal with
         | Hb : negb _ = true |- _ => apply negb_true_iff in Hb
         | Hb : negb _ = false |- _ => apply negb_false_iff in Hb
         end;
  repeat match goal with
         | Hb : (if ?b then _ else _) = _ |- _ =>
             destruct b eqn:?; try discriminate Hb; clear Hb
         | Hb : _ = _ |- _ => rewrite Hb; cbn [negb fst snd is_none]
         end.

Section Init.
Context {build : Build}.

(** What [init] does, for every engine: it returns; it succeeds exactly
    when [init_ok]; and if it opens the engine, the context handed to
    [avcodec_open2] is the engine's fresh context, configured, and for a
    hardware device type bound to the frame pool of the session, which is
    the one pool initialised until then. *)
Lemma init_spec (E : InitEnv) (linesize offset : list Z) (length : option Z)
    (s : FFmpegRamEncoder) :
  holds (fun res _ t =>
           fst res = init_ok E length s /\
           forall pre c, before_open2 t = Some (pre, c) ->
             exists c0,
               env_alloc_context3 E = Some c0 /\
               (hw_device_type_ s = AV_HWDEVICE_TYPE_NONE ->
                  c = configure s c0 /\ pool_sizes pre = []) /\
               (hw_device_type_ s <> AV_HWDEVICE_TYPE_NONE ->
                  c = configure s (with_hw_frames_ctx (Some (frame_pool s)) c0) /\
                  pool_sizes pre = [1] /\
                  In (av_hwframe_ctx_init (frame_pool s)) pre /\
                  In av_buffer_ref pre))
        (init E linesize offset length s).
Proof.
  unfold init, init_hw, set_hwframe_ctx, update_c_, log_false, log_fail.
  explore.
  all: cbn [holds after ret app]; split.
  all: try (cbn [fst]; progress unfold init_ok; rewrite_tests; reflexivity).
  all: try (intros pre c Hpre; cbn in Hpre; discriminate Hpre).
  all: try (intros pre c Hpre; cbn in Hpre; injection Hpre as <- <-).
  all: eexists; split; [reflexivity|].
  all: destruct (hw_device_type_ s) eqn:Hty; try discriminate.
  all: split; intros Hq; try congruence.
  all: repeat split; cbn; tauto.
Qed.

(** ** The hardware frame pool *)

(** C6: when a session with a hardware device type is initialised and the
    engine is opened, the context handed to [avcodec_open2] carries the
    frame pool of the session, declared with a pool size of 1; the pool is
    initialised and bound ([av_buffer_ref]) before [avcodec_open2], and no
    other pool is initialised until then. *)
Theorem hw_pool_bound_before_open (E : InitEnv) (linesize offset : list Z)
    (length : option Z) (s : FFmpegRamEncoder)
    (res : bool * (list Z * list Z * option Z)) (s' : FFmpegRamEncoder)
    (t pre : Trace) (c : AVCodecContext) :
  hw_device_type_ s <> AV_HWDEVICE_TYPE_NONE ->
  init E linesize offset length s = Some (res, s', t) ->
  before_open2 t = Some (pre, c) ->
  c_hw_frames_ctx c = Some (frame_pool s) /\
  fc_initial_pool_size (frame_pool s) = 1 /\
  pool_sizes pre = [1] /\
  In (av_hwframe_ctx_init (frame_pool s)) pre /\
  In av_buffer_ref pre.
Proof.
  intros Hhw Hinit Hpre.
  destruct (holds_elim _ _ _ _ _ (init_spec E linesize offset length s) Hinit)
    as [_ Hopen].
  destruct (Hopen pre c Hpre) as (c0 & _ & _ & Hhard).
  destruct (Hhard Hhw) as (-> & Hsizes & Hinit_pool & Hbind).
  repeat split; assumption.
Qed.

(** ** The bitrate handed to the engine *)

(** C8: for every session creation, the context the engine is opened on
    has the caller's bitrate when that is at least 1000 and keeps the
    bitrate of the engine's fresh context otherwise; [init] returns, and
    its result is the same for every bitrate. *)
Theorem bit_rate_set_from_1000 (E : InitEnv) (name : string)
    (width height pixfmt align bit_rate time_base_num time_base_den gop quality
     rc thread_count gpu callback : Z)
    (linesize offset : list Z) (length : option Z) :
  let create b :=
    init E linesize offset length
      (new_FFmpegRamEncoder name width height pixfmt align b time_base_num
         time_base_den gop quality rc thread_count gpu callback) in
  exists res s' t,
    create bit_rate = Some (res, s', t) /\
    (forall pre c c0,
       before_open2 t = Some (pre, c) ->
       env_alloc_context3 E = Some c0 ->
       c_bit_rate c = if 1000 <=? bit_rate then bit_rate else c_bit_rate c0) /\
    (forall b, exists res' s'' t',
       create b = Some (res', s'', t') /\ fst res' = fst res).
Proof.
  intros create.
  assert (Hok : forall b b',
             init_ok E length
               (new_FFmpegRamEncoder name width height pixfmt align b time_base_num
                  time_base_den gop quality rc thread_count gpu callback) =
             init_ok E length
               (new_FFmpegRamEncoder name width height pixfmt align b' time_base_num
                  time_base_den gop quality rc thread_count gpu callback)).
  { intros b b'. unfold init_ok, new_FFmpegRamEncoder.
    destruct (contains name "vaapi"), (contains name "nvenc"), WIN32; reflexivity. }
  destruct (holds_returns _ _
              (init_spec E linesize offset length
                 (new_FFmpegRamEncoder name width height pixfmt align bit_rate
                    time_base_num time_base_den gop quality rc thread_count gpu
                    callback)))
    as (res & s' & t & Hinit & Hres & Hopen).
  exists res, s', t. split; [exact Hinit|]. split.
  - intros pre c c0 Hpre Hc0.
    destruct (Hopen pre c Hpre) as (c1 & Hc1 & Hsoft & Hhard).
    rewrite Hc1 in Hc0. injection Hc0 as ->.
    set (s := new_FFmpegRamEncoder name width height pixfmt align bit_rate
                time_base_num time_base_den gop quality rc thread_count gpu
                callback) in *.
    assert (Hrate : bit_rate_ s = bit_rate).
    { subst s. unfold new_FFmpegRamEncoder.
      destruct (contains name "vaapi"), (contains name "nvenc"), WIN32; reflexivity. }
    rewrite <- Hrate.
    destruct (hw_device_type_ s) eqn:Hty.
    + destruct (Hsoft eq_refl) as [-> _]. reflexivity.
    + destruct Hhard as [-> _]; [discriminate | reflexivity].
    + destruct Hhard as [-> _]; [discriminate | reflexivity].
  - intros b.
    destruct (holds_returns _ _
                (init_spec E linesize offset length
                   (new_FFmpegRamEncoder name width height pixfmt align b
                      time_base_num time_base_den gop quality rc thread_count gpu
                      callback)))
      as (res' & s'' & t' & Hinit' & Hres' & _).
    exists res', s'', t'. split; [exact Hinit'|].
    rewrite Hres, Hres'. apply Hok.
Qed.

End Init.

Lemma hw_pool_bound_before_open_witness :
  let s := new_FFmpegRamEncoder (build := Sample.linux) "h264_vaapi" 64 64
             AV_PIX_FMT_NV12 32 500000 1 30 9999 1 0 1 0 1 in
  hw_device_type_ s <> AV_HWDEVICE_TYPE_NONE /\
  exists res s' t pre c,
    init (build := Sample.linux) (Sample.engine_ok Sample.nv12_64) zeros zeros (Some 0) s
      = Some (res, s', t) /\
    before_open2 t = Some (pre, c) /\
    c_hw_frames_ctx c = Some (frame_pool s) /\
    pool_sizes pre = [1].
Proof.
  intros s.
  assert (Hhw : hw_device_type_ s <> AV_HWDEVICE_TYPE_NONE) by (vm_compute; discriminate).
  split; [exact Hhw|].
  destruct (init (build := Sample.linux) (Sample.engine_ok Sample.nv12_64) zeros zeros
              (Some 0) s) as [[[res s'] t]|] eqn:Hinit;
    [| vm_compute in Hinit; discriminate Hinit].
  destruct (before_open2 t) as [[pre c]|] eqn:Hpre.
  - exists res, s', t, pre, c.
    destruct (hw_pool_bound_before_open (build := Sample.linux) _ _ _ _ _ _ _ _ _ _
                Hhw Hinit Hpre) as (Hc & _ & Hsizes & _).
    repeat split; assumption.
  - exfalso. vm_compute in Hinit. injection Hinit as <- <- <-.
    vm_compute in Hpre. discriminate Hpre.
Defined.

Lemma bit_rate_set_from_1000_witness :
  let create b :=
    init (build := Sample.linux) (Sample.engine_ok Sample.nv12_64) zeros zeros (Some 0)
      (new_FFmpegRamEncoder (build := Sample.linux) "h264_amf" 64 64 AV_PIX_FMT_NV12
         32 b 1 30 9999 1 0 1 0 1) in
  (exists res s' t pre c,
     create 500000 = Some (res, s', t) /\ fst res = true /\
     before_open2 t = Some (pre, c) /\ c_bit_rate c = 500000) /\
  (exists res s' t pre c,
     create 999 = Some (res, s', t) /\ fst res = true /\
     before_open2 t = Some (pre, c) /\
     c_bit_rate c = c_bit_rate Sample.fresh_context).
Proof.
  intros create. split.
  - destruct (bit_rate_set_from_1000 (build := Sample.linux) (Sample.engine_ok Sample.nv12_64)
                "h264_amf" 64 64 AV_PIX_FMT_NV12 32 500000 1 30 9999 1 0 1 0 1
                zeros zeros (Some 0)) as (res & s' & t & Hinit & Hrate & _).
    destruct (before_open2 t) as [[pre c]|] eqn:Hpre.
    + exists res, s', t, pre, c. split; [exact Hinit|].
      split; [vm_compute in Hinit; injection Hinit as <- _ _; reflexivity|].
      split; [exact Hpre|]. exact (Hrate pre c Sample.fresh_context eq_refl eq_refl).
    + exfalso. vm_compute in Hinit. injection Hinit as <- <- <-.
      vm_compute in Hpre. discriminate Hpre.
  - destruct (bit_rate_set_from_1000 (build := Sample.linux) (Sample.engine_ok Sample.nv12_64)
                "h264_amf" 64 64 AV_PIX_FMT_NV12 32 999 1 30 9999 1 0 1 0 1
                zeros zeros (Some 0)) as (res & s' & t & Hinit & Hrate & _).
    destruct (before_open2 t) as [[pre c]|] eqn:Hpre.
    + exists res, s', t, pre, c. split; [exact Hinit|].
      split; [vm_compute in Hinit; injection Hinit as <- _ _; reflexivity|].
      split; [exact Hpre|]. exact (Hrate pre c Sample.fresh_context eq_refl eq_refl).
    + exfalso. vm_compute in Hinit. injection Hinit as <- <- <-.
      vm_compute in Hpre. discriminate Hpre.
Defined.

(** ** Changing the bitrate *)

(** C7: on a session whose codec name contains neither "nvenc" nor "amf",
    [ffmpeg_ram_set_bitrate] returns -1, calls nothing but the log and
    leaves the heap, hence the session and its engine context, as they
    were, so that a later [ffmpeg_ram_encode] does what it would have done;
    on the other sessions it returns 0 and stores the bitrate in the
    engine context: after the call the session at the handle has a
    context whose [bit_rate] is the new bitrate; nothing else of that
    context or of the session has changed, no other session is touched and
    no call is made. *)
Theorem set_bitrate_by_family (h : Heap) (a : positive) (s : FFmpegRamEncoder)
    (bitrate : Z) :
  h !! a = Some s ->
  (contains (name_ s) "nvenc" || contains (name_ s) "amf" = false ->
   exists msg,
     ffmpeg_ram_set_bitrate h (Addr a) bitrate = Returns (-1) h [LOG_ERROR msg] /\
     -1 < 0) /\
  (contains (name_ s) "nvenc" || contains (name_ s) "amf" = true ->
   forall c, c_ s = Some c ->
     ffmpeg_ram_set_bitrate h (Addr a) bitrate =
       Returns 0 (<[a := set_c_ (Some (with_bit_rate bitrate c)) s]> h) [] /\
     c_bit_rate (with_bit_rate bitrate c) = bitrate /\
     exists (h' : Heap) (s' : FFmpegRamEncoder) (c' : AVCodecContext),
       ffmpeg_ram_set_bitrate h (Addr a) bitrate = Returns 0 h' [] /\
       h' !! a = Some s' /\ c_ s' = Some c' /\ c_bit_rate c' = bitrate /\
       only_bit_rate_differs c c' /\ only_context_differs s s' /\
       forall b, b <> a -> h' !! b = h !! b).
Proof.
  intros Hs. unfold ffmpeg_ram_set_bitrate, call. rewrite Hs.
  unfold set_bitrate. rewrite run_get. split; intros Hfam; rewrite Hfam.
  - eexists. split; [|lia]. rewrite run_emit. cbn [after ret app].
    by rewrite insert_id.
  - intros c Hc.
    unfold update_c_. rewrite bind_assoc, (run_deref _ _ _ c Hc), run_modify.
    split; [reflexivity|]. split; [reflexivity|].
    eexists _, _, _. split; [reflexivity|].
    split; [apply lookup_insert_eq|]. split; [reflexivity|]. split; [reflexivity|].
    split; [repeat split|]. split; [repeat split|].
    intros b Hb. by apply lookup_insert_ne.
Qed.

Lemma set_bitrate_by_family_witness :
  let s := Sample.session (build := Sample.linux) "h264_vaapi" AV_PIX_FMT_NV12 64 64
             500000 Sample.nv12_64 in
  let s' := Sample.session (build := Sample.linux) "h264_amf" AV_PIX_FMT_NV12 64 64
              500000 Sample.nv12_64 in
  (exists msg,
     ffmpeg_ram_set_bitrate {[ 1%positive := s ]} (Addr 1) 800000 =
       Returns (-1) {[ 1%positive := s ]} [LOG_ERROR msg]) /\
  (exists c,
     ffmpeg_ram_set_bitrate {[ 1%positive := s' ]} (Addr 1) 800000 =
       Returns 0 {[ 1%positive := set_c_ (Some c) s' ]} [] /\
     c_bit_rate c = 800000) /\
  (exists (h' : Heap) (s'' : FFmpegRamEncoder) (c0 c' : AVCodecContext),
     ffmpeg_ram_set_bitrate {[ 1%positive := s' ]} (Addr 1) 800000 =
       Returns 0 h' [] /\
     c_ s' = Some c0 /\ c_bit_rate c0 = 500000 /\
     h' !! 1%positive = Some s'' /\ c_ s'' = Some c' /\ c_bit_rate c' = 800000).
Proof.
  intros s s'. split; [|split].
  - destruct (set_bitrate_by_family {[ 1%positive := s ]} 1 s 800000) as [Hno _].
    { apply lookup_singleton_eq. }
    destruct (Hno eq_refl) as (msg & Hrun & _). exists msg. exact Hrun.
  - destruct (set_bitrate_by_family {[ 1%positive := s' ]} 1 s' 800000) as [_ Hyes].
    { apply lookup_singleton_eq. }
    destruct (c_ s') as [c|] eqn:Hc; [| vm_compute in Hc; discriminate Hc].
    destruct (Hyes eq_refl c eq_refl) as (Hrun & Hrate & _).
    exists (with_bit_rate 800000 c). split; [|exact Hrate].
    rewrite Hrun, insert_singleton_eq. reflexivity.
  - destruct (set_bitrate_by_family {[ 1%positive := s' ]} 1 s' 800000) as [_ Hyes].
    { apply lookup_singleton_eq. }
    destruct (c_ s') as [c|] eqn:Hc; [| vm_compute in Hc; discriminate Hc].
    destruct (Hyes eq_refl c eq_refl)
      as (_ & _ & h' & s'' & c' & Hrun & Hlook & Hc' & Hrate & _).
    exists h', s'', c, c'. split; [exact Hrun|]. split; [reflexivity|].
    split; [vm_compute in Hc; injection Hc as <-; reflexivity|].
    split; [exact Hlook|]. split; [exact Hc' | exact Hrate].
Defined.

(** ** Destroying a session *)

(** [free_encoder] is idempotent: a second call on the same object finds
    every member released and calls nothing. *)
Lemma free_encoder_idempotent (s : FFmpegRamEncoder) :
  exists s' t,
    free_encoder s = Some (tt, s', t) /\ free_encoder s' = Some (tt, s', []).
Proof.
  destruct s as [c f p ? ? ? ? ? ? ? ? ? ? ? ? ? ? ? ? ? ? d hf].
  destruct c, f, p, d, hf; eexists _, _; (split; [cbv; reflexivity|cbv; reflexivity]).
Qed.

(** [free_encoder] never dereferences a NULL member: it releases the
    members that are set, in the order of [releases], and clears them. *)
Lemma free_encoder_releases (s : FFmpegRamEncoder) :
  free_encoder s = Some (tt, cleared s, releases s).
Proof.
  destruct s as [c f p ? ? ? ? ? ? ? ? ? ? ? ? ? ? ? ? ? ? d hf].
  destruct c, f, p, d, hf; cbv; reflexivity.
Qed.

(** C9 fails on the code: a session is created and destroyed; a second
    [ffmpeg_ram_free_encoder] on the same handle, or an [ffmpeg_ram_encode]
    or [ffmpeg_ram_set_bitrate] on it, dereferences the deleted object. *)
Lemma destroy_twice_counterexample :
  let s := Sample.session (build := Sample.linux) "h264_amf" AV_PIX_FMT_NV12 64 64
             500000 Sample.nv12_64 in
  exists h' t,
    ffmpeg_ram_free_encoder {[ 1%positive := s ]} (Addr 1) = Returns tt h' t /\
    ffmpeg_ram_free_encoder h' (Addr 1) = Undefined /\
    ffmpeg_ram_encode h' Sample.one_packet (Addr 1) 4096 6144 7 0 = Undefined /\
    ffmpeg_ram_set_bitrate h' (Addr 1) 800000 = Undefined.
Proof.
  intros s. exists ∅. eexists. split.
  - unfold ffmpeg_ram_free_encoder, call. rewrite lookup_singleton_eq.
    destruct (free_encoder s) as [[[[] s'] t]|] eqn:Hfree;
      [| vm_compute in Hfree; discriminate Hfree].
    vm_compute in Hfree. injection Hfree as <- <-.
    rewrite insert_singleton_eq, delete_singleton_eq. reflexivity.
  - repeat split.
Qed.

(** C9, amended: [ffmpeg_ram_free_encoder] on NULL returns at once and
    changes nothing; on the handle of a live session it returns and deletes
    the object, whose [free_encoder] releases each member that is set once
    and in this order: [av_packet_free] for the packet, [av_frame_free] for
    the working frame, [av_frame_free] for the hardware frame,
    [av_buffer_unref] for the hardware device and [avcodec_free_context]
    for the context; it leaves every pointer member NULL, so that a second
    [free_encoder] on the object would call nothing; no other session is
    touched.  From then on the behaviour of [ffmpeg_ram_free_encoder],
    [ffmpeg_ram_encode] and [ffmpeg_ram_set_bitrate] on that handle is
    undefined. *)
Theorem destroy_null_live_then_dangling (h : Heap) (a : positive)
    (s : FFmpegRamEncoder) :
  h !! a = Some s ->
  ffmpeg_ram_free_encoder h NULL = Returns tt h [] /\
  exists s' t,
    free_encoder s = Some (tt, s', t) /\
    free_encoder s' = Some (tt, s', []) /\
    ffmpeg_ram_free_encoder h (Addr a) = Returns tt (delete a h) t /\
    ffmpeg_ram_free_encoder (delete a h) (Addr a) = Undefined /\
    (forall E data_ptr length obj ms,
       ffmpeg_ram_encode (delete a h) E (Addr a) data_ptr length obj ms = Undefined) /\
    (forall bitrate,
       ffmpeg_ram_set_bitrate (delete a h) (Addr a) bitrate = Undefined) /\
    t = released (pkt_ s) av_packet_free ++
        released (frame_ s) av_frame_free ++
        released (hw_frame_ s) av_frame_free ++
        (if hw_device_ctx_ s then [av_buffer_unref] else []) ++
        released (c_ s) avcodec_free_context /\
    (initialised s = true ->
     t = [av_packet_free; av_frame_free] ++
         released (hw_frame_ s) av_frame_free ++
         (if hw_device_ctx_ s then [av_buffer_unref] else []) ++
         [avcodec_free_context]) /\
    pkt_ s' = None /\ frame_ s' = None /\ hw_frame_ s' = None /\
    hw_device_ctx_ s' = false /\ c_ s' = None /\
    delete a h !! a = None /\
    (forall b, b <> a -> delete a h !! b = h !! b).
Proof.
  intros Hs. split; [reflexivity|].
  pose proof (free_encoder_releases s) as Hfree.
  pose proof (free_encoder_releases (cleared s)) as Hagain.
  exists (cleared s), (releases s). split; [exact Hfree|]. split; [exact Hagain|].
  split; [|split; [|split; [|split]]].
  - unfold ffmpeg_ram_free_encoder, call. rewrite Hs, Hfree.
    by rewrite delete_insert_eq.
  - unfold ffmpeg_ram_free_encoder, call. by rewrite lookup_delete_eq.
  - intros. unfold ffmpeg_ram_encode, call. by rewrite lookup_delete_eq.
  - intros. unfold ffmpeg_ram_set_bitrate, call. by rewrite lookup_delete_eq.
  - split; [reflexivity|]. split.
    { unfold initialised, releases.
      destruct (c_ s), (frame_ s), (pkt_ s); try discriminate. reflexivity. }
    repeat (split; [reflexivity|]).
    split; [apply lookup_delete_eq|].
    intros b Hb. by apply lookup_delete_ne.
Qed.

Lemma destroy_null_live_then_dangling_witness :
  let s := Sample.session (build := Sample.linux) "h264_amf" AV_PIX_FMT_NV12 64 64
             500000 Sample.nv12_64 in
  exists t,
    ffmpeg_ram_free_encoder {[ 1%positive := s ]} (Addr 1) = Returns tt ∅ t /\
    ffmpeg_ram_free_encoder ∅ (Addr 1) = Undefined /\
    t = [av_packet_free; av_frame_free; avcodec_free_context].
Proof.
  intros s.
  destruct (destroy_null_live_then_dangling {[ 1%positive := s ]} 1 s)
    as (_ & s' & t & _ & _ & Hfree & Hagain & _ & _ & _ & Ht & _).
  { apply lookup_singleton_eq. }
  rewrite delete_singleton_eq in Hfree, Hagain.
  exists t. split; [exact Hfree|]. split; [exact Hagain|].
  rewrite (Ht eq_refl). reflexivity.
Defined.

(** ** One submission *)

(** [encode] on a session whose working frame is allocated, branch by
    branch. *)
Lemma encode_unfold (E : EncodeEnv) (data_ptr length obj ms : Z)
    (s : FFmpegRamEncoder) (f : AVFrame) :
  frame_ s = Some f ->
  encode E data_ptr length obj ms s =
    after [av_frame_make_writable]
      (if negb (env_make_writable E =? 0) then
         Some (env_make_writable E, s,
               [LOG_ERROR "av_frame_make_writable failed, ret = "])
       else
         let '(r, f', t) := fill_frame f data_ptr length (offset_ s) in
         let s1 := set_frame_ (Some f') s in
         after t
           (if negb (r =? 0) then Some (r, s1, [])
            else if negb (is_none (hw_device_type_ s)) then
              after [av_hwframe_transfer_data]
                (if env_hwframe_transfer E <? 0 then
                   Some (env_hwframe_transfer E, s1,
                         [LOG_ERROR "av_hwframe_transfer_data failed, ret = "])
                 else do_encode E (hw_frame_ s) obj (to_int64 ms) s1)
            else do_encode E (Some f') obj (to_int64 ms) s1)).
Proof.
  intros Hf. unfold encode. rewrite (run_deref _ _ _ f Hf). run.
  destruct (negb (env_make_writable E =? 0)).
  - run. reflexivity.
  - run. destruct (fill_frame f data_ptr length (offset_ s)) as [[r f'] t]. run.
    destruct (negb (r =? 0)); [reflexivity|].
    cbn [hw_device_type_ set_frame_ hw_frame_].
    destruct (negb (is_none (hw_device_type_ s))); [|reflexivity].
    run. destruct (env_hwframe_transfer E <? 0).
    + run. unfold ret. cbn [after]. by rewrite !app_nil_r, <- !app_assoc.
    + reflexivity.
Qed.

(** ** Buffers that are too short *)

(** A buffer below the length [fill_frame] compares against is refused:
    [encode] returns -1, nothing is handed to the engine, the callback is
    not invoked and the session is as it was. *)
Lemma encode_rejects_short_buffer (E : EncodeEnv) (data_ptr length obj ms : Z)
    (s : FFmpegRamEncoder) (f : AVFrame) :
  frame_ s = Some f ->
  env_make_writable E = 0 ->
  (format f = AV_PIX_FMT_NV12 /\
   length < int_mul (height f)
              (int_add (at_ (linesize f) 0) (int_div (at_ (linesize f) 1) 2))) \/
  (format f = AV_PIX_FMT_YUV420P /\
   length < int_mul (height f)
              (int_add (int_add (at_ (linesize f) 0) (int_div (at_ (linesize f) 1) 2))
                 (int_div (at_ (linesize f) 2) 2))) ->
  exists msg,
    encode E data_ptr length obj ms s =
      Some (-1, s, [av_frame_make_writable; LOG_ERROR msg]).
Proof.
  intros Hf Hw Hshort. rewrite (encode_unfold _ _ _ _ _ _ f Hf), Hw.
  cbn [Z.eqb negb].
  assert (Hs : set_frame_ (Some f) s = s) by (destruct s; cbn in *; by subst).
  unfold fill_frame.
  destruct Hshort as [[Hfmt Hlen] | [Hfmt Hlen]]; rewrite Hfmt; cbn [Z.eqb].
  - apply Z.ltb_lt in Hlen. rewrite Hlen. cbn. rewrite Hs. eexists. reflexivity.
  - apply Z.ltb_lt in Hlen. rewrite Hlen. cbn. rewrite Hs. eexists. reflexivity.
Qed.

(** The length [fill_frame] compares against never exceeds the length of
    the layout, and the two agree when the chroma strides are even. *)
Lemma fill_frame_minimum_le_layout (h l0 l1 l2 : Z) :
  0 <= h -> 0 <= l0 -> 0 <= l1 -> 0 <= l2 ->
  h * (l0 + l1 / 2 + l2 / 2) <= l0 * h + l1 * h / 2 + l2 * h / 2 /\
  (l1 mod 2 = 0 -> l2 mod 2 = 0 ->
   h * (l0 + l1 / 2 + l2 / 2) = l0 * h + l1 * h / 2 + l2 * h / 2).
Proof.
  intros Hh H0 H1 H2.
  assert (Hhalf : forall l, 0 <= l -> h * (l / 2) <= l * h / 2 /\
                            (l mod 2 = 0 -> h * (l / 2) = l * h / 2)).
  { intros l Hl. split.
    - apply Z.div_le_lower_bound; [lia|].
      pose proof (Z.mul_div_le l 2 ltac:(lia)). nia.
    - intros Heven. apply Z.mod_divide in Heven; [|lia].
      destruct Heven as [k ->]. rewrite Z.div_mul by lia.
      replace (k * 2 * h) with (h * k * 2) by lia. by rewrite Z.div_mul by lia. }
  destruct (Hhalf l1 H1) as [Hle1 Heq1], (Hhalf l2 H2) as [Hle2 Heq2].
  split; [nia|]. intros He1 He2. specialize (Heq1 He1). specialize (Heq2 He2). nia.
Qed.

(** C4 is broken by the code on odd chroma strides.  A 1366x768 planar
    session with alignment 1 has strides 1366, 683, 683; its layout needs
    1573632 bytes, with the third plane at offset 1311360 and 262272 bytes
    long; [fill_frame] compares against 768 * (1366 + 341 + 341) = 1572864,
    so a buffer of 1572864 bytes is accepted, its frame is sent to the
    engine and the callback is invoked. *)
Theorem encode_accepts_buffer_below_layout_length :
  let s := Sample.session (build := Sample.linux) "h264_amf" AV_PIX_FMT_YUV420P 1366 768
             500000 Sample.yuv420p_1366 in
  let layout :=
    ffmpeg_ram_get_linesize_offset_length (Sample.strides Sample.yuv420p_1366)
      AV_PIX_FMT_YUV420P 1366 768 1 Sample.all_outputs in
  let run := encode Sample.one_packet 4096 1572864 7 0 s in
  out_length (snd (fst layout)) = Some 1573632 /\
  option_map (fun o => at_ o 1) (out_offset (snd (fst layout))) = Some 1311360 /\
  1572864 < 1573632 /\
  returned run = Some 0 /\
  option_map (fun t => length (frames_sent t)) (trace_of run) = Some 1%nat /\
  option_map (fun t => length (callbacks t)) (trace_of run) = Some 1%nat.
Proof. vm_compute. repeat split. Qed.

(** ** Presentation offsets *)

(** [first_ms_], once not 0, is never assigned again. *)
Lemma latch_kept (first ms : Z) : first <> 0 -> latch first ms = first.
Proof. unfold latch. intros Hne. destruct (Z.eqb_spec first 0); congruence. Qed.

(** While [first_ms_] is 0 every delivered packet assigns it again, also
    when an earlier packet was delivered at time 0. *)
Lemma latch_again (ms : Z) : latch 0 ms = ms.
Proof. reflexivity. Qed.

(** C3 is broken by the code when the first packet comes at time 0.
    Frames at 0, 33 and 66 ms, one packet each: [first_ms_] is assigned at
    the first packet (to 0) and again at the second (to 33); the offsets
    are 0, 0, 33 and not 0, 33, 66.  From a first time of 1 the offsets are
    those of the claim. *)
Theorem first_ms_latched_again_after_zero :
  let s := Sample.session (build := Sample.linux) "h264_amf" AV_PIX_FMT_NV12 64 64
             500000 Sample.nv12_64 in
  let run times :=
    submit_all (map (fun ms => (Sample.one_packet, ms)) times) 4096 6144 7 s in
  returned (run [0; 33; 66]) = Some [0; 0; 0] /\
  option_map callback_pts (trace_of (run [0; 33; 66])) = Some [0; 0; 33] /\
  option_map first_ms_ (session_after (run [0])) = Some 0 /\
  option_map first_ms_ (session_after (run [0; 33; 66])) = Some 33 /\
  option_map callback_pts (trace_of (run [1; 34; 67])) = Some [0; 33; 66].
Proof. vm_compute. repeat split. Qed.

(** One [do_encode] and [first_ms_]: it changes only when a packet is
    delivered, and then to [latch]; every packet of the drain is delivered
    at the same offset. *)
Lemma callback_pts_callbacks (t : Trace) : callback_pts (callbacks t) = callback_pts t.
Proof.
  induction t as [|e t IH]; [reflexivity|].
  rewrite callbacks_cons. destruct e; cbn; try exact IH. by rewrite <- IH.
Qed.

Lemma callback_pts_map (cb pts obj : Z) (l : list AVPacket) :
  callback_pts
    (map (fun pkt => callback cb (pkt_data pkt) (pkt_size pkt) pts
                       (Z.land (pkt_flags pkt) AV_PKT_FLAG_KEY) obj) l) =
  repeat pts (length l).
Proof. induction l as [|pkt l IH]; [reflexivity|]. cbn. by rewrite IH. Qed.

Lemma do_encode_pts (E : EncodeEnv) (frame : option AVFrame) (obj ms : Z)
    (s : FFmpegRamEncoder) (p : AVPacket) :
  pkt_ s = Some p ->
  0 <= env_send_frame E ->
  exists r s' t,
    do_encode E frame obj ms s = Some (r, s', t) /\
    callback_pts t =
      repeat (int64_sub ms (latch (first_ms_ s) ms))
        (length (delivered (env_receive_packet E))) /\
    first_ms_ s' =
      match delivered (env_receive_packet E) with
      | [] => first_ms_ s
      | _ => latch (first_ms_ s) ms
      end.
Proof.
  intros Hp Hsend.
  destruct (do_encode_spec E frame obj ms s p Hp) as (p' & t & Hrun & Hcb & _).
  replace (env_send_frame E <? 0) with false in * by lia.
  eexists _, _, _. split; [exact Hrun|]. split; [|cbn; reflexivity].
  rewrite <- callback_pts_callbacks, Hcb. apply callback_pts_map.
Qed.

(** ** Sessions of several submissions *)

Lemma to_int64_small (ms : Z) : 0 <= ms < TIME_MAX -> to_int64 ms = ms.
Proof. unfold TIME_MAX, to_int64. intros Hms. apply wrap_small; lia. Qed.

Lemma int64_sub_small (a b : Z) :
  0 <= a < TIME_MAX -> 0 <= b < TIME_MAX -> int64_sub a b = a - b.
Proof. unfold TIME_MAX, int64_sub. intros Ha Hb. apply wrap_small; lia. Qed.

Lemma latch_range (first ms : Z) :
  0 <= first < TIME_MAX -> 0 <= ms < TIME_MAX -> 0 <= latch first ms < TIME_MAX.
Proof. unfold latch. destruct (first =? 0); auto. Qed.

Lemma callback_pts_app (t1 t2 : Trace) :
  callback_pts (t1 ++ t2) = callback_pts t1 ++ callback_pts t2.
Proof.
  induction t1 as [|e t1 IH]; [reflexivity|].
  destruct e; cbn; try exact IH. by rewrite IH.
Qed.

(** One [encode] on an initialised session returns; its packets are all
    delivered at [ms - latch first_ms_ ms]; [first_ms_] becomes
    [latch first_ms_ ms] if a packet was delivered and is unchanged
    otherwise; the session stays initialised. *)
Lemma encode_pts (E : EncodeEnv) (data_ptr length obj ms : Z)
    (s : FFmpegRamEncoder) (f : AVFrame) (p : AVPacket) :
  frame_ s = Some f -> pkt_ s = Some p ->
  0 <= ms < TIME_MAX -> 0 <= first_ms_ s < TIME_MAX ->
  exists r s' t n f' p',
    encode E data_ptr length obj ms s = Some (r, s', t) /\
    callback_pts t = repeat (ms - latch (first_ms_ s) ms) n /\
    first_ms_ s' = match n with O => first_ms_ s | S _ => latch (first_ms_ s) ms end /\
    frame_ s' = Some f' /\ pkt_ s' = Some p'.
Proof.
  intros Hf Hp Hms Hfirst. rewrite (encode_unfold _ _ _ _ _ _ f Hf).
  destruct (negb (env_make_writable E =? 0)).
  { eexists (env_make_writable E), s, _, 0%nat, f, p. cbn [after].
    split; [reflexivity|]. cbn. auto. }
  destruct (fill_frame f data_ptr length (offset_ s)) as [[r f'] t] eqn:Hfill.
  assert (Ht : callback_pts t = []).
  { unfold fill_frame in Hfill.
    repeat match type of Hfill with
           | (if ?b then _ else _) = _ => destruct b
           end; injection Hfill as <- <- <-; reflexivity. }
  pose proof callback_pts_app as Happ.
  set (s1 := set_frame_ (Some f') s).
  assert (Hp1 : pkt_ s1 = Some p) by exact Hp.
  assert (Hdo : forall fr,
            exists r s' t n p',
              do_encode E fr obj (to_int64 ms) s1 = Some (r, s', t) /\
              callback_pts t = repeat (ms - latch (first_ms_ s) ms) n /\
              first_ms_ s' =
                match n with O => first_ms_ s | S _ => latch (first_ms_ s) ms end /\
              frame_ s' = Some f' /\ pkt_ s' = Some p').
  { intros fr. rewrite to_int64_small by assumption.
    destruct (do_encode_spec E fr obj ms s1 p Hp1) as (p' & t' & Hrun & Hcb & _).
    destruct (env_send_frame E <? 0).
    - exists (env_send_frame E), s1, t', 0%nat, p. repeat split; try assumption.
      by rewrite <- callback_pts_callbacks, Hcb.
    - eexists _, _, t', (List.length (delivered (env_receive_packet E))), p'.
      split; [exact Hrun|]. split; [|split; [|split]].
      + rewrite <- callback_pts_callbacks, Hcb, callback_pts_map.
        change (first_ms_ s1) with (first_ms_ s).
        rewrite int64_sub_small; [reflexivity | assumption | by apply latch_range].
      + cbn [first_ms_ set_pkt_ set_first_ms_].
        change (first_ms_ s1) with (first_ms_ s).
        destruct (delivered (env_receive_packet E)); reflexivity.
      + reflexivity.
      + reflexivity. }
  cbv zeta. fold s1.
  destruct (negb (r =? 0)).
  { eexists r, s1, _, 0%nat, f', p. cbn [after].
    split; [reflexivity|]. rewrite !Happ. cbn [callback_pts]. rewrite Ht. auto. }
  destruct (negb (is_none (hw_device_type_ s))).
  - destruct (env_hwframe_transfer E <? 0).
    + eexists (env_hwframe_transfer E), s1, _, 0%nat, f', p. cbn [after].
      split; [reflexivity|]. rewrite !Happ. cbn [callback_pts]. rewrite Ht. auto.
    + destruct (Hdo (hw_frame_ s)) as (r' & s' & t' & n & p' & Hrun & Hpts & Hfst & Hfr & Hpk).
      rewrite Hrun. eexists r', s', _, n, f', p'. cbn [after].
      split; [reflexivity|]. rewrite !Happ. cbn [callback_pts]. rewrite Ht, Hpts. auto.
  - destruct (Hdo (Some f')) as (r' & s' & t' & n & p' & Hrun & Hpts & Hfst & Hfr & Hpk).
    rewrite Hrun. eexists r', s', _, n, f', p'. cbn [after].
    split; [reflexivity|]. rewrite !Happ. cbn [callback_pts]. rewrite Ht, Hpts. auto.
Qed.

(** A session of several submissions returns, and hands out the offsets
    [offsets_from] computes from [first_ms_]. *)
Lemma submit_all_pts (data_ptr length obj : Z) (subs : list (EncodeEnv * Z)) :
  forall (s : FFmpegRamEncoder) (f : AVFrame) (p : AVPacket),
    frame_ s = Some f -> pkt_ s = Some p ->
    0 <= first_ms_ s < TIME_MAX ->
    Forall (fun sub => 0 <= snd sub < TIME_MAX) subs ->
    exists rs s' t ns,
      submit_all subs data_ptr length obj s = Some (rs, s', t) /\
      List.length ns = List.length subs /\
      callback_pts t = offsets_from (first_ms_ s) (combine (map snd subs) ns).
Proof.
  induction subs as [|[E ms] subs IH]; intros s f p Hf Hp Hfirst Hall.
  - exists [], s, [], []. repeat split.
  - inversion Hall as [|? ? Hms Hall']; subst. cbn [snd] in Hms.
    destruct (encode_pts E data_ptr length obj ms s f p Hf Hp Hms Hfirst)
      as (r & s1 & t1 & n & f1 & p1 & Hrun & Hpts & Hfst & Hf1 & Hp1).
    assert (Hfirst1 : 0 <= first_ms_ s1 < TIME_MAX).
    { rewrite Hfst. destruct n; [assumption | by apply latch_range]. }
    destruct (IH s1 f1 p1 Hf1 Hp1 Hfirst1 Hall')
      as (rs & s2 & t2 & ns & Hrest & Hlen & Hpts2).
    exists (r :: rs), s2, (t1 ++ t2), (n :: ns).
    split; [|split].
    + cbn [submit_all]. rewrite (run_bind _ _ _ _ _ _ Hrun).
      rewrite (run_bind _ _ _ _ _ _ Hrest). cbn. by rewrite app_nil_r.
    + cbn. by rewrite Hlen.
    + rewrite callback_pts_app, Hpts, Hpts2, Hfst. reflexivity.
Qed.

Lemma offsets_from_latched (first : Z) (subs : list (Z * nat)) :
  first <> 0 ->
  offsets_from first subs = flat_map (fun sub => repeat (fst sub - first) (snd sub)) subs.
Proof.
  intros Hne. induction subs as [|[ms n] subs IH]; [reflexivity|].
  cbn [offsets_from flat_map fst snd]. rewrite (latch_kept first ms Hne).
  destruct n; by rewrite IH.
Qed.

(** When no timestamp is 0, [first_ms_] is assigned once, at the first
    packet, and every packet is delivered at its timestamp minus that of
    the first packet. *)
Lemma offsets_from_first_stamp (subs : list (Z * nat)) :
  Forall (fun sub => fst sub <> 0) subs ->
  offsets_from 0 subs =
    flat_map (fun sub => repeat (fst sub - first_stamp subs) (snd sub)) subs.
Proof.
  induction subs as [|[ms n] subs IH]; intros Hall; [reflexivity|].
  inversion Hall as [|? ? Hms Hall']; subst. cbn [fst] in Hms.
  cbn [offsets_from first_stamp flat_map fst snd]. destruct n as [|n].
  - by rewrite IH.
  - rewrite latch_again, (offsets_from_latched ms subs Hms). reflexivity.
Qed.

(** On a fresh session fed at timestamps none of which is 0, every packet
    is delivered at its timestamp minus the timestamp of the first packet:
    [first_ms_] is then latched once. *)
Lemma session_offsets_from_first_stamp (data_ptr length obj : Z)
    (subs : list (EncodeEnv * Z)) (s : FFmpegRamEncoder) (f : AVFrame)
    (p : AVPacket) :
  frame_ s = Some f -> pkt_ s = Some p -> first_ms_ s = 0 ->
  Forall (fun sub => 0 < snd sub < TIME_MAX) subs ->
  exists rs s' t ns,
    submit_all subs data_ptr length obj s = Some (rs, s', t) /\
    List.length ns = List.length subs /\
    let stamped := combine (map snd subs) ns in
    callback_pts t =
      flat_map (fun sub => repeat (fst sub - first_stamp stamped) (snd sub)) stamped.
Proof.
  intros Hf Hp Hfirst Hall.
  destruct (submit_all_pts data_ptr length obj subs s f p Hf Hp)
    as (rs & s' & t & ns & Hrun & Hlen & Hpts).
  { rewrite Hfirst. unfold TIME_MAX. lia. }
  { eapply Forall_impl; [exact Hall|]. cbn. intros sub Hsub. lia. }
  exists rs, s', t, ns. split; [exact Hrun|]. split; [exact Hlen|].
  cbv zeta. rewrite Hpts, Hfirst. apply offsets_from_first_stamp.
  clear -Hall. revert ns. induction subs as [|[E ms] subs IH]; intros ns.
  - constructor.
  - inversion Hall as [|? ? Hms Hall']; subst. destruct ns as [|n ns]; cbn.
    + constructor.
    + constructor; [cbn in *; lia | apply IH; assumption].
Qed.

(** ** The hardware back-end *)

(** [contains] is the substring test: a non-empty [pat] is found exactly
    when it occurs at some position of [s]. *)
Lemma contains_occurs (s pat : string) :
  pat <> EmptyString ->
  contains s pat = true <->
  exists m : nat, substring m (String.length pat) s = pat.
Proof.
  intros Hpat. unfold contains, find. split.
  - destruct (String.index 0 pat s) as [m|] eqn:Hidx; [|discriminate].
    intros _. exists m. exact (index_correct1 _ _ _ _ Hidx).
  - intros [m Hm]. destruct (String.index 0 pat s) as [m'|] eqn:Hidx; [reflexivity|].
    exfalso. exact (index_correct3 0 m pat s Hidx Hpat (Nat.le_0_l m) Hm).
Qed.

(** C10: the constructor chooses the hardware back-end from the codec
    name alone.  A name containing "vaapi" gets the VAAPI device type;
    another name containing "nvenc" gets the D3D11VA device type on a
    Windows build and no device type otherwise; any other name gets none.
    A session with no device type hands its working frame, not a hardware
    frame, to [do_encode]. *)
Theorem hw_backend_by_name {build : Build} (name : string)
    (width height pixfmt align bit_rate time_base_num time_base_den gop quality
     rc thread_count gpu callback : Z) :
  let s := new_FFmpegRamEncoder name width height pixfmt align bit_rate
             time_base_num time_base_den gop quality rc thread_count gpu callback in
  (contains name "vaapi" = true ->
   hw_device_type_ s = AV_HWDEVICE_TYPE_VAAPI /\ hw_pixfmt_ s = AV_PIX_FMT_VAAPI) /\
  (contains name "vaapi" = false -> contains name "nvenc" = true -> WIN32 = true ->
   hw_device_type_ s = AV_HWDEVICE_TYPE_D3D11VA /\ hw_pixfmt_ s = AV_PIX_FMT_D3D11) /\
  (contains name "vaapi" = false -> contains name "nvenc" = true -> WIN32 = false ->
   hw_device_type_ s = AV_HWDEVICE_TYPE_NONE /\ hw_pixfmt_ s = AV_PIX_FMT_NONE) /\
  (contains name "vaapi" = false -> contains name "nvenc" = false ->
   hw_device_type_ s = AV_HWDEVICE_TYPE_NONE /\ hw_pixfmt_ s = AV_PIX_FMT_NONE) /\
  (forall (s1 : FFmpegRamEncoder) (f f' : AVFrame) (E : EncodeEnv)
          (data_ptr length obj ms : Z) (t : Trace),
     hw_device_type_ s1 = AV_HWDEVICE_TYPE_NONE ->
     frame_ s1 = Some f ->
     env_make_writable E = 0 ->
     fill_frame f data_ptr length (offset_ s1) = (0, f', t) ->
     encode E data_ptr length obj ms s1 =
       after (av_frame_make_writable :: t)
         (do_encode E (Some f') obj (to_int64 ms) (set_frame_ (Some f') s1))).
Proof.
  intros s. subst s. unfold new_FFmpegRamEncoder.
  split; [|split; [|split; [|split]]].
  - intros ->. split; reflexivity.
  - intros -> -> ->. split; reflexivity.
  - intros -> -> ->. split; reflexivity.
  - intros -> ->. split; reflexivity.
  - intros s1 f f' E data_ptr length obj ms t Hty Hf Hw Hfill.
    rewrite (encode_unfold _ _ _ _ _ _ f Hf), Hw, Hfill, Hty.
    cbn [Z.eqb negb is_none]. by rewrite after_after.
Qed.

Lemma hw_backend_by_name_witness :
  hw_device_type_
    (new_FFmpegRamEncoder (build := Sample.linux) "h264_vaapi" 64 64 AV_PIX_FMT_NV12 32
       500000 1 30 9999 1 0 1 0 1) = AV_HWDEVICE_TYPE_VAAPI /\
  hw_device_type_
    (new_FFmpegRamEncoder (build := Sample.windows) "h264_nvenc" 64 64 AV_PIX_FMT_NV12 32
       500000 1 30 9999 1 0 1 0 1) = AV_HWDEVICE_TYPE_D3D11VA /\
  hw_device_type_
    (new_FFmpegRamEncoder (build := Sample.linux) "h264_nvenc" 64 64 AV_PIX_FMT_NV12 32
       500000 1 30 9999 1 0 1 0 1) = AV_HWDEVICE_TYPE_NONE /\
  hw_device_type_
    (new_FFmpegRamEncoder (build := Sample.windows) "h264_amf" 64 64 AV_PIX_FMT_NV12 32
       500000 1 30 9999 1 0 1 0 1) = AV_HWDEVICE_TYPE_NONE.
Proof.
  split; [|split; [|split]].
  - destruct (hw_backend_by_name (build := Sample.linux) "h264_vaapi" 64 64
                AV_PIX_FMT_NV12 32 500000 1 30 9999 1 0 1 0 1) as (Hv & _).
    apply Hv. reflexivity.
  - destruct (hw_backend_by_name (build := Sample.windows) "h264_nvenc" 64 64
                AV_PIX_FMT_NV12 32 500000 1 30 9999 1 0 1 0 1) as (_ & Hw & _).
    apply Hw; reflexivity.
  - destruct (hw_backend_by_name (build := Sample.linux) "h264_nvenc" 64 64
                AV_PIX_FMT_NV12 32 500000 1 30 9999 1 0 1 0 1) as (_ & _ & Hl & _).
    apply Hl; reflexivity.
  - destruct (hw_backend_by_name (build := Sample.windows) "h264_amf" 64 64
                AV_PIX_FMT_NV12 32 500000 1 30 9999 1 0 1 0 1)
      as (_ & _ & _ & Hn & _).
    apply Hn; reflexivity.
Defined.

(** * Further properties *)

(** ** The layout query, on every path *)

Lemma count_app (p : Event -> bool) (t1 t2 : Trace) :
  count p (t1 ++ t2) = (count p t1 + count p t2)%nat.
Proof. unfold count. by rewrite List.filter_app, length_app. Qed.

(** X1: [ffmpeg_ram_get_linesize_offset_length] never returns a positive
    value, whatever [av_frame_get_buffer] returned; it returns 0 exactly
    when the frame is allocated, its buffer is obtained and, if offsets or
    length are asked for, the format is one of the two supported tags. *)
Theorem layout_result_code (E : LayoutEnv) (pix_fmt width height align : Z)
    (out : LayoutOut) :
  let r := fst (fst (ffmpeg_ram_get_linesize_offset_length E pix_fmt width height
                       align out)) in
  r <= 0 /\
  (r = 0 <->
   env_frame_alloc E = true /\ 0 <= fst (env_get_buffer E) /\
   (wants_layout out = true ->
    pix_fmt = AV_PIX_FMT_YUV420P \/ pix_fmt = AV_PIX_FMT_NV12)).
Proof.
  cbv zeta. unfold ffmpeg_ram_get_linesize_offset_length, wants_layout.
  destruct (env_frame_alloc E); cbn [negb fst].
  2:{ split; [lia|]. split; [discriminate | intros [? _]; discriminate]. }
  destruct (env_get_buffer E) as [r ls]. cbn [fst].
  destruct (Z.ltb_spec r 0) as [Hneg | Hpos]; cbn [fst].
  { split; [lia|]. split; [lia | intros (_ & ? & _); lia]. }
  destruct (out_offset out), (out_length out); cbn [andb].
  4:{ cbn. split; [lia|]. split; [|reflexivity]. intros _.
      repeat split; [lia | discriminate]. }
  all: unfold calculate_offset_length.
  all: destruct (Z.eqb_spec pix_fmt AV_PIX_FMT_YUV420P) as [-> | Hy];
    [cbn; split; [lia|]; split; [|reflexivity]; intros _; repeat split; auto |].
  all: destruct (Z.eqb_spec pix_fmt AV_PIX_FMT_NV12) as [-> | Hn];
    [cbn; split; [lia|]; split; [|reflexivity]; intros _; repeat split; auto |].
  all: cbn; split; [lia|]; split; [discriminate|].
  all: intros (_ & _ & Hfmt); destruct (Hfmt eq_refl); contradiction.
Qed.

(** The events of [calculate_offset_length] are log lines. *)
Lemma calculate_trace (pix_fmt height : Z) (ls o : list Z) (len : Z) :
  forall p, (forall msg, p (LOG_ERROR msg) = false) ->
    count p (snd (calculate_offset_length pix_fmt height ls o len)) = 0%nat.
Proof.
  intros p Hlog. unfold calculate_offset_length.
  destruct (pix_fmt =? AV_PIX_FMT_YUV420P); [reflexivity|].
  destruct (pix_fmt =? AV_PIX_FMT_NV12); [reflexivity|].
  unfold count. cbn. by rewrite Hlog.
Qed.

(** X2: the frame [ffmpeg_ram_get_linesize_offset_length] allocates is
    freed on every path: [av_frame_alloc] is called once, and
    [av_frame_free] once if it returned a frame and never otherwise; no
    hardware call is made. *)
Theorem layout_frame_freed (E : LayoutEnv) (pix_fmt width height align : Z)
    (out : LayoutOut) :
  let t := snd (ffmpeg_ram_get_linesize_offset_length E pix_fmt width height
                  align out) in
  count is_frame_alloc t = 1%nat /\
  count is_frame_free t = (if env_frame_alloc E then 1 else 0)%nat /\
  count is_hw_call t = 0%nat.
Proof.
  cbv zeta. unfold ffmpeg_ram_get_linesize_offset_length.
  destruct (env_frame_alloc E); cbn [negb snd]; [|repeat split].
  destruct (env_get_buffer E) as [r ls].
  destruct (r <? 0); [repeat split|].
  destruct (match out_offset out, out_length out with
            | None, None => false | _, _ => true end).
  - pose proof (calculate_trace pix_fmt height ls zeros 0) as Hcalc.
    destruct (calculate_offset_length pix_fmt height ls zeros 0)
      as [[[r' o'] len'] t'].
    cbn [snd] in Hcalc. cbn [andb].
    destruct (r' <? 0); cbn [snd]; rewrite !count_app, !Hcalc by reflexivity;
      repeat split.
  - cbn. repeat split.
Qed.

(** X3: a call of [ffmpeg_ram_get_linesize_offset_length] that does not
    return 0 leaves the caller's offset and length outputs as they were;
    if the frame or its buffer could not be allocated the stride output is
    untouched too. *)
Theorem layout_failure_untouched (E : LayoutEnv) (pix_fmt width height align : Z)
    (out out' : LayoutOut) (r : Z) (t : Trace) :
  ffmpeg_ram_get_linesize_offset_length E pix_fmt width height align out =
    (r, out', t) ->
  r <> 0 ->
  out_offset out' = out_offset out /\
  out_length out' = out_length out /\
  (env_frame_alloc E = false \/ fst (env_get_buffer E) < 0 -> out' = out).
Proof.
  unfold ffmpeg_ram_get_linesize_offset_length.
  destruct (env_frame_alloc E); cbn [negb].
  2:{ intros [= <- <- <-] _. auto. }
  destruct (env_get_buffer E) as [r0 ls]. cbn [fst].
  destruct (Z.ltb_spec r0 0) as [Hneg | Hpos].
  { intros [= <- <- <-] _. auto. }
  destruct (calculate_offset_length pix_fmt height ls zeros 0)
    as [[[r' o'] len'] t'].
  destruct (match out_offset out, out_length out with
            | None, None => false | _, _ => true end); cbn [andb].
  - destruct (r' <? 0).
    + intros [= <- <- <-] _. cbn. repeat split. intros [? | ?]; [discriminate | lia].
    + intros [= <- <- <-] Hr. contradiction.
  - intros [= <- <- <-] Hr. contradiction.
Qed.

Lemma layout_failure_untouched_witness :
  exists r out' t,
    ffmpeg_ram_get_linesize_offset_length
      {| env_frame_alloc := true; env_get_buffer := (-22, zeros) |}
      AV_PIX_FMT_NV12 0 0 32 Sample.all_outputs = (r, out', t) /\
    r = -22 /\ out' = Sample.all_outputs.
Proof.
  eexists _, _, _. split; [reflexivity|]. split; [reflexivity|].
  apply (layout_failure_untouched
           {| env_frame_alloc := true; env_get_buffer := (-22, zeros) |}
           AV_PIX_FMT_NV12 0 0 32 Sample.all_outputs _ (-22) _ eq_refl).
  - discriminate.
  - right. cbn. lia.
Defined.

(** X4: the three outputs are independent: whether the strides are asked
    for changes neither the result code nor the offsets and length
    written, so a caller may query the layout with a NULL stride pointer,
    as [init] does. *)
Theorem layout_without_strides (E : LayoutEnv) (pix_fmt width height align : Z)
    (out : LayoutOut) :
  let full := ffmpeg_ram_get_linesize_offset_length E pix_fmt width height align out in
  let part :=
    ffmpeg_ram_get_linesize_offset_length E pix_fmt width height align
      {| out_linesize := None; out_offset := out_offset out;
         out_length := out_length out |} in
  fst (fst part) = fst (fst full) /\
  out_offset (snd (fst part)) = out_offset (snd (fst full)) /\
  out_length (snd (fst part)) = out_length (snd (fst full)) /\
  out_linesize (snd (fst part)) = None /\
  snd part = snd full.
Proof.
  cbv zeta. unfold ffmpeg_ram_get_linesize_offset_length.
  destruct (env_frame_alloc E); cbn [negb]; [|repeat split].
  destruct (env_get_buffer E) as [r ls].
  destruct (r <? 0); [repeat split|].
  cbn [out_linesize out_offset out_length].
  destruct (calculate_offset_length pix_fmt height ls zeros 0)
    as [[[r' o'] len'] t'].
  destruct (match out_offset out, out_length out with
            | None, None => false | _, _ => true end); cbn [andb].
  - destruct (r' <? 0); repeat split.
  - repeat split.
Qed.

(** ** Buffer lengths *)

(** The length [fill_frame] compares a buffer against, and the length
    [calculate_offset_length] computes, on a frame of a supported format
    whose planes fit an [int]. *)
Lemma fill_frame_need (f : AVFrame) (data_ptr len : Z) (off : list Z) :
  let h := height f in
  let l0 := at_ (linesize f) 0 in
  let l1 := at_ (linesize f) 1 in
  let l2 := at_ (linesize f) 2 in
  2 <= h -> 1 <= l0 -> 1 <= l1 ->
  (format f = AV_PIX_FMT_NV12 /\ (l0 + l1) * h <= INT_MAX /\ l2 = 0) \/
  (format f = AV_PIX_FMT_YUV420P /\ 1 <= l2 /\ (l0 + l1 + l2) * h <= INT_MAX) ->
  (fst (fst (fill_frame f data_ptr len off)) = 0 <->
   h * (l0 + l1 / 2 + l2 / 2) <= len) /\
  snd (fst (calculate_offset_length (format f) h (linesize f) zeros 0)) =
    l0 * h + l1 * h / 2 + l2 * h / 2 /\
  0 <= l2.
Proof.
  intros h l0 l1 l2 Hh H0 H1 Hfmt.
  assert (Hhalf1 : 0 <= l1 / 2 <= l1) by (Z.div_mod_to_equations; lia).
  assert (Hhalf2 : 0 <= l2 -> 0 <= l2 / 2 <= l2) by (intros; Z.div_mod_to_equations; lia).
  unfold fill_frame.
  destruct Hfmt as [(Hf & Hfit & Hz) | (Hf & H2 & Hfit)]; rewrite Hf.
  - fold h l0 l1. rewrite calculate_nv12 by assumption. cbn [Z.eqb fst snd].
    rewrite Hz. change (0 / 2) with 0. change (0 * h / 2) with 0. rewrite !Z.add_0_r.
    unfold int_mul, int_add, int_div.
    rewrite quot2_div2 by lia. rewrite (int_fits (l1 / 2)) by nia.
    rewrite (int_fits (l0 + l1 / 2)) by nia.
    rewrite (int_fits (h * _)) by nia.
    split; [|split; [reflexivity | lia]].
    change (AV_PIX_FMT_NV12 =? AV_PIX_FMT_NV12) with true. cbv iota.
    destruct (Z.ltb_spec len (h * (l0 + l1 / 2))); cbn [fst]; split; lia.
  - fold h l0 l1 l2. specialize (Hhalf2 ltac:(lia)).
    rewrite calculate_yuv420p by assumption. cbn [Z.eqb fst snd].
    unfold int_mul, int_add, int_div.
    rewrite !quot2_div2 by lia. rewrite (int_fits (l1 / 2)), (int_fits (l2 / 2)) by nia.
    rewrite (int_fits (l0 + l1 / 2)) by nia.
    rewrite (int_fits (l0 + l1 / 2 + l2 / 2)) by nia.
    split; [|split; [reflexivity | lia]].
    change (AV_PIX_FMT_YUV420P =? AV_PIX_FMT_NV12) with false.
    change (AV_PIX_FMT_YUV420P =? AV_PIX_FMT_YUV420P) with true. cbv iota.
    assert (Hfits : 0 <= h * (l0 + l1 / 2 + l2 / 2) <= INT_MAX) by nia.
    rewrite (int_fits _ Hfits).
    destruct (Z.ltb_spec len (h * (l0 + l1 / 2 + l2 / 2))); cbn [fst]; split; lia.
Qed.

(** X5: on a frame of a supported format whose planes fit an [int] (a
    semi-planar frame has no third stride), [fill_frame] accepts a buffer
    exactly when its length is at least
    [height * (linesize[0] + linesize[1]/2 + linesize[2]/2)].  That bound
    never exceeds the length [calculate_offset_length] computes, so a
    buffer of the advertised length is always accepted, and it equals that
    length when the chroma strides are even. *)
Theorem fill_frame_bound (f : AVFrame) (data_ptr len : Z) (off : list Z) :
  let h := height f in
  let l0 := at_ (linesize f) 0 in
  let l1 := at_ (linesize f) 1 in
  let l2 := at_ (linesize f) 2 in
  let total :=
    snd (fst (calculate_offset_length (format f) h (linesize f) zeros 0)) in
  2 <= h -> 1 <= l0 -> 1 <= l1 ->
  (format f = AV_PIX_FMT_NV12 /\ (l0 + l1) * h <= INT_MAX /\ l2 = 0) \/
  (format f = AV_PIX_FMT_YUV420P /\ 1 <= l2 /\ (l0 + l1 + l2) * h <= INT_MAX) ->
  let need := h * (l0 + l1 / 2 + l2 / 2) in
  (fst (fst (fill_frame f data_ptr len off)) = 0 <-> need <= len) /\
  need <= total /\
  (total <= len -> fst (fst (fill_frame f data_ptr len off)) = 0) /\
  (l1 mod 2 = 0 -> l2 mod 2 = 0 -> need = total).
Proof.
  intros h l0 l1 l2 total Hh H0 H1 Hfmt need.
  destruct (fill_frame_need f data_ptr len off Hh H0 H1 Hfmt) as (Hiff & Htotal & Hl2).
  fold h l0 l1 l2 need total in Hiff, Htotal.
  destruct (fill_frame_minimum_le_layout h l0 l1 l2 ltac:(lia) ltac:(lia) ltac:(lia)
              ltac:(lia)) as [Hle Heq].
  fold need in Hle, Heq. rewrite <- Htotal in Hle, Heq.
  split; [exact Hiff|]. split; [exact Hle|]. split; [|exact Heq].
  intros Hlen. apply Hiff. lia.
Qed.

Lemma fill_frame_bound_witness :
  let f := {| format := AV_PIX_FMT_YUV420P; width := 1366; height := 768;
              linesize := Sample.yuv420p_1366; data := zeros;
              hw_frames_ctx := None |} in
  (fst (fst (fill_frame f 4096 1572864 zeros)) = 0 <-> 1572864 <= 1572864) /\
  1572864 <= 1573632.
Proof.
  intros f.
  destruct (fill_frame_bound f 4096 1572864 zeros) as (Hiff & Hle & _).
  - cbn. lia.
  - cbn. lia.
  - cbn. lia.
  - right. cbn. repeat split; try lia. vm_compute. discriminate.
  - split; [exact Hiff | exact Hle].
Defined.

(** ** The calls of one drain *)

Lemma count_cons (p : Event -> bool) (e : Event) (t : Trace) :
  count p (e :: t) = ((if p e then 1 else 0) + count p t)%nat.
Proof. unfold count. cbn [List.filter]. destruct (p e); reflexivity. Qed.

Lemma count_nil (p : Event -> bool) : count p [] = 0%nat.
Proof. reflexivity. Qed.

Ltac count_norm :=
  repeat first [ rewrite count_app | rewrite count_cons | rewrite count_nil ].

(** The calls of the drain loop, counted: every event of the loop is an
    [avcodec_receive_packet], a callback or a log line, and the engine is
    asked once more than it delivers. *)
Lemma receive_loop_count (p : Event -> bool) (answers : list (Z * AVPacket)) :
  (forall msg, p (LOG_ERROR msg) = false) ->
  (forall cb d l pts k o, p (callback cb d l pts k o) = false) ->
  forall (obj ms : Z) (encoded : bool) (s : FFmpegRamEncoder) (pk : AVPacket)
         (r : bool) (s' : FFmpegRamEncoder) (t : Trace),
    pkt_ s = Some pk ->
    receive_loop answers obj ms encoded s = Some (r, s', t) ->
    count p t =
      ((if p avcodec_receive_packet then 1 else 0) *
       S (List.length (delivered answers)))%nat.
Proof.
  intros Hlog Hcb.
  induction answers as [|[r0 pkt] answers IH]; intros obj ms encoded s pk r s' t Hp.
  - cbn. intros [= <- <- <-]. count_norm. lia.
  - cbn [receive_loop delivered]. run. rewrite (run_deref _ _ _ pk Hp). run.
    destruct (Z.ltb_spec r0 0) as [Hneg | Hpos].
    + unfold receive_failed. destruct (negb (r0 =? AVERROR EAGAIN)); cbn.
      * intros [= <- <- <-]. count_norm. rewrite Hlog. cbn [List.length]. lia.
      * intros [= <- <- <-]. count_norm. cbn [List.length]. lia.
    + set (s1 := set_pkt_ (Some pkt) s).
      set (s2 := if first_ms_ s =? 0 then set_first_ms_ ms s1 else s1).
      assert (Hp2 : pkt_ s2 = Some pkt).
      { subst s2 s1. destruct (first_ms_ s =? 0); reflexivity. }
      assert (Hlatch : (if first_ms_ s1 =? 0 then modify (set_first_ms_ ms) else ret tt) s1
                       = Some (tt, s2, [])).
      { subst s2. change (first_ms_ s1) with (first_ms_ s).
        destruct (first_ms_ s =? 0); reflexivity. }
      run. rewrite (run_bind _ _ _ _ _ _ Hlatch). run.
      rewrite (run_deref _ _ _ pkt Hp2). run.
      destruct (receive_loop answers obj ms true s2) as [[[r1 s3] t3]|] eqn:Hrec;
        cbn [after]; [|discriminate].
      intros [= <- <- <-]. count_norm. rewrite Hcb.
      rewrite (IH obj ms true s2 pkt r1 s3 t3 Hp2 Hrec). cbn [List.length]. lia.
Qed.

(** The calls of [do_encode], counted. *)
Lemma do_encode_count (p : Event -> bool) (E : EncodeEnv) (frame : option AVFrame)
    (obj ms : Z) (s : FFmpegRamEncoder) (pk : AVPacket) (r : Z)
    (s' : FFmpegRamEncoder) (t : Trace) :
  (forall msg, p (LOG_ERROR msg) = false) ->
  (forall cb d l pts k o, p (callback cb d l pts k o) = false) ->
  pkt_ s = Some pk ->
  do_encode E frame obj ms s = Some (r, s', t) ->
  count p t =
    ((if p (avcodec_send_frame frame) then 1 else 0) +
     (if (env_send_frame E <? 0)%Z then 0
      else (if p avcodec_receive_packet then 1 else 0) *
           S (List.length (delivered (env_receive_packet E))) +
           (if p av_packet_unref then 1 else 0)))%nat.
Proof.
  intros Hlog Hcb Hp. unfold do_encode. run.
  destruct (env_send_frame E <? 0).
  - cbn. intros [= <- <- <-]. count_norm. rewrite Hlog. lia.
  - destruct (receive_loop (env_receive_packet E) obj ms false s) as [[[e s1] t1]|] eqn:Hrec.
    + rewrite (run_bind _ _ _ _ _ _ Hrec). run. cbn.
      intros [= <- <- <-]. count_norm.
      rewrite (receive_loop_count p _ Hlog Hcb _ _ _ _ _ _ _ _ Hp Hrec). lia.
    + unfold bind at 1. rewrite Hrec. cbn. discriminate.
Qed.

(** X6: [do_encode] hands the frame to the engine once.  If the engine
    refuses it, the engine's code is returned, no packet is asked for and
    the session is as it was.  Otherwise [avcodec_receive_packet] is called
    once more than packets are delivered (the drain ends at the first
    negative answer), the callback runs once per packet, and the packet is
    unreferenced once, as the last call. *)
Theorem do_encode_drain_calls (E : EncodeEnv) (frame : option AVFrame) (obj ms : Z)
    (s : FFmpegRamEncoder) (pk : AVPacket) :
  pkt_ s = Some pk ->
  exists (r : Z) (s' : FFmpegRamEncoder) (t : Trace),
    do_encode E frame obj ms s = Some (r, s', t) /\
    frames_sent t = [avcodec_send_frame frame] /\
    (env_send_frame E < 0 ->
       r = env_send_frame E /\ s' = s /\
       count is_receive t = 0%nat /\ count is_callback t = 0%nat /\
       count is_unref t = 0%nat) /\
    (0 <= env_send_frame E ->
       count is_receive t = S (List.length (delivered (env_receive_packet E))) /\
       count is_callback t = List.length (delivered (env_receive_packet E)) /\
       count is_unref t = 1%nat /\
       List.last t avcodec_receive_packet = av_packet_unref).
Proof.
  intros Hp.
  destruct (do_encode_spec E frame obj ms s pk Hp) as (p' & t & Hrun & Hcb & Hfs).
  pose proof (fun p Hlog Hc => do_encode_count p E frame obj ms s pk _ _ t Hlog Hc Hp Hrun)
    as Hcount.
  assert (Hcalls : count is_callback t = List.length (callbacks t)) by reflexivity.
  assert (Hlast : 0 <= env_send_frame E ->
                  List.last t avcodec_receive_packet = av_packet_unref).
  { intros Hpos. clear Hcount Hcb Hfs Hcalls. unfold do_encode in Hrun. revert Hrun. run.
    replace (env_send_frame E <? 0) with false by lia.
    destruct (receive_loop (env_receive_packet E) obj ms false s) as [[[e s1] t1]|] eqn:Hrec.
    - rewrite (run_bind _ _ _ _ _ _ Hrec). run. cbn.
      intros [= _ _ <-]. rewrite app_nil_r.
      change (avcodec_send_frame frame :: t1 ++ [av_packet_unref])
        with ((avcodec_send_frame frame :: t1) ++ [av_packet_unref]).
      apply List.last_last.
    - unfold bind at 1. rewrite Hrec. cbn. discriminate. }
  eexists _, _, t. split; [exact Hrun|]. split; [exact Hfs|]. split.
  - intros Hneg. replace (env_send_frame E <? 0) with true in * by lia.
    rewrite Hcalls, Hcb, !Hcount by reflexivity. cbn. repeat split.
  - intros Hpos. specialize (Hlast Hpos).
    replace (env_send_frame E <? 0) with false in * by lia.
    rewrite Hcalls, Hcb, !Hcount, length_map by reflexivity. cbn.
    repeat split; try lia. exact Hlast.
Qed.

Lemma do_encode_drain_calls_witness :
  let s := Sample.session (build := Sample.linux) "h264_amf" AV_PIX_FMT_NV12 64 64
             500000 Sample.nv12_64 in
  exists (r : Z) (s' : FFmpegRamEncoder) (t : Trace),
    do_encode Sample.one_packet (frame_ s) 7 40 s = Some (r, s', t) /\
    count is_receive t = 2%nat /\ count is_callback t = 1%nat /\
    count is_unref t = 1%nat.
Proof.
  intros s.
  destruct (do_encode_drain_calls Sample.one_packet (frame_ s) 7 40 s _ eq_refl)
    as (r & s' & t & Hrun & _ & _ & Hok).
  destruct Hok as (Hrec & Hcb & Hun & _); [cbn; lia|].
  exists r, s', t. split; [exact Hrun|]. split; [exact Hrec|]. split; [exact Hcb | exact Hun].
Defined.

(** ** What one submission changes *)

Ltac trace_norm :=
  repeat first [ rewrite callbacks_app | rewrite frames_sent_app
               | rewrite callbacks_cons | rewrite frames_sent_cons ];
  cbn [is_callback is_send_frame].

Lemma with_data_same (f : AVFrame) : with_data (data f) f = f.
Proof. by destruct f. Qed.

(** [fill_frame] changes the plane pointers of the frame and nothing
    else, and it logs without calling. *)
Lemma fill_frame_frame (f : AVFrame) (data_ptr len : Z) (off : list Z) :
  exists d',
    snd (fst (fill_frame f data_ptr len off)) = with_data d' f /\
    callbacks (snd (fill_frame f data_ptr len off)) = [] /\
    frames_sent (snd (fill_frame f data_ptr len off)) = [] /\
    count is_hw_call (snd (fill_frame f data_ptr len off)) = 0%nat.
Proof.
  unfold fill_frame.
  repeat match goal with
         | |- context [if ?b then _ else _] => destruct b
         end;
    cbn [fst snd]; eexists; (split; [first [reflexivity | symmetry; apply with_data_same]|]);
    repeat split; reflexivity.
Qed.

(** One [encode] on an initialised session, path by path: it returns;
    the session changes in its plane pointers, the content of its packet
    and [first_ms_] only; the packets [pkts] are delivered. *)
Lemma encode_cases (E : EncodeEnv) (data_ptr length obj ms : Z)
    (s : FFmpegRamEncoder) (f : AVFrame) (p : AVPacket) :
  frame_ s = Some f -> pkt_ s = Some p ->
  exists r s' t d' p' pkts,
    encode E data_ptr length obj ms s = Some (r, s', t) /\
    s' = set_pkt_ (Some p')
           (set_first_ms_
              (match pkts with
               | [] => first_ms_ s
               | _ => latch (first_ms_ s) (to_int64 ms)
               end)
              (set_frame_ (Some (with_data d' f)) s)) /\
    callbacks t = map (deliver s obj (to_int64 ms)) pkts /\
    (pkts = [] \/ pkts = delivered (env_receive_packet E)) /\
    (r = 0 <-> pkts <> []) /\
    (frames_sent t = [] -> pkts = []) /\
    (frames_sent t = [] \/
     frames_sent t =
       [avcodec_send_frame
          (if is_none (hw_device_type_ s) then Some (with_data d' f) else hw_frame_ s)] /\
     env_make_writable E = 0 /\
     fill_frame f data_ptr length (offset_ s) = (0, with_data d' f, [])) /\
    (count is_hw_call t <= (if is_none (hw_device_type_ s) then 0 else 1))%nat.
Proof.
  intros Hf Hp. rewrite (encode_unfold _ _ _ _ _ _ f Hf).
  assert (Hsame : forall d', d' = data f -> p = p ->
            s = set_pkt_ (Some p) (set_first_ms_ (first_ms_ s)
                  (set_frame_ (Some (with_data d' f)) s))).
  { intros d' -> _. rewrite with_data_same. destruct s; cbn in *. by subst. }
  destruct (negb (env_make_writable E =? 0)) eqn:Hw.
  { eexists (env_make_writable E), s, _, (data f), p, []. cbn [after].
    split; [reflexivity|]. split; [by apply Hsame|]. cbn.
    apply negb_true_iff, Z.eqb_neq in Hw.
    repeat split; try lia; try congruence; try tauto;
      try (destruct (is_none _); cbn; lia). }
  apply negb_false_iff, Z.eqb_eq in Hw.
  destruct (fill_frame_frame f data_ptr length (offset_ s)) as (d' & Hfr & Hcb & Hfs & Hhw).
  destruct (fill_frame f data_ptr length (offset_ s)) as [[r f'] t] eqn:Hfill.
  cbn [fst snd] in Hfr, Hcb, Hfs, Hhw. subst f'. cbv zeta.
  assert (Hfill0 : r = 0 -> (r, with_data d' f, t) = (0, with_data d' f, [])).
  { intros ->. f_equal. revert Hfill. unfold fill_frame.
    repeat match goal with
           | |- context [if ?b then _ else _] => destruct b
           end; intros [= ? ?]; try discriminate; subst; reflexivity. }
  set (s1 := set_frame_ (Some (with_data d' f)) s).
  assert (Hs1 : s1 = set_pkt_ (Some p) (set_first_ms_ (first_ms_ s) s1)).
  { subst s1. destruct s; cbn in *. by subst. }
  assert (Hp1 : pkt_ s1 = Some p) by exact Hp.
  assert (Hdo : forall fr,
            exists r s' t p' pkts,
              do_encode E fr obj (to_int64 ms) s1 = Some (r, s', t) /\
              s' = set_pkt_ (Some p')
                     (set_first_ms_
                        (match pkts with
                         | [] => first_ms_ s
                         | _ => latch (first_ms_ s) (to_int64 ms)
                         end) s1) /\
              callbacks t = map (deliver s obj (to_int64 ms)) pkts /\
              (pkts = [] \/ pkts = delivered (env_receive_packet E)) /\
              (r = 0 <-> pkts <> []) /\
              frames_sent t = [avcodec_send_frame fr] /\
              count is_hw_call t = 0%nat).
  { intros fr.
    destruct (do_encode_spec E fr obj (to_int64 ms) s1 p Hp1) as (p' & t' & Hrun & Hcb' & Hfs').
    pose proof (do_encode_count is_hw_call E fr obj (to_int64 ms) s1 p _ _ t'
                  ltac:(reflexivity) ltac:(reflexivity) Hp1 Hrun) as Hcnt.
    assert (Hhw' : count is_hw_call t' = 0%nat).
    { rewrite Hcnt. cbn. destruct (env_send_frame E <? 0); reflexivity. }
    destruct (Z.ltb_spec (env_send_frame E) 0) as [Hneg | Hpos].
    - exists (env_send_frame E), s1, t', p, [].
      split; [exact Hrun|]. split; [exact Hs1|]. rewrite Hcb'.
      repeat split; try lia; try congruence; try tauto.
    - eexists _, _, t', p', (delivered (env_receive_packet E)).
      split; [exact Hrun|]. split; [reflexivity|]. split; [exact Hcb'|].
      split; [by right|]. split; [|split; [exact Hfs' | exact Hhw']].
      destruct (delivered (env_receive_packet E)); cbn; split; congruence. }
  destruct (negb (r =? 0)) eqn:Hr.
  { eexists r, s1, _, d', p, []. cbn [after]. split; [reflexivity|].
    split; [exact Hs1|]. trace_norm. count_norm. rewrite Hcb, Hfs, Hhw. cbn.
    apply negb_true_iff, Z.eqb_neq in Hr.
    repeat split; try lia; try congruence; try tauto. }
  apply negb_false_iff, Z.eqb_eq in Hr. specialize (Hfill0 Hr).
  destruct (is_none (hw_device_type_ s)) eqn:Hty; cbn [negb].
  - destruct (Hdo (Some (with_data d' f)))
      as (r' & s' & t' & p' & pkts & Hrun & Hs' & Hcbs & Hpk & Hiff & Hsent & Hhw').
    rewrite Hrun. eexists r', s', _, d', p', pkts. cbn [after].
    split; [reflexivity|]. split; [exact Hs'|].
    trace_norm. count_norm. rewrite Hcb, Hfs, Hsent, Hcbs, Hhw, Hhw'. cbn.
    repeat split; try tauto; try discriminate; try lia;
      try (right; repeat split; assumption).
  - destruct (Z.ltb_spec (env_hwframe_transfer E) 0) as [Hneg | Hpos].
    + eexists (env_hwframe_transfer E), s1, _, d', p, []. cbn [after].
      split; [reflexivity|]. split; [exact Hs1|].
      trace_norm. count_norm. rewrite Hcb, Hfs, Hhw. cbn.
      repeat split; try lia; try congruence; try tauto.
    + destruct (Hdo (hw_frame_ s))
        as (r' & s' & t' & p' & pkts & Hrun & Hs' & Hcbs & Hpk & Hiff & Hsent & Hhw').
      rewrite Hrun. eexists r', s', _, d', p', pkts. cbn [after].
      split; [reflexivity|]. split; [exact Hs'|].
      trace_norm. count_norm. rewrite Hcb, Hfs, Hsent, Hcbs, Hhw, Hhw'. cbn.
      repeat split; try tauto; try discriminate; try lia;
        try (right; repeat split; assumption).
Qed.

Lemma count_null_call_callbacks (t : Trace) :
  count is_null_call (callbacks t) = count is_null_call t.
Proof.
  induction t as [|e t IH]; [reflexivity|].
  rewrite callbacks_cons, count_app, count_cons, IH.
  destruct e; cbn [is_callback is_null_call]; rewrite ?count_cons, ?count_nil;
    cbn [is_null_call]; lia.
Qed.

Lemma count_null_call_deliver (s : FFmpegRamEncoder) (obj ms : Z)
    (pkts : list AVPacket) :
  callback_ s <> 0 -> count is_null_call (map (deliver s obj ms) pkts) = 0%nat.
Proof.
  intros Hcb. induction pkts as [|pkt pkts IH]; [reflexivity|].
  cbn [map]. rewrite count_cons, IH. cbn [deliver is_null_call].
  by replace (callback_ s =? 0) with false by lia.
Qed.

(** One [encode] with a callback that is not NULL, at a timestamp below
    2^63 and with [first_ms_] in that range: the callback is never called
    at address 0, the offsets are the exact difference [ms - first_ms_]
    (the subtraction stays within [int64_t]), and [first_ms_] stays in
    range. *)
Lemma encode_callable (E : EncodeEnv) (data_ptr length obj ms : Z)
    (s : FFmpegRamEncoder) (f : AVFrame) (p : AVPacket) :
  frame_ s = Some f -> pkt_ s = Some p ->
  callback_ s <> 0 ->
  0 <= ms < TIME_MAX -> 0 <= first_ms_ s < TIME_MAX ->
  forall r s' t,
    encode E data_ptr length obj ms s = Some (r, s', t) ->
    count is_null_call t = 0%nat /\
    callback_pts t =
      repeat (ms - (if first_ms_ s =? 0 then ms else first_ms_ s))
        (List.length (callbacks t)) /\
    0 <= first_ms_ s' < TIME_MAX /\ callback_ s' = callback_ s.
Proof.
  intros Hf Hp Hcb Hms Hfirst r s' t Hrun.
  destruct (encode_cases E data_ptr length obj ms s f p Hf Hp)
    as (r0 & s0 & t0 & d' & p' & pkts & Hrun0 & Hs0 & Hcbs & _).
  rewrite Hrun in Hrun0. injection Hrun0 as <- <- <-.
  rewrite to_int64_small in Hs0, Hcbs by exact Hms.
  split; [|split; [|split]].
  - rewrite <- count_null_call_callbacks, Hcbs. by apply count_null_call_deliver.
  - rewrite <- callback_pts_callbacks, Hcbs, length_map. unfold deliver.
    rewrite callback_pts_map, int64_sub_small;
      [reflexivity | exact Hms | by apply latch_range].
  - subst s'. cbn. destruct pkts; [exact Hfirst | by apply latch_range].
  - subst s'. reflexivity.
Qed.

(** X7: on a session that went through [init] and whose callback is not
    NULL, at a timestamp below 2^63 and with [first_ms_] below 2^63 (where
    every such call leaves it), [encode] returns, whatever the engine
    answers: no NULL member is dereferenced, the callback is never called
    at address 0, and [ms - first_ms_] does not leave [int64_t] (the
    offsets handed out are the exact difference).  It returns 0 exactly
    when the callback was invoked at least once; it hands at most one frame
    to the engine, and invokes no callback when it handed none; the
    callback runs either not at all or once per packet the engine
    delivers. *)
Theorem encode_success_iff_callback (E : EncodeEnv) (data_ptr length obj ms : Z)
    (s : FFmpegRamEncoder) (f : AVFrame) (p : AVPacket) :
  frame_ s = Some f -> pkt_ s = Some p ->
  callback_ s <> 0 ->
  0 <= ms < TIME_MAX -> 0 <= first_ms_ s < TIME_MAX ->
  exists (r : Z) (s' : FFmpegRamEncoder) (t : Trace),
    encode E data_ptr length obj ms s = Some (r, s', t) /\
    (r = 0 <-> callbacks t <> []) /\
    (List.length (frames_sent t) <= 1)%nat /\
    (frames_sent t = [] -> callbacks t = []) /\
    (callbacks t = [] \/
     List.length (callbacks t) = List.length (delivered (env_receive_packet E))) /\
    count is_null_call t = 0%nat /\
    callback_pts t =
      repeat (ms - (if first_ms_ s =? 0 then ms else first_ms_ s))
        (List.length (callbacks t)) /\
    0 <= first_ms_ s' < TIME_MAX /\ callback_ s' = callback_ s.
Proof.
  intros Hf Hp Hcall Hms Hfirst.
  destruct (encode_cases E data_ptr length obj ms s f p Hf Hp)
    as (r & s' & t & d' & p' & pkts & Hrun & _ & Hcb & Hpk & Hiff & Hnone & Hsent & _).
  destruct (encode_callable E data_ptr length obj ms s f p Hf Hp Hcall Hms Hfirst
              r s' t Hrun) as (Hnull & Hpts & Hrange & Hsame).
  exists r, s', t. split; [exact Hrun|].
  split; [|split; [|split; [|split]]].
  - rewrite Hcb, Hiff. destruct pkts; cbn; split; congruence.
  - destruct Hsent as [-> | (-> & _)]; cbn; lia.
  - intros Hfs. by rewrite Hcb, (Hnone Hfs).
  - rewrite Hcb. destruct Hpk as [-> | ->]; [by left | right; apply length_map].
  - split; [exact Hnull|]. split; [exact Hpts|]. split; [exact Hrange | exact Hsame].
Qed.

Lemma encode_success_iff_callback_witness :
  let s := Sample.session (build := Sample.linux) "h264_amf" AV_PIX_FMT_NV12 64 64
             500000 Sample.nv12_64 in
  exists (r : Z) (s' : FFmpegRamEncoder) (t : Trace),
    encode Sample.one_packet 4096 6144 7 40 s = Some (r, s', t) /\
    (r = 0 <-> callbacks t <> []) /\ count is_null_call t = 0%nat.
Proof.
  intros s.
  destruct (encode_success_iff_callback Sample.one_packet 4096 6144 7 40 s _ _
              eq_refl eq_refl)
    as (r & s' & t & Hrun & Hiff & _ & _ & _ & Hnull & _).
  - vm_compute. discriminate.
  - unfold TIME_MAX. lia.
  - vm_compute. split; discriminate || reflexivity.
  - exists r, s', t. split; [exact Hrun|]. split; [exact Hiff | exact Hnull].
Defined.

(** X8: what [encode] changes of the session: the plane pointers of the
    working frame, the content of the packet and [first_ms_], nothing
    else.  [first_ms_] changes only on a call that returns 0 while it was
    0, and then to the timestamp of the call.  The session stays
    initialised. *)
Theorem encode_changes_session (E : EncodeEnv) (data_ptr length obj ms : Z)
    (s : FFmpegRamEncoder) (f : AVFrame) (p : AVPacket) :
  frame_ s = Some f -> pkt_ s = Some p ->
  exists (r : Z) (s' : FFmpegRamEncoder) (t : Trace) (d' : list Z) (p' : AVPacket)
         (first : Z),
    encode E data_ptr length obj ms s = Some (r, s', t) /\
    s' = set_pkt_ (Some p') (set_first_ms_ first (set_frame_ (Some (with_data d' f)) s)) /\
    (first = first_ms_ s \/ first_ms_ s = 0 /\ r = 0 /\ first = to_int64 ms) /\
    (r <> 0 -> first = first_ms_ s) /\
    initialised s' = initialised s.
Proof.
  intros Hf Hp.
  destruct (encode_cases E data_ptr length obj ms s f p Hf Hp)
    as (r & s' & t & d' & p' & pkts & Hrun & Hs' & _ & _ & Hiff & _).
  eexists r, s', t, d', p', _. split; [exact Hrun|]. split; [exact Hs'|].
  split; [|split].
  - destruct pkts as [|pkt pkts]; [by left|].
    unfold latch. destruct (Z.eqb_spec (first_ms_ s) 0) as [Hz | Hnz]; [|by left].
    right. repeat split; [exact Hz | by apply Hiff].
  - intros Hr. destruct pkts as [|pkt pkts]; [reflexivity|].
    exfalso. apply Hr, Hiff. discriminate.
  - subst s'. unfold initialised. cbn. rewrite Hf, Hp. reflexivity.
Qed.

Lemma encode_changes_session_witness :
  let s := Sample.session (build := Sample.linux) "h264_amf" AV_PIX_FMT_NV12 64 64
             500000 Sample.nv12_64 in
  exists (r : Z) (s' : FFmpegRamEncoder) (t : Trace),
    encode Sample.one_packet 4096 6144 7 40 s = Some (r, s', t) /\
    c_ s' = c_ s /\ offset_ s' = offset_ s /\ initialised s' = true.
Proof.
  intros s.
  destruct (encode_changes_session Sample.one_packet 4096 6144 7 40 s _ _
              eq_refl eq_refl) as (r & s' & t & d' & p' & first & Hrun & Hs' & _ & _ & Hi).
  exists r, s', t. split; [exact Hrun|]. rewrite Hi, Hs'. repeat split.
Defined.

(** ** The frame handed to the engine *)

Lemma with_data_inj (d d' : list Z) (f : AVFrame) :
  with_data d f = with_data d' f -> d = d'.
Proof. unfold with_data. congruence. Qed.





Lemma after_some {A} (t t' : Trace) (o : option (A * FFmpegRamEncoder * Trace))
    (a : A) (s : FFmpegRamEncoder) :
  after t o = Some (a, s, t') -> exists t2, o = Some (a, s, t2) /\ t' = t ++ t2.
Proof.
  destruct o as [[[a0 s0] t0]|]; cbn; [|discriminate].
  intros [= <- <- <-]. eauto.
Qed.

(** [do_encode] starts by handing the frame over, and hands nothing over
    afterwards. *)
Lemma do_encode_head (E : EncodeEnv) (frame : option AVFrame) (obj ms : Z)
    (s : FFmpegRamEncoder) (pk : AVPacket) :
  pkt_ s = Some pk ->
  exists r s' t2,
    do_encode E frame obj ms s = Some (r, s', avcodec_send_frame frame :: t2) /\
    frames_sent t2 = [] /\ count is_hw_call t2 = 0%nat.
Proof.
  intros Hp.
  destruct (do_encode_spec E frame obj ms s pk Hp) as (p' & t & Hrun & _ & Hfs).
  pose proof (do_encode_count is_hw_call E frame obj ms s pk _ _ t
                ltac:(reflexivity) ltac:(reflexivity) Hp Hrun) as Hcnt.
  assert (Hhead : exists t2, t = avcodec_send_frame frame :: t2).
  { revert Hrun. unfold do_encode. run. intros Hrun.
    apply after_some in Hrun as (t2 & _ & ->). by exists t2. }
  destruct Hhead as (t2 & ->). eexists _, _, t2. split; [exact Hrun|].
  rewrite frames_sent_cons in Hfs. cbn in Hfs. injection Hfs as Hfs.
  split; [exact Hfs|]. rewrite count_cons in Hcnt. cbn in Hcnt.
  destruct (env_send_frame E <? 0); cbn in Hcnt; lia.
Qed.

(** X10: on a session with a hardware back-end, the working frame is
    never handed to the engine: if [encode] hands a frame over, it is the
    hardware frame of the session, right after the one
    [av_hwframe_transfer_data] of the call, which succeeded.  If that
    transfer fails its code is returned and nothing is handed over.  The
    session keeps its hardware frame. *)
Theorem encode_hardware_frame (E : EncodeEnv) (data_ptr length obj ms : Z)
    (s : FFmpegRamEncoder) (f : AVFrame) (p : AVPacket) :
  frame_ s = Some f -> pkt_ s = Some p ->
  hw_device_type_ s <> AV_HWDEVICE_TYPE_NONE ->
  exists (r : Z) (s' : FFmpegRamEncoder) (t : Trace),
    encode E data_ptr length obj ms s = Some (r, s', t) /\
    hw_frame_ s' = hw_frame_ s /\
    (frames_sent t = [] \/
     0 <= env_hwframe_transfer E /\
     exists t1 t2,
       t = t1 ++ av_hwframe_transfer_data :: avcodec_send_frame (hw_frame_ s) :: t2 /\
       frames_sent t1 = [] /\ frames_sent t2 = [] /\
       count is_hw_call t1 = 0%nat /\ count is_hw_call t2 = 0%nat) /\
    (env_make_writable E = 0 ->
     fst (fst (fill_frame f data_ptr length (offset_ s))) = 0 ->
     env_hwframe_transfer E < 0 ->
     r = env_hwframe_transfer E /\ frames_sent t = [] /\ count is_hw_call t = 1%nat).
Proof.
  intros Hf Hp Hty. rewrite (encode_unfold _ _ _ _ _ _ f Hf).
  assert (Hnone : is_none (hw_device_type_ s) = false)
    by (destruct (hw_device_type_ s); [contradiction | reflexivity ..]).
  rewrite Hnone. cbn [negb].
  destruct (Z.eqb_spec (env_make_writable E) 0) as [Hw | Hw]; cbn [negb].
  2:{ eexists _, s, _. cbn [after]. split; [reflexivity|]. split; [reflexivity|].
      split; [by left|]. intros ?. contradiction. }
  destruct (fill_frame_frame f data_ptr length (offset_ s)) as (d' & Hfr & _ & Hfs & Hhw).
  destruct (fill_frame f data_ptr length (offset_ s)) as [[r f'] t] eqn:Hfill.
  cbn [fst snd] in *. cbv zeta.
  destruct (Z.eqb_spec r 0) as [Hr | Hr]; cbn [negb].
  2:{ eexists _, _, _. cbn [after]. split; [reflexivity|]. split; [reflexivity|].
      split; [left|intros _ ?; contradiction].
      trace_norm. rewrite Hfs. reflexivity. }
  destruct (Z.ltb_spec (env_hwframe_transfer E) 0) as [Hneg | Hpos].
  - eexists _, _, _. cbn [after]. split; [reflexivity|]. split; [reflexivity|].
    trace_norm. count_norm. rewrite Hfs, Hhw. cbn. split; [by left|].
    intros _ _ _. repeat split.
  - destruct (do_encode_head E (hw_frame_ s) obj (to_int64 ms)
                (set_frame_ (Some f') s) p Hp) as (r' & s' & t2 & Hrun & Hfs2 & Hhw2).
    assert (Hs' : hw_frame_ s' = hw_frame_ s).
    { destruct (do_encode_spec E (hw_frame_ s) obj (to_int64 ms)
                  (set_frame_ (Some f') s) p Hp) as (p' & t' & Hrun' & _).
      rewrite Hrun in Hrun'. injection Hrun' as _ Hs _. rewrite Hs.
      destruct (env_send_frame E <? 0); reflexivity. }
    rewrite Hrun. eexists _, _, _. cbn [after]. split; [reflexivity|]. split.
    + exact Hs'.
    + split; [|intros _ _ ?; lia]. right. split; [exact Hpos|].
      exists (av_frame_make_writable :: t), t2. split; [|split; [|split; [|split]]].
      * reflexivity.
      * trace_norm. by rewrite Hfs.
      * exact Hfs2.
      * count_norm. rewrite Hhw. reflexivity.
      * exact Hhw2.
Qed.

Lemma encode_hardware_frame_witness :
  let s := Sample.session (build := Sample.linux) "h264_vaapi" AV_PIX_FMT_NV12 64 64
             500000 Sample.nv12_64 in
  exists (r : Z) (s' : FFmpegRamEncoder) (t : Trace),
    encode Sample.one_packet 4096 6144 7 40 s = Some (r, s', t) /\
    hw_frame_ s' = hw_frame_ s.
Proof.
  intros s.
  destruct (encode_hardware_frame Sample.one_packet 4096 6144 7 40 s _ _
              eq_refl eq_refl) as (r & s' & t & Hrun & Hhw & _).
  - discriminate.
  - exists r, s', t. split; [exact Hrun | exact Hhw].
Defined.

(** ** The arguments of the callback *)

Lemma wrap_range (bits z : Z) :
  0 < bits -> - 2 ^ (bits - 1) <= wrap bits z < 2 ^ (bits - 1).
Proof.
  intros Hb. unfold wrap.
  assert (Hp : 2 ^ bits = 2 * 2 ^ (bits - 1)).
  { rewrite <- Z.pow_succ_r by lia. f_equal. lia. }
  assert (0 < 2 ^ (bits - 1)) by (apply Z.pow_pos_nonneg; lia).
  pose proof (Z.mod_pos_bound (z + 2 ^ (bits - 1)) (2 ^ bits) ltac:(lia)). lia.
Qed.

Lemma key_flag (flags : Z) : Z.land flags AV_PKT_FLAG_KEY = flags mod 2.
Proof. change AV_PKT_FLAG_KEY with (Z.ones 1). by rewrite Z.land_ones. Qed.

(** X11: every callback invocation of one [encode] carries the callback
    address and the [obj] of the call, the data pointer and size of a
    packet the engine delivered in that call, in the engine's order (and
    there is such an invocation exactly when 0 is returned), the key flag reduced to 0
    or 1 (the lowest bit of the packet flags), and one presentation offset
    for all packets of the call: the timestamp minus [first_ms_], an
    [int64_t]; it is 0 when [first_ms_] was still 0. *)
Theorem encode_callback_arguments (E : EncodeEnv) (data_ptr length obj ms : Z)
    (s : FFmpegRamEncoder) (f : AVFrame) (p : AVPacket) :
  frame_ s = Some f -> pkt_ s = Some p ->
  exists (r : Z) (s' : FFmpegRamEncoder) (t : Trace) (pkts : list AVPacket) (pts : Z),
    encode E data_ptr length obj ms s = Some (r, s', t) /\
    (pkts = [] \/ pkts = delivered (env_receive_packet E)) /\
    (r = 0 <-> pkts <> []) /\
    callbacks t =
      map (fun pkt => callback (callback_ s) (pkt_data pkt) (pkt_size pkt) pts
                        (pkt_flags pkt mod 2) obj) pkts /\
    pts = int64_sub (to_int64 ms)
            (if first_ms_ s =? 0 then to_int64 ms else first_ms_ s) /\
    - 2 ^ 63 <= pts < 2 ^ 63 /\
    (first_ms_ s = 0 -> pts = 0).
Proof.
  intros Hf Hp.
  destruct (encode_cases E data_ptr length obj ms s f p Hf Hp)
    as (r & s' & t & d' & p' & pkts & Hrun & _ & Hcb & Hpk & Hiff & _).
  eexists r, s', t, pkts, _. split; [exact Hrun|]. split; [exact Hpk|].
  split; [exact Hiff|]. split; [|split; [reflexivity|split]].
  - rewrite Hcb. apply map_ext. intros pkt. unfold deliver, latch.
    by rewrite key_flag.
  - apply (wrap_range 64). lia.
  - intros ->. cbn [Z.eqb]. unfold int64_sub. by rewrite Z.sub_diag.
Qed.

Lemma encode_callback_arguments_witness :
  let s := Sample.session (build := Sample.linux) "h264_amf" AV_PIX_FMT_NV12 64 64
             500000 Sample.nv12_64 in
  exists (r : Z) (s' : FFmpegRamEncoder) (t : Trace) (pkts : list AVPacket),
    encode Sample.one_packet 4096 6144 7 40 s = Some (r, s', t) /\
    (pkts = [] \/ pkts = [Sample.key_packet]) /\
    callbacks t = map (fun pkt => callback 1 (pkt_data pkt) (pkt_size pkt) 0
                                    (pkt_flags pkt mod 2) 7) pkts.
Proof.
  intros s.
  destruct (encode_callback_arguments Sample.one_packet 4096 6144 7 40 s _ _
              eq_refl eq_refl) as (r & s' & t & pkts & pts & Hrun & Hpk & _ & Hcb & _ & _ & Hz).
  exists r, s', t, pkts. split; [exact Hrun|]. split; [exact Hpk|].
  rewrite Hcb, (Hz eq_refl). reflexivity.
Defined.

(** ** Offsets over a session *)

Lemma offsets_lower (F m : Z) (l : list (Z * nat)) :
  Forall (fun sub => m <= fst sub) l ->
  Forall (fun v => m - F <= v)
    (flat_map (fun sub => repeat (fst sub - F) (snd sub)) l).
Proof.
  induction l as [|[ms n] l IH]; intros Hall; [constructor|].
  inversion Hall as [|? ? Hms Hall']; subst. cbn [fst] in Hms.
  cbn [flat_map fst snd]. apply Forall_app. split; [|by apply IH].
  apply List.Forall_forall. intros v Hv. apply repeat_spec in Hv. lia.
Qed.

Lemma sorted_repeat_app (x : Z) (n : nat) (rest : list Z) :
  StronglySorted Z.le rest -> Forall (Z.le x) rest ->
  StronglySorted Z.le (repeat x n ++ rest).
Proof.
  intros Hs Hall. induction n as [|n IH]; [exact Hs|].
  cbn. constructor; [exact IH|]. apply Forall_app. split; [|exact Hall].
  apply List.Forall_forall. intros v Hv. apply repeat_spec in Hv. lia.
Qed.

Lemma sorted_fst (ms : Z) (n : nat) (l : list (Z * nat)) :
  StronglySorted Z.le (map fst ((ms, n) :: l)) ->
  StronglySorted Z.le (map fst l) /\ Forall (fun sub => ms <= fst sub) l.
Proof.
  cbn. intros Hs. apply StronglySorted_inv in Hs as [Hs Hall].
  split; [exact Hs|]. exact (proj1 (List.Forall_map _ _ _) Hall).
Qed.

Lemma offsets_sorted_from (F : Z) (l : list (Z * nat)) :
  StronglySorted Z.le (map fst l) ->
  StronglySorted Z.le (flat_map (fun sub => repeat (fst sub - F) (snd sub)) l).
Proof.
  induction l as [|[ms n] l IH]; intros Hs; [constructor|].
  apply sorted_fst in Hs as [Hs Hall]. cbn [flat_map fst snd].
  apply sorted_repeat_app; [by apply IH|].
  by apply (offsets_lower F ms).
Qed.

(** The offsets of a session with non-decreasing timestamps, counted from
    the first timestamp that delivers: none is negative, they never
    decrease, and the first is 0. *)
Lemma offsets_monotone (l : list (Z * nat)) :
  StronglySorted Z.le (map fst l) ->
  let out := flat_map (fun sub => repeat (fst sub - first_stamp l) (snd sub)) l in
  Forall (fun v => 0 <= v) out /\ StronglySorted Z.le out /\
  (out = [] \/ exists rest, out = 0 :: rest).
Proof.
  induction l as [|[ms n] l IH]; intros Hs; cbv zeta.
  - cbn. repeat split; [constructor | constructor | by left].
  - apply sorted_fst in Hs as [Hs Hall]. cbn [flat_map first_stamp fst snd].
    destruct n as [|n].
    + cbn [repeat app]. by apply IH.
    + pose proof (offsets_lower ms ms l Hall) as Hlow.
      rewrite Z.sub_diag in *. split; [|split].
      * apply Forall_app. split; [|exact Hlow].
        apply List.Forall_forall. intros v Hv. apply repeat_spec in Hv. lia.
      * apply sorted_repeat_app; [by apply offsets_sorted_from | exact Hlow].
      * right. cbn. eauto.
Qed.

Lemma map_fst_combine {A B} (a : list A) (b : list B) :
  List.length b = List.length a -> map fst (combine a b) = a.
Proof.
  revert b. induction a as [|x a IH]; intros [|y b]; cbn; try discriminate; [reflexivity|].
  intros [= Hlen]. by rewrite IH.
Qed.

(** X12: a session that starts with [first_ms_] 0 and is fed frames at
    positive timestamps that never decrease hands out presentation offsets
    that are never negative and never decrease, the first of them 0,
    whichever submissions deliver packets and however many. *)
Theorem session_offsets_monotone (data_ptr length obj : Z)
    (subs : list (EncodeEnv * Z)) (s : FFmpegRamEncoder) (f : AVFrame)
    (p : AVPacket) :
  frame_ s = Some f -> pkt_ s = Some p -> first_ms_ s = 0 ->
  Forall (fun sub => 0 < snd sub < TIME_MAX) subs ->
  StronglySorted Z.le (map snd subs) ->
  exists (rs : list Z) (s' : FFmpegRamEncoder) (t : Trace),
    submit_all subs data_ptr length obj s = Some (rs, s', t) /\
    Forall (fun pts => 0 <= pts) (callback_pts t) /\
    StronglySorted Z.le (callback_pts t) /\
    (callback_pts t = [] \/ exists rest, callback_pts t = 0 :: rest).
Proof.
  intros Hf Hp Hfirst Hall Hsorted.
  destruct (session_offsets_from_first_stamp data_ptr length obj subs s f p
              Hf Hp Hfirst Hall) as (rs & s' & t & ns & Hrun & Hlen & Hpts).
  exists rs, s', t. split; [exact Hrun|]. cbv zeta in Hpts. rewrite Hpts.
  apply offsets_monotone. rewrite map_fst_combine; [exact Hsorted|].
  by rewrite length_map.
Qed.

Lemma session_offsets_monotone_witness :
  let s := Sample.session (build := Sample.linux) "h264_amf" AV_PIX_FMT_NV12 64 64
             500000 Sample.nv12_64 in
  exists (rs : list Z) (s' : FFmpegRamEncoder) (t : Trace),
    submit_all [(Sample.not_ready, 5); (Sample.one_packet, 40); (Sample.one_packet, 73)]
      4096 6144 7 s = Some (rs, s', t) /\
    StronglySorted Z.le (callback_pts t).
Proof.
  intros s.
  destruct (session_offsets_monotone 4096 6144 7
              [(Sample.not_ready, 5); (Sample.one_packet, 40); (Sample.one_packet, 73)]
              s _ _ eq_refl eq_refl eq_refl)
    as (rs & s' & t & Hrun & _ & Hs & _).
  - repeat constructor; cbn; unfold TIME_MAX; lia.
  - cbn. repeat constructor; lia.
  - exists rs, s', t. split; [exact Hrun | exact Hs].
Defined.

(** ** What [init] leaves behind *)

(** The layout query makes no hardware call, and a query that fails
    leaves the offset and length outputs as they were. *)
Lemma layout_call_facts (E : LayoutEnv) (pix_fmt width height align : Z)
    (out out' : LayoutOut) (r : Z) (t : Trace) :
  ffmpeg_ram_get_linesize_offset_length E pix_fmt width height align out =
    (r, out', t) ->
  count is_hw_call t = 0%nat /\
  (r <> 0 -> out_offset out' = out_offset out /\ out_length out' = out_length out).
Proof.
  unfold ffmpeg_ram_get_linesize_offset_length.
  destruct (env_frame_alloc E); cbn [negb].
  2:{ intros [= <- <- <-]. auto. }
  destruct (env_get_buffer E) as [r0 ls].
  destruct (r0 <? 0).
  { intros [= <- <- <-]. auto. }
  pose proof (calculate_trace pix_fmt height ls zeros 0 is_hw_call ltac:(reflexivity))
    as Hcalc.
  destruct (calculate_offset_length pix_fmt height ls zeros 0)
    as [[[r' o'] len'] t'].
  cbn [snd] in Hcalc.
  destruct (match out_offset out, out_length out with
            | None, None => false | _, _ => true end); cbn [andb].
  - destruct (r' <? 0).
    + intros [= <- <- <-]. cbn [out_offset out_length]. count_norm. rewrite Hcalc. auto.
    + intros [= <- <- <-]. count_norm. rewrite Hcalc. split; [reflexivity|].
      intros Hr. contradiction.
  - intros [= <- <- <-]. split; [reflexivity|]. intros Hr. contradiction.
Qed.

Section InitState.
Context {build : Build}.

Lemma init_state_spec (E : InitEnv) (linesize offset : list Z) (length : option Z)
    (s : FFmpegRamEncoder) :
  holds (fun res s' t =>
           (fst res = false -> snd res = (linesize, offset, length)) /\
           (hw_device_type_ s = AV_HWDEVICE_TYPE_NONE ->
              count is_hw_call t = 0%nat /\
              hw_frame_ s' = hw_frame_ s /\ hw_device_ctx_ s' = hw_device_ctx_ s) /\
           (fst res = true ->
              exists c0 c lout,
                env_alloc_context3 E = Some c0 /\
                lout = snd (fst (ffmpeg_ram_get_linesize_offset_length (env_layout E)
                                   (pixfmt_ s) (width_ s) (height_ s) (align_ s)
                                   {| out_linesize := None;
                                      out_offset := Some (offset_ s);
                                      out_length := length |})) /\
                fst (fst (ffmpeg_ram_get_linesize_offset_length (env_layout E)
                            (pixfmt_ s) (width_ s) (height_ s) (align_ s)
                            {| out_linesize := None;
                               out_offset := Some (offset_ s);
                               out_length := length |})) = 0 /\
                snd res = (copy_all (snd (env_init_get_buffer E)) linesize,
                           copy_all (offset_ s') offset, out_length lout) /\
                offset_ s' = default (offset_ s) (out_offset lout) /\
                c_ s' = Some c /\
                frame_ s' =
                  Some {| format := pixfmt_ s; width := width_ s; height := height_ s;
                          linesize := snd (env_init_get_buffer E);
                          data := env_init_frame_data E; hw_frames_ctx := None |} /\
                pkt_ s' = Some {| pkt_data := 0; pkt_size := 0; pkt_flags := 0 |} /\
                first_ms_ s' = 0 /\
                name_ s' = name_ s /\ callback_ s' = callback_ s /\
                hw_device_type_ s' = hw_device_type_ s /\
                (hw_device_type_ s <> AV_HWDEVICE_TYPE_NONE ->
                   hw_device_ctx_ s' = true /\
                   exists hf, hw_frame_ s' = Some hf /\
                              data hf = env_hw_frame_data E /\
                              hw_frames_ctx hf = Some (frame_pool s))))
        (init E linesize offset length s).
Proof.
  unfold init, init_hw, set_hwframe_ctx, update_c_, log_false, log_fail.
  explore.
  all: cbn [holds after ret app].
  all: try match goal with
         | H : ffmpeg_ram_get_linesize_offset_length _ _ _ _ _ _ = _ |- _ =>
             destruct (layout_call_facts _ _ _ _ _ _ _ _ _ H) as [Hcount Hkeep]
         end.
  all: split; [|split].
  all: cbn [fst snd].
  all: try (intros Hres; first [discriminate Hres | reflexivity]).
  all: try (intros Hty; try rewrite Hty in *;
            first [ cbn in *; discriminate
                  | repeat split; count_norm; try rewrite Hcount; reflexivity ]).
  all: try (intros _;
            match goal with
            | H : negb (?r =? 0) = true |- _ => apply negb_true_iff, Z.eqb_neq in H;
                destruct (Hkeep H) as [_ Hlen]; cbn in Hlen; rewrite Hlen; reflexivity
            end).
  all: intros _; eexists _, _, _.
  all: split; [reflexivity|].
  all: split; [reflexivity|].
  all: split; [match goal with
               | H : negb (?r =? 0) = false |- _ =>
                   apply negb_false_iff, Z.eqb_eq in H; exact H
               end|].
  all: project.
  all: repeat (split; [reflexivity|]).
  all: intros Hne.
  all: try (exfalso; apply Hne;
            match goal with
            | H : negb (is_none (hw_device_type_ ?x)) = false |- _ =>
                destruct (hw_device_type_ x); [reflexivity | discriminate H ..]
            end).
  all: split; [apply Z.leb_le; lia|].
  all: eexists; split; [reflexivity|]; split; [reflexivity|]; cbn [hw_frames_ctx].
  all: match goal with
       | H : (if env_hw_frame_has_ctx ?e then _ else _) = Some _ |- _ =>
           destruct (env_hw_frame_has_ctx e); [injection H as <-; reflexivity | discriminate H]
       end.
Qed.

End InitState.

(** ** The context the engine is opened on *)

Lemma flag_bit (n i : Z) : 0 <= n -> Z.testbit (Z.shiftl 1 n) i = (n =? i).
Proof. intros Hn. rewrite Z.shiftl_1_l. by apply Z.pow2_bits_eqb. Qed.

(** The two flags [init] sets, bit by bit. *)
Lemma configure_flags (flags i : Z) :
  Z.testbit (Z.lor (Z.lor flags AV_CODEC_FLAG2_LOCAL_HEADER) AV_CODEC_FLAG_LOW_DELAY) i =
  Z.testbit flags i || (3 =? i) || (19 =? i).
Proof.
  unfold AV_CODEC_FLAG2_LOCAL_HEADER, AV_CODEC_FLAG_LOW_DELAY.
  by rewrite !Z.lor_spec, !flag_bit by lia.
Qed.

(** X13: whenever [init] gets as far as [avcodec_open2], with or without
    a hardware back-end, the context it opens the engine on is the one
    [avcodec_alloc_context3] returned with: no B-frames; bits 3 and 19 of
    [flags] set and every other bit as the engine left it; the frame rate
    the reciprocal of the time base; the pixel format of the hardware
    back-end if there is one and of the caller otherwise; [rc_max_rate]
    set to the bitrate only for a "qsv" codec with a bitrate of at least
    1000; the size, GOP and thread count of the session, with slice
    threading. *)
Theorem open_context_settings {build : Build} (E : InitEnv)
    (linesize offset : list Z) (length : option Z) (s : FFmpegRamEncoder)
    (res : bool * (list Z * list Z * option Z)) (s' : FFmpegRamEncoder)
    (t pre : Trace) (c : AVCodecContext) :
  init E linesize offset length s = Some (res, s', t) ->
  before_open2 t = Some (pre, c) ->
  exists c0,
    env_alloc_context3 E = Some c0 /\
    c_has_b_frames c = 0 /\ c_max_b_frames c = 0 /\
    Z.testbit (c_flags c) 3 = true /\ Z.testbit (c_flags c) 19 = true /\
    (forall i, i <> 3 -> i <> 19 -> Z.testbit (c_flags c) i = Z.testbit (c_flags c0) i) /\
    c_time_base c = (time_base_num_ s, time_base_den_ s) /\
    c_framerate c = (snd (c_time_base c), fst (c_time_base c)) /\
    c_pix_fmt c = (if hw_pixfmt_ s =? AV_PIX_FMT_NONE then pixfmt_ s else hw_pixfmt_ s) /\
    c_sw_pix_fmt c = pixfmt_ s /\
    c_rc_max_rate c =
      (if (1000 <=? bit_rate_ s) && contains (name_ s) "qsv" then bit_rate_ s
       else c_rc_max_rate c0) /\
    c_width c = width_ s /\ c_height c = height_ s /\ c_gop_size c = gop_ s /\
    c_thread_count c = thread_count_ s /\ c_thread_type c = FF_THREAD_SLICE.
Proof.
  intros Hinit Hpre. pose proof (init_spec E linesize offset length s) as Hspec.
  rewrite Hinit in Hspec. cbn [holds] in Hspec. destruct Hspec as [_ Hopen].
  destruct (Hopen pre c Hpre) as (c0 & Hc0 & Hsw & Hhw).
  exists c0. split; [exact Hc0|].
  assert (Hc : c = configure s c0 \/
               c = configure s (with_hw_frames_ctx (Some (frame_pool s)) c0)).
  { destruct (hw_device_type_ s) eqn:Hty.
    - left. by apply Hsw.
    - right. by apply Hhw.
    - right. by apply Hhw. }
  assert (Hflags : forall i, Z.testbit (c_flags c) i =
                             Z.testbit (c_flags c0) i || (3 =? i) || (19 =? i)).
  { intros i. destruct Hc as [-> | ->]; apply configure_flags. }
  assert (Hpix : forall x y : Z, (if negb (x =? AV_PIX_FMT_NONE) then x else y) =
                                 (if x =? AV_PIX_FMT_NONE then y else x)).
  { intros x y. destruct (x =? AV_PIX_FMT_NONE); reflexivity. }
  split; [destruct Hc as [-> | ->]; reflexivity|].
  split; [destruct Hc as [-> | ->]; reflexivity|].
  split; [rewrite Hflags; apply orb_true_iff; left; apply orb_true_r|].
  split; [rewrite Hflags; apply orb_true_r|].
  split.
  { intros i H3 H19. rewrite Hflags.
    replace (3 =? i) with false by lia. replace (19 =? i) with false by lia.
    by rewrite !orb_false_r. }
  destruct Hc as [-> | ->]; cbn; rewrite Hpix; repeat split.
Qed.

Lemma open_context_settings_witness :
  exists (pre : Trace) (c : AVCodecContext),
    option_map before_open2
      (trace_of (init (build := Sample.linux) (Sample.engine_ok Sample.nv12_64)
                   zeros zeros (Some 0)
                   (new_FFmpegRamEncoder (build := Sample.linux) "h264_qsv" 64 64
                      AV_PIX_FMT_NV12 1 500000 1 30 9999 1 0 1 0 1))) =
      Some (Some (pre, c)) /\
    Z.testbit (c_flags c) 19 = true /\ c_rc_max_rate c = 500000 /\
    c_framerate c = (30, 1).
Proof.
  set (s := new_FFmpegRamEncoder (build := Sample.linux) "h264_qsv" 64 64
              AV_PIX_FMT_NV12 1 500000 1 30 9999 1 0 1 0 1).
  destruct (init (build := Sample.linux) (Sample.engine_ok Sample.nv12_64) zeros zeros
              (Some 0) s) as [[[res s'] t]|] eqn:Hinit;
    [|vm_compute in Hinit; discriminate Hinit].
  destruct (before_open2 t) as [[pre c]|] eqn:Hpre.
  2:{ exfalso. vm_compute in Hinit. injection Hinit as _ _ <-.
      vm_compute in Hpre. discriminate Hpre. }
  destruct (open_context_settings (build := Sample.linux) _ _ _ _ _ _ _ _ _ _ Hinit Hpre)
    as (c0 & Hc0 & _ & _ & _ & Hbit & _ & Htb & Hfr & _ & _ & Hrc & _).
  exists pre, c. cbn [trace_of option_map]. split; [by rewrite Hpre|].
  split; [exact Hbit|]. rewrite Hrc, Hfr, Htb. split; reflexivity.
Defined.

(** ** The hardware device *)

Lemma devices_created_app (t1 t2 : Trace) :
  devices_created (t1 ++ t2) = devices_created t1 ++ devices_created t2.
Proof.
  induction t1 as [|e t1 IH]; [reflexivity|].
  destruct e; cbn; try exact IH. by rewrite IH.
Qed.

Lemma devices_created_none (t : Trace) :
  count is_hw_call t = 0%nat -> devices_created t = [].
Proof.
  induction t as [|e t IH]; [reflexivity|].
  rewrite count_cons. destruct e; cbn; try exact IH; discriminate.
Qed.

(** X14: [init] opens at most one hardware device, and none for a
    session without hardware back-end; when it succeeds on a session with
    a hardware back-end it has opened exactly one, of the device type the
    constructor chose.  The device is the default one (a NULL name),
    except on a Windows build for an "nvenc" codec when
    [GetFirstAdapterIndex] finds an adapter: then it is that adapter. *)
Theorem hw_device_selection {build : Build} (E : InitEnv) (linesize offset : list Z)
    (length : option Z) (s : FFmpegRamEncoder) :
  let device :=
    if WIN32 && contains (name_ s) "nvenc" && (0 <=? env_adapter_index E)
    then Some (env_adapter_index E) else None in
  exists res s' t,
    init E linesize offset length s = Some (res, s', t) /\
    (hw_device_type_ s = AV_HWDEVICE_TYPE_NONE -> devices_created t = []) /\
    (devices_created t = [] \/ devices_created t = [(hw_device_type_ s, device)]) /\
    (fst res = true -> hw_device_type_ s <> AV_HWDEVICE_TYPE_NONE ->
     devices_created t = [(hw_device_type_ s, device)]).
Proof.
  cbv zeta. apply holds_returns.
  unfold init, init_hw, set_hwframe_ctx, update_c_, log_false, log_fail.
  explore.
  all: cbn [holds after ret app].
  all: try match goal with
         | H : ffmpeg_ram_get_linesize_offset_length _ _ _ _ _ _ = _ |- _ =>
             destruct (layout_call_facts _ _ _ _ _ _ _ _ _ H) as [Hcount _];
             apply devices_created_none in Hcount
         end.
  all: cbn [devices_created app fst].
  all: rewrite ?devices_created_app; try rewrite Hcount.
  all: cbn [devices_created app].
  all: cbn [andb].
  all: split; [|split].
  all: try (intros Hty; first [ reflexivity
                              | rewrite Hty in *; cbn in *; discriminate ]).
  all: try (left; reflexivity).
  all: try (right; reflexivity).
  all: try (intros Hres; discriminate Hres).
  all: intros _ Hne.
  all: try reflexivity.
  all: exfalso; apply Hne;
       match goal with
       | H : negb (is_none (hw_device_type_ ?x)) = false |- _ =>
           destruct (hw_device_type_ x); [reflexivity | discriminate H ..]
       end.
Qed.

(** ** Creating a session *)

(** ** Requests on a live session *)

Lemma initialised_members (s : FFmpegRamEncoder) :
  initialised s = true ->
  exists c f p, c_ s = Some c /\ frame_ s = Some f /\ pkt_ s = Some p.
Proof.
  unfold initialised. destruct (c_ s), (frame_ s), (pkt_ s); try discriminate.
  intros _. eauto 10.
Qed.

(** A session on which the requests of a caller are defined: it is
    initialised, its callback is not NULL and [first_ms_] is below 2^63. *)
Lemma set_bitrate_live (bitrate : Z) (s : FFmpegRamEncoder) :
  initialised s = true ->
  exists r s' t,
    set_bitrate bitrate s = Some (r, s', t) /\
    initialised s' = true /\ releases s' = releases s /\
    callback_ s' = callback_ s /\ first_ms_ s' = first_ms_ s /\
    count is_null_call t = 0%nat.
Proof.
  intros Hi. destruct (initialised_members s Hi) as (c & f & p & Hc & Hf & Hp).
  unfold set_bitrate, update_c_. run.
  destruct (contains (name_ s) "nvenc" || contains (name_ s) "amf").
  - run. rewrite (run_deref _ _ _ c Hc). run. eexists _, _, _.
    split; [reflexivity|]. unfold initialised, releases. cbn. rewrite Hc, Hf, Hp. auto.
  - run. eexists _, _, _. split; [reflexivity|]. cbn. auto.
Qed.

(** [encode] on such a session returns and leaves it such a session,
    with the same members set, and never calls at address 0. *)
Lemma encode_live (E : EncodeEnv) (data_ptr length obj ms : Z) (s : FFmpegRamEncoder) :
  initialised s = true ->
  callback_ s <> 0 -> 0 <= ms < TIME_MAX -> 0 <= first_ms_ s < TIME_MAX ->
  exists r s' t,
    encode E data_ptr length obj ms s = Some (r, s', t) /\
    initialised s' = true /\ releases s' = releases s /\
    callback_ s' = callback_ s /\ 0 <= first_ms_ s' < TIME_MAX /\
    count is_null_call t = 0%nat.
Proof.
  intros Hi Hcall Hms Hfirst.
  destruct (initialised_members s Hi) as (c & f & p & Hc & Hf & Hp).
  destruct (encode_cases E data_ptr length obj ms s f p Hf Hp)
    as (r & s' & t & d' & p' & pkts & Hrun & Hs' & _).
  destruct (encode_callable E data_ptr length obj ms s f p Hf Hp Hcall Hms Hfirst
              r s' t Hrun) as (Hnull & _ & Hrange & Hsame).
  exists r, s', t. split; [exact Hrun|].
  split; [|split; [|split; [exact Hsame | split; [exact Hrange | exact Hnull]]]].
  - subst s'. unfold initialised. cbn. by rewrite Hc.
  - subst s'. unfold releases. cbn. by rewrite Hf, Hp.
Qed.

(** Any sequence of requests with timestamps below 2^63 on the handle of
    such a session returns; the session stays at its address, with the
    same members set, and no other session is touched; the callback is
    never called at address 0. *)
Lemma requests_live (reqs : list Request) :
  forall (h : Heap) (a : positive) (s : FFmpegRamEncoder),
    h !! a = Some s -> initialised s = true ->
    callback_ s <> 0 -> 0 <= first_ms_ s < TIME_MAX ->
    Forall timely reqs ->
    exists rs s' t,
      requests h (Addr a) reqs = Returns rs (<[a := s']> h) t /\
      List.length rs = List.length reqs /\
      initialised s' = true /\ releases s' = releases s /\
      callback_ s' = callback_ s /\ 0 <= first_ms_ s' < TIME_MAX /\
      count is_null_call t = 0%nat.
Proof.
  induction reqs as [|req reqs IH]; intros h a s Hs Hi Hcall Hfirst Hall.
  - exists [], s, []. cbn. rewrite insert_id by exact Hs. auto 10.
  - inversion Hall as [|? ? Hreq Hall']; subst.
    assert (Hone : exists r s1 t1,
               match req with
               | Encode E data_ptr length obj ms =>
                   ffmpeg_ram_encode h E (Addr a) data_ptr length obj ms
               | SetBitrate bitrate => ffmpeg_ram_set_bitrate h (Addr a) bitrate
               end = Returns r (<[a := s1]> h) t1 /\
               initialised s1 = true /\ releases s1 = releases s /\
               callback_ s1 = callback_ s /\ 0 <= first_ms_ s1 < TIME_MAX /\
               count is_null_call t1 = 0%nat).
    { destruct req as [E data_ptr length obj ms | bitrate].
      - destruct (encode_live E data_ptr length obj ms s Hi Hcall Hreq Hfirst)
          as (r & s1 & t1 & Hrun & Hi1 & Hr1 & Hc1 & Hf1 & Hn1).
        exists r, s1, t1. unfold ffmpeg_ram_encode, call. rewrite Hs, Hrun. auto 10.
      - destruct (set_bitrate_live bitrate s Hi)
          as (r & s1 & t1 & Hrun & Hi1 & Hr1 & Hc1 & Hf1 & Hn1).
        exists r, s1, t1. unfold ffmpeg_ram_set_bitrate, call. rewrite Hs, Hrun.
        rewrite Hf1. auto 10. }
    destruct Hone as (r & s1 & t1 & Hrun & Hi1 & Hr1 & Hc1 & Hf1 & Hn1).
    destruct (IH (<[a := s1]> h) a s1 (lookup_insert_eq _ _ _) Hi1
                ltac:(by rewrite Hc1) Hf1 Hall')
      as (rs & s2 & t2 & Hrest & Hlen & Hi2 & Hr2 & Hc2 & Hf2 & Hn2).
    exists (r :: rs), s2, (t1 ++ t2). cbn [requests]. rewrite Hrun, Hrest.
    rewrite insert_insert_eq, count_app, Hn1, Hn2. cbn.
    rewrite Hlen, Hr2, Hr1, Hc2, Hc1. auto 10.
Qed.

(** Once the frame is writable, the buffer long enough and, for a
    hardware back-end, the transfer done, [encode] hands one frame to the
    engine. *)
Lemma encode_sends (E : EncodeEnv) (data_ptr length obj ms : Z)
    (s : FFmpegRamEncoder) (f : AVFrame) (p : AVPacket) :
  frame_ s = Some f -> pkt_ s = Some p ->
  env_make_writable E = 0 ->
  fst (fst (fill_frame f data_ptr length (offset_ s))) = 0 ->
  (is_none (hw_device_type_ s) = false -> 0 <= env_hwframe_transfer E) ->
  exists r s' t,
    encode E data_ptr length obj ms s = Some (r, s', t) /\
    List.length (frames_sent t) = 1%nat.
Proof.
  intros Hf Hp Hw Hfill Htr. rewrite (encode_unfold _ _ _ _ _ _ f Hf), Hw.
  cbn [Z.eqb negb].
  destruct (fill_frame_frame f data_ptr length (offset_ s)) as (d' & _ & _ & Hfs & _).
  destruct (fill_frame f data_ptr length (offset_ s)) as [[r f'] t] eqn:Hrun.
  cbn [fst snd] in Hfill, Hfs. subst r. cbv zeta. cbn [Z.eqb negb].
  destruct (is_none (hw_device_type_ s)); cbn [negb].
  - destruct (do_encode_head E (Some f') obj (to_int64 ms) (set_frame_ (Some f') s) p Hp)
      as (r' & s' & t2 & Hdo & Hfs2 & _).
    rewrite Hdo. eexists _, _, _. cbn [after]. split; [reflexivity|].
    trace_norm. by rewrite Hfs, Hfs2.
  - replace (env_hwframe_transfer E <? 0) with false by (specialize (Htr eq_refl); lia).
    destruct (do_encode_head E (hw_frame_ s) obj (to_int64 ms) (set_frame_ (Some f') s) p Hp)
      as (r' & s' & t2 & Hdo & Hfs2 & _).
    rewrite Hdo. eexists _, _, _. cbn [after]. split; [reflexivity|].
    trace_norm. by rewrite Hfs, Hfs2.
Qed.

Section Create.
Context {build : Build}.
Context (h : Heap) (new_ok : bool) (E : InitEnv) (name : string).
Context (w ht pixfmt align bit_rate time_base_num time_base_den gop
         quality rc thread_count gpu : Z).
Context (strides offset : list Z) (length : option Z) (callback : Z).

(** The object the constructor builds, and the call that creates the
    session. *)
Local Abbreviation s0 :=
  (new_FFmpegRamEncoder name w ht pixfmt align bit_rate time_base_num
     time_base_den gop quality rc thread_count gpu callback).
Local Abbreviation created :=
  (ffmpeg_ram_new_encoder h new_ok E name w ht pixfmt align bit_rate
     time_base_num time_base_den gop quality rc thread_count gpu strides offset
     length callback).

(** The members the constructor takes from its arguments or leaves at
    their default initialisers. *)
Lemma new_session_fields :
  name_ s0 = name /\ callback_ s0 = callback /\ pixfmt_ s0 = pixfmt /\
  width_ s0 = w /\ height_ s0 = ht /\ hw_frame_ s0 = None /\
  hw_device_ctx_ s0 = false /\ offset_ s0 = zeros.
Proof.
  unfold new_FFmpegRamEncoder.
  destruct (contains name "vaapi"), (contains name "nvenc"), WIN32; repeat split.
Qed.

(** X15: [ffmpeg_ram_new_encoder] returns for every engine: [init]
    dereferences no NULL member on any of its paths.  It returns a handle
    exactly when the object could be allocated and every step of [init]
    succeeded; otherwise it returns NULL, no session is left in the heap
    and the caller's [linesize], [offset] and [length] are as they were. *)
Theorem new_encoder_failure_clean :
  exists res h' t,
    created = Returns res h' t /\
    (fst res <> NULL <-> new_ok = true /\ init_ok E length s0 = true) /\
    (fst res = NULL -> h' = h /\ snd res = (strides, offset, length)).
Proof.
  unfold ffmpeg_ram_new_encoder.
  destruct new_ok; cbn [negb].
  2:{ eexists _, _, _. split; [reflexivity|]. cbn. split; [|auto].
      split; [contradiction | intros [? _]; discriminate]. }
  pose proof (init_spec E strides offset length s0) as Hok.
  pose proof (init_state_spec E strides offset length s0) as Hst.
  destruct (init E strides offset length s0) as [[[[ok out] s'] t]|];
    [|contradiction].
  cbn [holds fst snd] in Hok, Hst. destruct Hok as [Hok _]. destruct Hst as (Hfail & _).
  destruct ok.
  - eexists _, _, _. split; [reflexivity|]. cbn. split; [|discriminate].
    split; [auto | discriminate].
  - rewrite free_encoder_releases. eexists _, _, _. split; [reflexivity|]. cbn.
    split; [|auto]. split; [contradiction | intros [_ Hi]; congruence].
Qed.


(** X17: a session whose name selects no hardware back-end is created
    without a single call to the hardware device, frame pool or hardware
    frame API, whether [init] succeeds or not. *)
Theorem new_encoder_software_no_hw_call :
  contains name "vaapi" = false ->
  contains name "nvenc" = false \/ WIN32 = false ->
  exists res h' t, created = Returns res h' t /\ count is_hw_call t = 0%nat.
Proof.
  intros Hv Hn.
  assert (Hty : hw_device_type_ s0 = AV_HWDEVICE_TYPE_NONE).
  { unfold new_FFmpegRamEncoder. rewrite Hv.
    destruct Hn as [-> | ->]; [reflexivity|]. destruct (contains name "nvenc"); reflexivity. }
  destruct new_session_fields as (_ & _ & _ & _ & _ & Hhf0 & Hdev0 & _).
  unfold ffmpeg_ram_new_encoder.
  destruct new_ok; cbn [negb].
  2:{ eexists _, _, _. split; reflexivity. }
  pose proof (init_state_spec E strides offset length s0) as Hst.
  destruct (init E strides offset length s0) as [[[[ok out0] s'] t0]|];
    [|contradiction].
  cbn [holds fst snd] in Hst. destruct Hst as (_ & Hsw & _).
  destruct (Hsw Hty) as (Hcount & Hhf & Hdev).
  destruct ok.
  - eexists _, _, _. split; [reflexivity | exact Hcount].
  - rewrite free_encoder_releases. eexists _, _, _. split; [reflexivity|].
    count_norm. rewrite Hcount. unfold releases. rewrite Hhf, Hdev, Hhf0, Hdev0.
    destruct (pkt_ s'), (frame_ s'), (c_ s'); reflexivity.
Qed.

(** A handle that is returned is the address of the session [init]
    left, put at a fresh address. *)
Lemma created_session (a : positive) (out : list Z * list Z * option Z)
    (h' : Heap) (t : Trace) :
  created = Returns (Addr a, out) h' t ->
  h !! a = None /\
  exists s', h' = <[a := s']> h /\
             init E strides offset length s0 = Some ((true, out), s', t).
Proof.
  unfold ffmpeg_ram_new_encoder.
  destruct new_ok; cbn [negb]; [|discriminate].
  destruct (init E strides offset length s0) as [[[[ok out0] s'] t0]|];
    [|discriminate].
  destruct ok.
  2:{ rewrite free_encoder_releases. discriminate. }
  intros [= <- <- <- <-]. split; [apply not_elem_of_dom, is_fresh|]. eauto.
Qed.

(** What [free_encoder] will call on the session [init] left. *)
Lemma init_releases (out : list Z * list Z * option Z) (s' : FFmpegRamEncoder)
    (t : Trace) :
  init E strides offset length s0 = Some ((true, out), s', t) ->
  initialised s' = true /\
  releases s' =
    [av_packet_free; av_frame_free] ++
    (if is_none (hw_device_type_ s0) then [] else [av_frame_free; av_buffer_unref]) ++
    [avcodec_free_context] /\
  callback_ s' = callback /\ first_ms_ s' = 0.
Proof.
  intros Hinit. pose proof (init_state_spec E strides offset length s0) as Hst.
  rewrite Hinit in Hst. cbn [holds fst snd] in Hst. destruct Hst as (_ & Hsw & Hok).
  destruct (Hok eq_refl)
    as (c0 & c & lout & _ & _ & _ & _ & _ & Hc & Hf & Hp & Hfirst & _ & Hcb & _ & Hhw).
  destruct new_session_fields as (_ & Hcb0 & _ & _ & _ & Hhf0 & Hdev0 & _).
  rewrite Hcb0 in Hcb.
  split; [unfold initialised; by rewrite Hc, Hf, Hp|].
  split; [|split; [exact Hcb | exact Hfirst]].
  unfold releases. rewrite Hc, Hf, Hp. cbn [released].
  destruct (hw_device_type_ s0) eqn:Hty; cbn [is_none].
  1:{ destruct (Hsw eq_refl) as (_ & -> & ->). rewrite Hhf0, Hdev0. reflexivity. }
  all: destruct Hhw as (-> & hf & -> & _); [discriminate | reflexivity].
Qed.

(** X18: the life of a session whose callback is not NULL.  Once
    [ffmpeg_ram_new_encoder] has returned a handle, any sequence of
    [ffmpeg_ram_encode] calls with timestamps below 2^63 and
    [ffmpeg_ram_set_bitrate] calls on it returns, whatever the engine
    answers, with one result code per call: no NULL or dangling handle and
    no NULL member is dereferenced, the callback is never called at address
    0, and [first_ms_] stays below 2^63, so that [ms - first_ms_] never
    leaves [int64_t]; no other session is touched.
    [ffmpeg_ram_free_encoder] then releases exactly what [init] allocated,
    each once: the packet, the working frame, for a hardware back-end the
    hardware frame and the device, and the context, in this order; the
    heap is again as it was before the session was created. *)
Theorem session_lifetime (a : positive) (out : list Z * list Z * option Z)
    (h1 : Heap) (t1 : Trace) (reqs : list Request) :
  created = Returns (Addr a, out) h1 t1 ->
  callback <> 0 ->
  Forall timely reqs ->
  exists rs h2 t2 s2,
    requests h1 (Addr a) reqs = Returns rs h2 t2 /\
    List.length rs = List.length reqs /\
    count is_null_call t2 = 0%nat /\
    h2 !! a = Some s2 /\ 0 <= first_ms_ s2 < TIME_MAX /\
    (forall b, b <> a -> h2 !! b = h !! b) /\
    ffmpeg_ram_free_encoder h2 (Addr a) =
      Returns tt h
        ([av_packet_free; av_frame_free] ++
         (if is_none (hw_device_type_ s0) then [] else [av_frame_free; av_buffer_unref]) ++
         [avcodec_free_context]).
Proof.
  intros Hnew Hcall Hall.
  destruct (created_session a out h1 t1 Hnew) as (Hfresh & s1 & -> & Hinit).
  destruct (init_releases out s1 t1 Hinit) as (Hi & Hrel & Hcb1 & Hfirst1).
  destruct (requests_live reqs (<[a := s1]> h) a s1 (lookup_insert_eq _ _ _) Hi
              ltac:(by rewrite Hcb1) ltac:(rewrite Hfirst1; unfold TIME_MAX; lia) Hall)
    as (rs & s2 & t2 & Hrun & Hlen & Hi2 & Hrel2 & _ & Hfirst2 & Hnull).
  rewrite insert_insert_eq in Hrun.
  exists rs, (<[a := s2]> h), t2, s2. split; [exact Hrun|]. split; [exact Hlen|].
  split; [exact Hnull|]. split; [apply lookup_insert_eq|]. split; [exact Hfirst2|].
  split.
  - intros b Hb. by rewrite lookup_insert_ne.
  - unfold ffmpeg_ram_free_encoder, call. rewrite lookup_insert_eq, free_encoder_releases.
    rewrite insert_insert_eq, delete_insert_id by exact Hfresh.
    by rewrite Hrel2, Hrel.
Qed.

(** X19: the length a session advertises is enough.  For a supported
    format, a height of at least 2, strides of at least 1 and planes that
    fit an [int], and an engine that gives the layout query the strides of
    the working frame: the session is created with the plane offsets
    [linesize[0]*height] and, for the planar format,
    [offset[0] + linesize[1]*height/2], both inside a buffer of the length
    written to [*length]; and every later [encode] with a buffer of at
    least that length passes the length check and hands a frame to the
    engine, provided the frame is writable and, for a hardware back-end,
    the transfer succeeds. *)
Theorem advertised_length_accepted (a : positive)
    (out : list Z * list Z * option Z) (h1 : Heap) (t1 : Trace) :
  let ls := snd (env_init_get_buffer E) in
  let l0 := at_ ls 0 in
  let l1 := at_ ls 1 in
  let l2 := at_ ls 2 in
  let total := l0 * ht + l1 * ht / 2 + l2 * ht / 2 in
  created = Returns (Addr a, out) h1 t1 ->
  snd (env_get_buffer (env_layout E)) = ls ->
  2 <= ht -> 1 <= l0 -> 1 <= l1 ->
  (pixfmt = AV_PIX_FMT_NV12 /\ (l0 + l1) * ht <= INT_MAX /\ l2 = 0) \/
  (pixfmt = AV_PIX_FMT_YUV420P /\ 1 <= l2 /\ (l0 + l1 + l2) * ht <= INT_MAX) ->
  exists s1,
    h1 !! a = Some s1 /\
    (length <> None -> snd out = Some total) /\
    at_ (offset_ s1) 0 = l0 * ht /\
    (pixfmt = AV_PIX_FMT_YUV420P -> at_ (offset_ s1) 1 = l0 * ht + l1 * ht / 2) /\
    0 < at_ (offset_ s1) 0 < total /\
    at_ (offset_ s1) 1 < total /\
    forall (E' : EncodeEnv) (data_ptr len obj ms : Z),
      total <= len ->
      env_make_writable E' = 0 ->
      (is_none (hw_device_type_ s1) = false -> 0 <= env_hwframe_transfer E') ->
      exists r s2 t,
        encode E' data_ptr len obj ms s1 = Some (r, s2, t) /\
        List.length (frames_sent t) = 1%nat.
Proof.
  intros ls l0 l1 l2 total Hnew Hsame Hh H0 H1 Hfmt.
  destruct (created_session a out h1 t1 Hnew) as (Hfresh & s1 & -> & Hinit).
  pose proof (init_state_spec E strides offset length s0) as Hst.
  rewrite Hinit in Hst. cbn [holds fst snd] in Hst. destruct Hst as (_ & _ & Hok).
  destruct (Hok eq_refl)
    as (c0 & c & lout & _ & Hlout & Hr0 & Hout & Hoff & _ & Hf & Hp & _ & _ & _ & Hty & _).
  destruct new_session_fields as (_ & _ & Hpf0 & Hw0 & Hh0 & _ & _ & Hoff0).
  rewrite Hpf0, Hw0, Hh0, Hoff0 in *. fold ls in Hf.
  assert (Hlayout : out_offset lout =
                      Some (if pixfmt =? AV_PIX_FMT_NV12
                            then l0 * ht :: repeat 0 7
                            else l0 * ht :: l0 * ht + l1 * ht / 2 :: repeat 0 6) /\
                    (length <> None -> out_length lout = Some total)).
  { subst lout. revert Hr0. unfold ffmpeg_ram_get_linesize_offset_length.
    destruct (env_frame_alloc (env_layout E)); cbn [negb fst snd]; [|discriminate].
    destruct (env_get_buffer (env_layout E)) as [r ls']. cbn [snd] in Hsame. subst ls'.
    destruct (Z.ltb_spec r 0) as [Hneg | Hpos]; cbn [fst snd]; [lia|].
    cbn [out_offset out_length andb].
    assert (Hluma : 2 <= l0 * ht) by nia.
    pose proof (half_bounds (l1 * ht) ltac:(nia)) as Hc1.
    destruct Hfmt as [(-> & Hfit & Hz) | (-> & H2 & Hfit)].
    - fold l0 l1 in Hfit. rewrite calculate_nv12 by assumption. fold l0 l1.
      cbn [andb Z.ltb Z.compare copy_until_zero repeat fst snd out_offset out_length].
      replace (l0 * ht =? 0) with false by lia.
      cbn [Z.eqb list_insert insert]. intros _. split; [reflexivity|].
      subst total. rewrite Hz. change (0 * ht / 2) with 0. rewrite Z.add_0_r.
      destruct length; [reflexivity | contradiction].
    - fold l0 l1 l2 in Hfit, H2.
      pose proof (half_bounds (l2 * ht) ltac:(nia)) as Hc2.
      rewrite calculate_yuv420p by assumption. fold l0 l1 l2.
      cbn [andb Z.ltb Z.compare copy_until_zero repeat fst snd out_offset out_length].
      replace (l0 * ht =? 0) with false by lia.
      replace (l0 * ht + l1 * ht / 2 =? 0) with false by lia.
      cbn [Z.eqb list_insert insert]. intros _. split; [reflexivity|].
      destruct length; [reflexivity | contradiction]. }
  destruct Hlayout as [Hoffs Hlen]. rewrite Hoffs in Hoff. cbn [default] in Hoff. unfold id in Hoff.
  exists s1. split; [apply lookup_insert_eq|].
  split; [intros Hsome; rewrite Hout; exact (Hlen Hsome)|].
  pose proof (half_bounds (l1 * ht) ltac:(nia)) as Hc1.
  assert (Hl2 : 0 <= l2 * ht / 2).
  { apply Z.div_pos; [|lia].
    destruct Hfmt as [(_ & _ & Hz) | (_ & H2 & _)]; [rewrite Hz|]; nia. }
  rewrite Hoff. split; [|split; [|split; [|split]]].
  - destruct (pixfmt =? AV_PIX_FMT_NV12); reflexivity.
  - intros ->. reflexivity.
  - destruct (pixfmt =? AV_PIX_FMT_NV12); cbv iota; rewrite at_head; subst total; lia.
  - destruct Hfmt as [(-> & _ & _) | (-> & H2 & _)].
    + change (AV_PIX_FMT_NV12 =? AV_PIX_FMT_NV12) with true. cbv iota.
      cbn [repeat]. rewrite at_second. subst total. lia.
    + change (AV_PIX_FMT_YUV420P =? AV_PIX_FMT_NV12) with false. cbv iota.
      rewrite at_second. subst total.
      pose proof (half_bounds (l2 * ht) ltac:(nia)). lia.
  - intros E' data_ptr len obj ms Hlen' Hw Htr.
    apply (encode_sends E' data_ptr len obj ms s1 _ _ Hf Hp Hw); [|exact Htr].
    set (f := {| format := pixfmt; width := w; height := ht; linesize := ls;
                 data := env_init_frame_data E; hw_frames_ctx := None |}).
    destruct (fill_frame_need f data_ptr len (offset_ s1) Hh H0 H1 Hfmt)
      as (Hiff & _ & _).
    apply Hiff. cbn [height linesize f]. fold l0 l1 l2.
    destruct (fill_frame_minimum_le_layout ht l0 l1 l2 ltac:(lia) ltac:(lia) ltac:(lia))
      as [Hle _].
    { destruct Hfmt as [(_ & _ & Hz) | (_ & H2 & _)]; lia. }
    fold total in Hle. lia.
Qed.

End Create.


Lemma new_encoder_software_no_hw_call_witness :
  exists (res : Handle * (list Z * list Z * option Z)) (h' : Heap) (t : Trace),
    ffmpeg_ram_new_encoder (build := Sample.windows) ∅ true
      (Sample.engine_ok Sample.nv12_64) "h264_amf" 64 64 AV_PIX_FMT_NV12 1 500000
      1 30 9999 1 0 1 0 zeros zeros (Some 0) 1 = Returns res h' t /\
    count is_hw_call t = 0%nat.
Proof.
  apply (new_encoder_software_no_hw_call (build := Sample.windows)).
  - reflexivity.
  - left. reflexivity.
Defined.

Lemma session_lifetime_witness :
  exists (out : list Z * list Z * option Z) (h1 : Heap) (t1 : Trace) (rs : list Z)
         (h2 : Heap) (t2 t3 : Trace),
    ffmpeg_ram_new_encoder (build := Sample.linux) ∅ true
      (Sample.engine_ok Sample.nv12_64) "h264_vaapi" 64 64 AV_PIX_FMT_NV12 1 500000
      1 30 9999 1 0 1 0 zeros zeros (Some 0) 1 = Returns (Addr 1, out) h1 t1 /\
    requests h1 (Addr 1)
      [Encode Sample.not_ready 4096 6144 7 0; SetBitrate 800000;
       Encode Sample.one_packet 4096 6144 7 33] = Returns rs h2 t2 /\
    count is_null_call t2 = 0%nat /\
    ffmpeg_ram_free_encoder h2 (Addr 1) = Returns tt ∅ t3 /\
    List.length t3 = 5%nat.
Proof.
  destruct (ffmpeg_ram_new_encoder (build := Sample.linux) ∅ true
              (Sample.engine_ok Sample.nv12_64) "h264_vaapi" 64 64 AV_PIX_FMT_NV12 1
              500000 1 30 9999 1 0 1 0 zeros zeros (Some 0) 1)
    as [[[|a] out] h1 t1|] eqn:Hnew.
  all: pose proof Hnew as Hc; vm_compute in Hc; try discriminate Hc.
  injection Hc as <- _ _ _.
  destruct (session_lifetime (build := Sample.linux) _ _ _ _ _ _ _ _ _ _ _ _ _ _ _ _
              _ _ _ _ _ _ _ _
              [Encode Sample.not_ready 4096 6144 7 0; SetBitrate 800000;
               Encode Sample.one_packet 4096 6144 7 33] Hnew)
    as (rs & h2 & t2 & s2 & Hrun & _ & Hnull & _ & _ & _ & Hfree).
  - discriminate.
  - repeat constructor; cbn; unfold TIME_MAX; lia.
  - eexists out, h1, t1, rs, h2, t2, _. split; [reflexivity|]. split; [exact Hrun|].
    split; [exact Hnull|]. split; [exact Hfree|]. reflexivity.
Defined.

Lemma advertised_length_accepted_witness :
  exists (out : list Z * list Z * option Z) (h1 : Heap) (t1 : Trace)
         (s1 : FFmpegRamEncoder),
    ffmpeg_ram_new_encoder (build := Sample.linux) ∅ true
      (Sample.engine_ok Sample.yuv420p_1366) "libx264" 1366 768 AV_PIX_FMT_YUV420P 1
      500000 1 30 9999 1 0 1 0 zeros zeros (Some 0) 1 = Returns (Addr 1, out) h1 t1 /\
    h1 !! 1%positive = Some s1 /\
    snd out = Some 1573632 /\
    exists r s2 t,
      encode Sample.one_packet 4096 1573632 7 40 s1 = Some (r, s2, t) /\
      List.length (frames_sent t) = 1%nat.
Proof.
  destruct (ffmpeg_ram_new_encoder (build := Sample.linux) ∅ true
              (Sample.engine_ok Sample.yuv420p_1366) "libx264" 1366 768
              AV_PIX_FMT_YUV420P 1 500000 1 30 9999 1 0 1 0 zeros zeros (Some 0) 1)
    as [[[|a] out] h1 t1|] eqn:Hnew.
  all: pose proof Hnew as Hc; vm_compute in Hc; try discriminate Hc.
  injection Hc as <- _ _ _.
  destruct (advertised_length_accepted (build := Sample.linux) _ _ _ _ _ _ _ _ _ _ _ _
              _ _ _ _ _ _ _ _ _ _ _ _ Hnew) as (s1 & Hs1 & Hlen & _ & _ & _ & _ & Henc).
  - reflexivity.
  - lia.
  - vm_compute. discriminate.
  - vm_compute. discriminate.
  - right. repeat split; vm_compute; discriminate.
  - exists out, h1, t1, s1. split; [reflexivity|]. split; [exact Hs1|].
    split; [apply Hlen; discriminate|].
    apply Henc; [vm_compute; discriminate | reflexivity | intros _; vm_compute; discriminate].
Defined.
